(** * Chain notification and filtered chain view of the light-wallet backend

    A shallow embedding of two Go packages:

    - [chainview]: [LWFilteredChainView], the filtered view over a watched
      set of unspent outputs (onFilteredBlockConnected,
      onFilteredBlockDisconnected, chainFilterer, FilterBlock, UpdateFilter);
    - [lightwalletnotify]: [LightWalletNotifier], the notification
      dispatcher and the historical confirmation look-ups
      (notificationDispatcher, historicalConfDetails, confDetailsFromTxIndex,
      confDetailsManually, handleBlockConnected, notifyBlockEpochs,
      notifyBlockEpochClient).

    Beside these, the file follows the two packages over their lifetime:
    NewLWfFilteredChainView, Start and Stop of the view, Start and Stop of
    the notifier, RegisterConfirmationsNtfn and RegisterBlockEpochNtfn.

    Go integers are [Z] with the conversions written out, maps are [gmap],
    slices are lists, a [(value, error)] return is a [result] or a pair of
    options, and every object mutated through a pointer is threaded through
    the functions explicitly. *)

From Stdlib Require Import ZArith Lia.
From stdpp Require Import gmap strings list fin_maps.

(** ** Shared Go types *)

(** Go's [error] values that the two packages produce or pass on. *)
Inductive error : Type :=
  | ErrChainNotifierShuttingDown
      (* chainntnfs.ErrChainNotifierShuttingDown *)
  | RPCError (Code : Z) (Message : string)
      (* *btcjson.RPCError *)
  | OtherError (msg : string)
      (* errors.New / fmt.Errorf without a wrapped cause, or any other
         error value handed back by a collaborator *)
  | Errorf (format : string) (cause : error).
      (* fmt.Errorf(format, ..., err) *)

(** A Go [(T, error)] return where exactly one side is meaningful. *)
Inductive result (A : Type) : Type :=
  | Ok (a : A)
  | Err (e : error).
Arguments Ok {A} a.
Arguments Err {A} e.

(** uint32(x): conversion of a Go integer to an unsigned 32-bit one. *)
Definition uint32 (x : Z) : Z := (x mod 2 ^ 32)%Z.

(** The value an int32 holds after an operation whose exact result is [x]:
    two's complement wrap-around, as atomic.AddInt32 does. *)
Definition int32 (x : Z) : Z := ((x + 2 ^ 31) mod 2 ^ 32 - 2 ^ 31)%Z.

(** The same for a uint64, as atomic.AddUint64 does. *)
Definition uint64 (x : N) : N := (x mod 2 ^ 64)%N.

(** Types of btcd's wire package, with the fields the code reads. *)
Module wire.

(** chainhash.Hash, a 256-bit digest, as the number it encodes. *)
Definition Hash : Type := N.
Bind Scope N_scope with Hash.

Record OutPoint : Type := mkOutPoint {
  op_Hash : Hash;
  op_Index : N
}.

#[global] Instance OutPoint_eq_dec : EqDecision OutPoint.
Proof. solve_decision. Defined.

#[global] Instance OutPoint_countable : Countable OutPoint :=
  inj_countable' (fun op => (op_Hash op, op_Index op))
                 (fun p => mkOutPoint p.1 p.2)
                 (fun op => match op with mkOutPoint _ _ => eq_refl end).

Record TxIn : Type := mkTxIn {
  PreviousOutPoint : OutPoint;
  Sequence : Z
}.

Record TxOut : Type := mkTxOut {
  Value : Z;
  PkScript : list Byte.byte
}.

Record MsgTx : Type := mkMsgTx {
  Version : Z;
  TxIn_ : list TxIn;     (* MsgTx.TxIn *)
  TxOut_ : list TxOut;   (* MsgTx.TxOut *)
  LockTime : Z
}.

(** The header is only ever hashed; [BlockHash] is taken from btcd. *)
Record BlockHeader : Type := mkBlockHeader {
  PrevBlock : Hash;
  MerkleRoot : Hash;
  Nonce : Z
}.

Record MsgBlock : Type := mkMsgBlock {
  Header : BlockHeader;
  Transactions : list MsgTx
}.

End wire.

(** btcutil.Tx wraps a [wire.MsgTx]; [tx.MsgTx()] returns it. *)
Record btcutilTx : Type := mkBtcutilTx {
  Tx_MsgTx : wire.MsgTx
}.

(** ** Package chainview *)
Module chainview.
Import wire.

Inductive chainEventType : Type := connected | disconnected.

(** [Transactions] is a [[]*wire.MsgTx]: a slot holds a pointer, [None]
    being the nil pointer a fresh [make] leaves there. *)
Record FilteredBlock : Type := mkFilteredBlock {
  Hash : wire.Hash;
  Height : Z;
  Transactions : list (option wire.MsgTx)
}.

Record blockEvent : Type := mkBlockEvent {
  eventType : chainEventType;
  block : FilteredBlock
}.

(** channeldb.EdgePoint *)
Record EdgePoint : Type := mkEdgePoint {
  FundingPkScript : list Byte.byte;
  OutPoint_ : OutPoint
}.

Record filterUpdate : Type := mkFilterUpdate {
  newUtxos : list OutPoint;
  updateHeight : Z
}.

(** The fields of [LWFilteredChainView] that the methods below touch.
    [quit] tells whether the quit channel has been closed. *)
Record LWFilteredChainView : Type := mkView {
  chainFilter : gmap OutPoint (list Byte.byte);
  blockQueue : list blockEvent;
  quit : bool
}.

(** Modelled from the spec: blockEventQueue.Add, whose source file is not
    among the files verified here. "Add(event) appends to the tail"; the
    queue is the sequence of events in the order they were added. *)
Definition blockQueue_Add (ev : blockEvent) (c : LWFilteredChainView)
  : LWFilteredChainView :=
  {| chainFilter := chainFilter c;
     blockQueue := blockQueue c ++ [ev];
     quit := quit c |}.

Definition set_chainFilter (f : gmap OutPoint (list Byte.byte))
    (c : LWFilteredChainView) : LWFilteredChainView :=
  {| chainFilter := f; blockQueue := blockQueue c; quit := quit c |}.

Section WithBackend.

(** header.BlockHash() *)
Variable BlockHash : BlockHeader -> wire.Hash.
(** c.chainClient.GetBlockHeight(blockHash) *)
Variable GetBlockHeight : wire.Hash -> result Z.
(** Go's select takes any one of its ready cases. When the quit channel is
    closed while chainFilterer still stands ready to receive, this tells
    whether the select of UpdateFilter takes the quit case, for the update
    of the given height. *)
Variable selectQuit : Z -> bool.

(** The inner loop of onFilteredBlockConnected, over [mtx.TxIn]:
    [delete(c.chainFilter, txIn.PreviousOutPoint)] for every [txIn]. *)
Fixpoint deleteSpent (ins : list TxIn) (f : gmap OutPoint (list Byte.byte))
  : gmap OutPoint (list Byte.byte) :=
  match ins with
  | [] => f
  | txIn :: rest => deleteSpent rest (delete (PreviousOutPoint txIn) f)
  end.

(** The outer loop [for i, tx := range txns], from index [i] on:
    [mtxs[i] = mtx], then the inner loop. *)
Fixpoint connectLoop (i : nat) (txns : list btcutilTx)
    (mtxs : list (option wire.MsgTx)) (f : gmap OutPoint (list Byte.byte))
  : list (option wire.MsgTx) * gmap OutPoint (list Byte.byte) :=
  match txns with
  | [] => (mtxs, f)
  | tx :: rest =>
      let mtx := Tx_MsgTx tx in
      connectLoop (S i) rest (<[i := Some mtx]> mtxs)
                  (deleteSpent (TxIn_ mtx) f)
  end.

Definition onFilteredBlockConnected (height : Z) (header : BlockHeader)
    (txns : list btcutilTx) (c : LWFilteredChainView)
  : LWFilteredChainView :=
  let mtxs0 := replicate (length txns) None in
  let '(mtxs, f) := connectLoop 0 txns mtxs0 (chainFilter c) in
  let block := {| Hash := BlockHash header;
                  Height := uint32 height;
                  Transactions := mtxs |} in
  blockQueue_Add {| eventType := connected; block := block |}
                 (set_chainFilter f c).

Definition onFilteredBlockDisconnected (height : Z)
    (header : BlockHeader) (c : LWFilteredChainView)
  : LWFilteredChainView :=
  let filteredBlock := {| Hash := BlockHash header;
                          Height := uint32 height;
                          Transactions := [] |} in
  blockQueue_Add {| eventType := disconnected; block := filteredBlock |} c.

(** What one iteration of chainFilterer's select can receive. *)
Inductive filtererEvent : Type :=
  | recvFilterUpdate (update : filterUpdate)
  | recvRescanErr (err : error)
  | recvQuit.

(** One iteration of the [for { select { ... } }] of chainFilterer:
    [None] when the goroutine returns. The filter-update case only
    logs; the code that inserts into the filter is commented out. *)
Definition chainFilterer_step (ev : filtererEvent)
    (c : LWFilteredChainView) : option LWFilteredChainView :=
  match ev with
  | recvFilterUpdate update => Some c
  | recvRescanErr err => Some c
  | recvQuit => None
  end.

(** UpdateFilter: builds the update and hands it to chainFilterer over
    the unbuffered channel, or gives up on a closed quit channel. The send
    completes when chainFilterer takes its filter-update case. *)
Definition UpdateFilter (ops : list EdgePoint) (updateHeight : Z)
    (c : LWFilteredChainView) : option error * LWFilteredChainView :=
  let newUtxos := OutPoint_ <$> ops in
  if quit c && selectQuit updateHeight then
    (Some (OtherError "chain filter shutting down"), c)
  else
    let update := {| newUtxos := newUtxos;
                     updateHeight := updateHeight |} in
    match chainFilterer_step (recvFilterUpdate update) c with
    | Some c' => (None, c')
    | None => (None, c)
    end.

(** A sequence of UpdateFilter calls, one after the other. *)
Fixpoint UpdateFilter_seq (calls : list (list EdgePoint * Z))
    (c : LWFilteredChainView) : LWFilteredChainView :=
  match calls with
  | [] => c
  | (ops, h) :: rest => UpdateFilter_seq rest (UpdateFilter ops h c).2
  end.

(** FilterBlock reads the view and never writes it; the view is
    returned next to the Go result to make that visible. *)
Definition FilterBlock (blockHash : wire.Hash) (c : LWFilteredChainView)
  : (option FilteredBlock * option error) * LWFilteredChainView :=
  match GetBlockHeight blockHash with
  | Err err => ((None, Some err), c)
  | Ok blockHeight =>
      let filteredBlock := {| Hash := blockHash;
                              Height := uint32 blockHeight;
                              Transactions := [] |} in
      if decide (size (chainFilter c) = 0) then
        ((Some filteredBlock, None), c)
      else
        let relevantPoints := (map_to_list (chainFilter c)).*2 in
        ((Some filteredBlock, None), c)
  end.

End WithBackend.

(** Two terms of the properties below, not of the source. *)

(** The previous-outpoints of all inputs of all transactions of a block. *)
Definition spentOutPoints (txns : list btcutilTx) : list OutPoint :=
  txns ≫= (fun tx => PreviousOutPoint <$> TxIn_ (Tx_MsgTx tx)).

(** The transaction slice of a connected block: one non-nil slot per
    transaction, in block order. *)
Definition allTransactions (txns : list btcutilTx)
  : list (option wire.MsgTx) :=
  (fun tx => Some (Tx_MsgTx tx)) <$> txns.

(** *** The view over its lifetime *)

(** A call that a user of the view, or the chain client, makes on it. *)
Inductive viewCall : Type :=
  | callBlockConnected (height : Z) (header : BlockHeader)
                       (txns : list btcutilTx)
  | callBlockDisconnected (height : Z) (header : BlockHeader)
  | callUpdateFilter (ops : list EdgePoint) (updateHeight : Z)
  | callFilterBlock (blockHash : wire.Hash).

(** The fields of [LWFilteredChainView] that Start and Stop touch, around
    the view itself: the two int32 guards, whether the block queue has been
    started and stopped, whether the chainFilterer goroutine is running,
    and how often chainClient.Start() has been called. *)
Record viewProcess : Type := mkViewProcess {
  started : Z;
  stopped : Z;
  view : LWFilteredChainView;
  clientStarts : nat;
  queueStarted : bool;
  queueStopped : bool;
  filtererRunning : bool
}.

(** NewLWfFilteredChainView: nothing watched, nothing queued, not started. *)
Definition NewLWfFilteredChainView : viewProcess :=
  {| started := 0; stopped := 0;
     view := {| chainFilter := ∅; blockQueue := []; quit := false |};
     clientStarts := 0;
     queueStarted := false; queueStopped := false;
     filtererRunning := false |}.

Section Lifetime.

Variable BlockHash : BlockHeader -> wire.Hash.
Variable GetBlockHeight : wire.Hash -> result Z.
Variable selectQuit : Z -> bool.

Definition runCall (call : viewCall) (c : LWFilteredChainView)
  : LWFilteredChainView :=
  match call with
  | callBlockConnected height header txns =>
      onFilteredBlockConnected BlockHash height header txns c
  | callBlockDisconnected height header =>
      onFilteredBlockDisconnected BlockHash height header c
  | callUpdateFilter ops updateHeight =>
      (UpdateFilter selectQuit ops updateHeight c).2
  | callFilterBlock blockHash =>
      (FilterBlock GetBlockHeight blockHash c).2
  end.

Fixpoint runCalls (calls : list viewCall) (c : LWFilteredChainView)
  : LWFilteredChainView :=
  match calls with
  | [] => c
  | call :: rest => runCalls rest (runCall call c)
  end.

(** Start. [clientStart] is what chainClient.Start() answers during this
    call and [bestBlock] what chainClient.GetBestBlock() answers; the hash
    of the best block is printed and not used otherwise. *)
Definition Start (clientStart : option error)
    (bestBlock : result (wire.Hash * Z)) (p : viewProcess)
  : option error * viewProcess :=
  let started' := int32 (started p + 1) in
  if negb (started' =? 1)%Z then
    (None,
     {| started := started'; stopped := stopped p; view := view p;
        clientStarts := clientStarts p;
        queueStarted := queueStarted p; queueStopped := queueStopped p;
        filtererRunning := filtererRunning p |})
  else
    match clientStart with
    | Some err =>
        (Some err,
         {| started := started'; stopped := stopped p; view := view p;
            clientStarts := S (clientStarts p);
            queueStarted := queueStarted p; queueStopped := queueStopped p;
            filtererRunning := filtererRunning p |})
    | None =>
        match bestBlock with
        | Err err =>
            (Some err,
             {| started := started'; stopped := stopped p; view := view p;
                clientStarts := S (clientStarts p);
                queueStarted := queueStarted p;
                queueStopped := queueStopped p;
                filtererRunning := filtererRunning p |})
        | Ok (startingPoint, _) =>
            (None,
             {| started := started'; stopped := stopped p; view := view p;
                clientStarts := S (clientStarts p);
                queueStarted := true;
                queueStopped := queueStopped p;
                filtererRunning := true |})
        end
    end.

(** Stop: closes quit, stops the block queue and waits for chainFilterer,
    which returns once it sees quit closed. *)
Definition Stop (p : viewProcess) : option error * viewProcess :=
  let stopped' := int32 (stopped p + 1) in
  if negb (stopped' =? 1)%Z then
    (None,
     {| started := started p; stopped := stopped'; view := view p;
        clientStarts := clientStarts p;
        queueStarted := queueStarted p; queueStopped := queueStopped p;
        filtererRunning := filtererRunning p |})
  else
    (None,
     {| started := started p; stopped := stopped';
        view := {| chainFilter := chainFilter (view p);
                   blockQueue := blockQueue (view p);
                   quit := true |};
        clientStarts := clientStarts p;
        queueStarted := queueStarted p; queueStopped := true;
        filtererRunning := false |}).

(** Start called once for each pair of answers of the chain client, one
    call after the other, with what each call returned. *)
Fixpoint Start_seq (answers : list (option error * result (wire.Hash * Z)))
    (p : viewProcess) : list (option error) * viewProcess :=
  match answers with
  | [] => ([], p)
  | (clientStart, bestBlock) :: rest =>
      let '(e, p1) := Start clientStart bestBlock p in
      let '(es, p2) := Start_seq rest p1 in
      (e :: es, p2)
  end.

End Lifetime.

(** A process in which only the guard of Start has moved. (A term of the
    properties below, not of the source.) *)
Definition with_started (s : Z) (p : viewProcess) : viewProcess :=
  {| started := s; stopped := stopped p; view := view p;
     clientStarts := clientStarts p;
     queueStarted := queueStarted p; queueStopped := queueStopped p;
     filtererRunning := filtererRunning p |}.

(** Terms of the properties below, not of the source: the outpoints spent
    by the connected blocks of a sequence of calls, and the events that the
    block calls of the sequence queue, in call order. *)
Fixpoint spentByCalls (calls : list viewCall) : list OutPoint :=
  match calls with
  | [] => []
  | callBlockConnected _ _ txns :: rest =>
      spentOutPoints txns ++ spentByCalls rest
  | _ :: rest => spentByCalls rest
  end.

Fixpoint eventsOfCalls (BlockHash : BlockHeader -> wire.Hash)
    (calls : list viewCall) : list blockEvent :=
  match calls with
  | [] => []
  | callBlockConnected height header txns :: rest =>
      {| eventType := connected;
         block := {| Hash := BlockHash header;
                     Height := uint32 height;
                     Transactions := allTransactions txns |} |}
      :: eventsOfCalls BlockHash rest
  | callBlockDisconnected height header :: rest =>
      {| eventType := disconnected;
         block := {| Hash := BlockHash header;
                     Height := uint32 height;
                     Transactions := [] |} |}
      :: eventsOfCalls BlockHash rest
  | _ :: rest => eventsOfCalls BlockHash rest
  end.

End chainview.


(** strings.Contains(s, substr) *)
Fixpoint strings_Contains (s substr : string) : bool :=
  if String.prefix substr s then true
  else match s with
       | EmptyString => false
       | String _ s' => strings_Contains s' substr
       end.

(** What one pass through the body of a Go [for] loop does: it leaves the
    function with a return value, or goes on to the next round ([continue]
    or the end of the body). *)
Inductive loopStep (A : Type) : Type :=
  | Return (a : A)
  | Next.
Arguments Return {A} a.
Arguments Next {A}.

(** ** Package lightwalletnotify *)
Module lightwalletnotify.
Import wire.

(** chainntnfs.BlockEpoch; [Height] is an int32. *)
Record BlockEpoch : Type := mkBlockEpoch {
  Height : Z;
  Hash : wire.Hash
}.

(** chainntnfs.TxConfirmation *)
Record TxConfirmation : Type := mkTxConfirmation {
  BlockHash : wire.Hash;
  BlockHeight : Z;
  TxIndex : Z;
  Tx : MsgTx
}.

(** chainntnfs.TxConfStatus, in the order of its iota block. *)
Inductive TxConfStatus : Type :=
  | TxFoundMempool
  | TxFoundIndex
  | TxNotFoundIndex
  | TxFoundManually
  | TxNotFoundManually.

(** chainntnfs.ConfRequest; [PkScript_Script] is [PkScript.Script()]. *)
Record ConfRequest : Type := mkConfRequest {
  TxID : wire.Hash;
  PkScript_Script : list Byte.byte
}.

(** chainntnfs.HistoricalConfDispatch; the heights are uint32. *)
Record HistoricalConfDispatch : Type := mkHistoricalConfDispatch {
  hcd_ConfRequest : ConfRequest;
  StartHeight : Z;
  EndHeight : Z
}.

(** btcjson.TxRawResult *)
Record TxRawResult : Type := mkTxRawResult {
  Hex : string;
  raw_BlockHash : string
}.

(** btcjson.GetBlockVerboseResult; [vb_Height] is an int64. *)
Record GetBlockVerboseResult : Type := mkGetBlockVerboseResult {
  vb_Tx : list string;
  vb_Height : Z
}.

(** chain.BlockConnected *)
Record BlockConnected : Type := mkBlockConnected {
  bc_Hash : wire.Hash;
  bc_Height : Z
}.

(** Everything the notifier calls outside its own file: the chain backend
    (chain.LightWalletClient), the compact-filter library, btcd's hash and
    transaction codecs, and the transaction notifier of chainntnfs. Each is
    taken as given; a method that can fail returns a [result], and one that
    returns only an error returns [option error]. *)
Record Collaborators : Type := mkCollaborators {
  CFilter : Type;
  (* b.chainConn *)
  GetBlockHash : Z -> result wire.Hash;
  GetCFilter : wire.Hash -> result (option CFilter);
  GetFilterBlock : wire.Hash -> result (list MsgTx);
  GetBlock : wire.Hash -> result MsgBlock;
  GetRawTransactionVerbose : wire.Hash -> result TxRawResult;
  GetBlockVerbose : wire.Hash -> result GetBlockVerboseResult;
  (* builder.DeriveKey and the Match method of gcs.Filter *)
  DeriveKey : wire.Hash -> N;
  Match : CFilter -> N -> list Byte.byte -> result bool;
  (* ConfRequest.MatchesTx *)
  MatchesTx : ConfRequest -> MsgTx -> bool;
  (* btcjson.ErrRPCNoTxInfo *)
  ErrRPCNoTxInfo : Z;
  (* chainhash.NewHashFromStr, Hash.String, hex.DecodeString,
     MsgTx.Deserialize *)
  NewHashFromStr : string -> result wire.Hash;
  Hash_String : wire.Hash -> string;
  hex_DecodeString : string -> result (list Byte.byte);
  Deserialize : list Byte.byte -> result MsgTx;
  (* chainntnfs.GetClientMissedBlocks(b.chainConn, hint, bestHeight, false) *)
  GetClientMissedBlocks : BlockEpoch -> Z -> result (list BlockEpoch);
  (* b.txNotifier: the answers of ConnectTip and NotifyHeight *)
  ConnectTip : wire.Hash -> Z -> list btcutilTx -> option error;
  NotifyHeight : Z -> option error
}.

(** The calls the notifier makes on b.txNotifier, in the order made. *)
Inductive txNotifierCall : Type :=
  | callConnectTip (hash : wire.Hash) (height : Z) (txns : list btcutilTx)
  | callNotifyHeight (height : Z)
  | callUpdateConfDetails (req : ConfRequest)
                          (details : option TxConfirmation).

(** blockEpochRegistration. A channel is the sequence of values sent into
    it, oldest first; [cancelChan] tells whether that channel is closed.

    Modelled from the spec: queue.ConcurrentQueue, whose source is not
    among the files verified here. The dispatcher "enqueues and moves on":
    a send on [epochQueue.ChanIn()] is always accepted and keeps its place
    in line. *)
Record blockEpochRegistration : Type := mkBlockEpochRegistration {
  epochID : N;
  epochQueue : list BlockEpoch;
  reg_bestBlock : option BlockEpoch;
  errorChan : list (option error);
  cancelChan : bool
}.

(** The fields of [LightWalletNotifier] that the dispatcher and its helpers
    touch. A registration is a heap object shared by the subscriber and the
    map; here it lives in the map under its [epochID], and every write to it
    goes through the map. [txNotifier] is the log of calls made on the
    transaction notifier, [resolverTasks] the historical look-ups launched
    as goroutines, [quit] whether the quit channel is closed. *)
Record LightWalletNotifier : Type := mkNotifier {
  blockEpochClients : gmap N blockEpochRegistration;
  bestBlock : BlockEpoch;
  txNotifier : list txNotifierCall;
  resolverTasks : list HistoricalConfDispatch;
  quit : bool
}.

Definition set_blockEpochClients (m : gmap N blockEpochRegistration)
    (b : LightWalletNotifier) : LightWalletNotifier :=
  {| blockEpochClients := m; bestBlock := bestBlock b;
     txNotifier := txNotifier b; resolverTasks := resolverTasks b;
     quit := quit b |}.

Definition set_bestBlock (e : BlockEpoch) (b : LightWalletNotifier)
  : LightWalletNotifier :=
  {| blockEpochClients := blockEpochClients b; bestBlock := e;
     txNotifier := txNotifier b; resolverTasks := resolverTasks b;
     quit := quit b |}.

Definition log_txNotifier (c : txNotifierCall) (b : LightWalletNotifier)
  : LightWalletNotifier :=
  {| blockEpochClients := blockEpochClients b; bestBlock := bestBlock b;
     txNotifier := txNotifier b ++ [c]; resolverTasks := resolverTasks b;
     quit := quit b |}.

Definition spawn_resolver (msg : HistoricalConfDispatch)
    (b : LightWalletNotifier) : LightWalletNotifier :=
  {| blockEpochClients := blockEpochClients b; bestBlock := bestBlock b;
     txNotifier := txNotifier b; resolverTasks := resolverTasks b ++ [msg];
     quit := quit b |}.

Definition push_epoch (e : BlockEpoch) (r : blockEpochRegistration)
  : blockEpochRegistration :=
  {| epochID := epochID r; epochQueue := epochQueue r ++ [e];
     reg_bestBlock := reg_bestBlock r; errorChan := errorChan r;
     cancelChan := cancelChan r |}.

Definition push_error (e : option error) (r : blockEpochRegistration)
  : blockEpochRegistration :=
  {| epochID := epochID r; epochQueue := epochQueue r;
     reg_bestBlock := reg_bestBlock r; errorChan := errorChan r ++ [e];
     cancelChan := cancelChan r |}.

(** How one round of the dispatcher's [for { select { ... } }] ends: back to
    the top of the loop, out of the loop ([break out]), or stuck forever on
    a channel send that nobody will take. *)
Inductive outcome : Type :=
  | Continue (b : LightWalletNotifier)
  | Exit (b : LightWalletNotifier)
  | Blocked (b : LightWalletNotifier).

(** What the dispatcher's select can receive. *)
Inductive dispatcherEvent : Type :=
  | recvCancel (cancelMsg : N)
  | recvHistoricalConfDispatch (msg : HistoricalConfDispatch)
  | recvHistoricalSpendDispatch
  | recvBlockEpochRegistration (msg : blockEpochRegistration)
  | recvBlockConnected (item : BlockConnected)
  | recvBlockDisconnected
  | recvRelevantTx
  | recvQuit.

Section WithCollaborators.

Variable env : Collaborators.

(** Whether the quit channel is seen closed by the shutdown check that a
    historical scan makes before it processes the given height. *)
Variable quitClosedAt : Z -> bool.

(** Go's select takes any one of its ready cases. When a closed channel
    makes a receive case ready next to the send of notifyBlockEpochClient,
    this tells whether the runtime takes the receive, for the given client
    and height. *)
Variable selectClosed : N -> Z -> bool.

(** *** historicalConfDetails *)

(** [for i, tx := range transactions]: the first transaction that matches
    the request, with its index. *)
Fixpoint firstMatch (confRequest : ConfRequest) (i : nat)
    (transactions : list MsgTx) : option (nat * MsgTx) :=
  match transactions with
  | [] => None
  | tx :: rest =>
      if MatchesTx env confRequest tx then Some (i, tx)
      else firstMatch confRequest (S i) rest
  end.

(** The body of the loop of historicalConfDetails at one [scanHeight]. *)
Definition historicalConfDetails_body (confRequest : ConfRequest)
    (scanHeight : Z)
  : loopStep (option TxConfirmation * option error) :=
  if quitClosedAt scanHeight then
    Return (None, Some ErrChainNotifierShuttingDown)
  else
    match GetBlockHash env scanHeight with
    | Err err =>
        Return (None,
                Some (Errorf "unable to get header for height=%v: %v" err))
    | Ok blockHash =>
        match GetCFilter env blockHash with
        | Err err =>
            Return (None,
                    Some (Errorf
                      "unable to retrieve regular filter for height=%v: %v"
                      err))
        | Ok None => Next
        | Ok (Some filter) =>
            let key := DeriveKey env blockHash in
            match Match env filter key (PkScript_Script confRequest) with
            | Err err =>
                Return (None, Some (Errorf "unable to query filter: %v" err))
            | Ok false => Next
            | Ok true =>
                match GetFilterBlock env blockHash with
                | Err err =>
                    Return (None,
                            Some (Errorf
                              "unable to get block from network: %v" err))
                | Ok transactions =>
                    match firstMatch confRequest 0 transactions with
                    | Some (i, tx) =>
                        Return (Some {| Tx := tx;
                                        BlockHash := blockHash;
                                        BlockHeight := scanHeight;
                                        TxIndex := uint32 (Z.of_nat i) |},
                                None)
                    | None => Next
                    end
                end
            end
        end
    end.

(** The loop of historicalConfDetails: [scanHeight] starts at [endHeight],
    runs while [scanHeight >= startHeight && scanHeight > 0], and is
    decremented after each round. The uint32 counter is the natural number [n]: the test [scanHeight > 0]
    is the match on [n], and [scanHeight--] is the step to its predecessor,
    which cannot wrap because the counter is positive there. After the loop
    the function returns [nil, nil]. *)
Fixpoint historicalConfDetails_loop (confRequest : ConfRequest)
    (startHeight : Z) (n : nat) : option TxConfirmation * option error :=
  match n with
  | O => (None, None)
  | S n' =>
      let scanHeight := Z.of_nat n in
      if (scanHeight >=? startHeight)%Z then
        match historicalConfDetails_body confRequest scanHeight with
        | Return r => r
        | Next => historicalConfDetails_loop confRequest startHeight n'
        end
      else (None, None)
  end.

Definition historicalConfDetails (confRequest : ConfRequest)
    (startHeight endHeight : Z) : option TxConfirmation * option error :=
  historicalConfDetails_loop confRequest startHeight (Z.to_nat endHeight).

(** *** confDetailsFromTxIndex *)

(** [for txIndex, txHash := range block.Tx] with the body that decodes the
    transaction at the first index whose id is [txidStr]; [Next] when the
    loop runs to its end. *)
Fixpoint confDetailsFromTxIndex_loop (rawTxRes : TxRawResult)
    (blockHash : wire.Hash) (block : GetBlockVerboseResult)
    (txidStr : string) (txIndex : nat) (txs : list string)
  : loopStep (option TxConfirmation * TxConfStatus * option error) :=
  match txs with
  | [] => Next
  | txHash :: rest =>
      if negb (String.eqb txHash txidStr) then
        confDetailsFromTxIndex_loop rawTxRes blockHash block txidStr
                                    (S txIndex) rest
      else
        match hex_DecodeString env (Hex rawTxRes) with
        | Err err =>
            Return (None, TxFoundIndex,
                    Some (Errorf "unable to deserialize tx %v: %v" err))
        | Ok rawTx =>
            match Deserialize env rawTx with
            | Err err =>
                Return (None, TxFoundIndex,
                        Some (Errorf "unable to deserialize tx %v: %v" err))
            | Ok tx =>
                Return (Some {| Tx := tx;
                                BlockHash := blockHash;
                                BlockHeight := uint32 (vb_Height block);
                                TxIndex := uint32 (Z.of_nat txIndex) |},
                        TxFoundIndex, None)
            end
        end
  end.

Definition txNotFoundErr : string :=
  "No such mempool or blockchain transaction".

Definition confDetailsFromTxIndex (txid : wire.Hash)
  : option TxConfirmation * TxConfStatus * option error :=
  match GetRawTransactionVerbose env txid with
  | Err err =>
      match err with
      | RPCError code message =>
          if (code =? ErrRPCNoTxInfo env)%Z
             && strings_Contains message txNotFoundErr
          then (None, TxNotFoundIndex, None)
          else (None, TxNotFoundIndex,
                Some (Errorf "unable to query for txid %v: %v" err))
      | _ => (None, TxNotFoundIndex,
              Some (Errorf "unable to query for txid %v: %v" err))
      end
  | Ok rawTxRes =>
      if String.eqb (raw_BlockHash rawTxRes) EmptyString then
        (None, TxFoundMempool, None)
      else
        match NewHashFromStr env (raw_BlockHash rawTxRes) with
        | Err err =>
            (None, TxNotFoundIndex,
             Some (Errorf
               "unable to get block hash %v for historical dispatch: %v" err))
        | Ok blockHash =>
            match GetBlockVerbose env blockHash with
            | Err err =>
                (None, TxNotFoundIndex,
                 Some (Errorf
                   ("unable to get block with hash %v for "
                    +:+ "historical dispatch: %v")
                   err))
            | Ok block =>
                let txidStr := Hash_String env txid in
                match confDetailsFromTxIndex_loop rawTxRes blockHash block
                        txidStr 0 (vb_Tx block) with
                | Return r => r
                | Next =>
                    (None, TxNotFoundIndex,
                     Some (OtherError "unable to locate tx %v in block %v"))
                end
            end
        end
  end.

(** *** confDetailsManually *)

Fixpoint firstMatchManually (confRequest : ConfRequest) (txIndex : nat)
    (transactions : list MsgTx) : option (nat * MsgTx) :=
  match transactions with
  | [] => None
  | tx :: rest =>
      if MatchesTx env confRequest tx then Some (txIndex, tx)
      else firstMatchManually confRequest (S txIndex) rest
  end.

Definition confDetailsManually_body (confRequest : ConfRequest)
    (height : Z)
  : loopStep (option TxConfirmation * TxConfStatus * option error) :=
  if quitClosedAt height then
    Return (None, TxNotFoundManually, Some ErrChainNotifierShuttingDown)
  else
    match GetBlockHash env height with
    | Err err =>
        Return (None, TxNotFoundManually,
                Some (OtherError
                  "unable to get hash from block with height %d"))
    | Ok blockHash =>
        match GetBlock env blockHash with
        | Err err =>
            Return (None, TxNotFoundManually,
                    Some (Errorf "unable to get block with hash %v: %v" err))
        | Ok block =>
            match firstMatchManually confRequest 0
                    (wire.Transactions block) with
            | Some (txIndex, tx) =>
                Return (Some {| Tx := tx;
                                BlockHash := blockHash;
                                BlockHeight := height;
                                TxIndex := uint32 (Z.of_nat txIndex) |},
                        TxFoundManually, None)
            | None => Next
            end
        end
    end.

(** The loop of confDetailsManually: [height] starts at [currentHeight],
    runs while [height >= heightHint && height > 0], and is decremented
    after each round; the counter is as in [historicalConfDetails_loop]. *)
Fixpoint confDetailsManually_loop (confRequest : ConfRequest)
    (heightHint : Z) (n : nat)
  : option TxConfirmation * TxConfStatus * option error :=
  match n with
  | O => (None, TxNotFoundManually, None)
  | S n' =>
      let height := Z.of_nat n in
      if (height >=? heightHint)%Z then
        match confDetailsManually_body confRequest height with
        | Return r => r
        | Next => confDetailsManually_loop confRequest heightHint n'
        end
      else (None, TxNotFoundManually, None)
  end.

Definition confDetailsManually (confRequest : ConfRequest)
    (heightHint currentHeight : Z)
  : option TxConfirmation * TxConfStatus * option error :=
  confDetailsManually_loop confRequest heightHint (Z.to_nat currentHeight).

(** *** Block-epoch notifications *)

(** notifyBlockEpochClient, as a function on the registration it is handed.
    The send on the client's queue is always ready; the two receive cases
    are ready once their channel is closed, and then the select may take
    one of them and drop the epoch. *)
Definition notifyBlockEpochClient (quitClosed : bool)
    (epochClient : blockEpochRegistration) (height : Z) (sha : wire.Hash)
  : blockEpochRegistration :=
  let epoch := {| Height := height; Hash := sha |} in
  if (cancelChan epochClient || quitClosed)
     && selectClosed (epochID epochClient) height
  then epochClient
  else push_epoch epoch epochClient.

(** notifyBlockEpochs: [for _, client := range b.blockEpochClients]. The
    clients are independent of each other, and the order of the range does
    not show. *)
Definition notifyBlockEpochs (newHeight : Z) (newSha : wire.Hash)
    (b : LightWalletNotifier) : LightWalletNotifier :=
  set_blockEpochClients
    ((fun client => notifyBlockEpochClient (quit b) client newHeight newSha)
       <$> blockEpochClients b)
    b.

(** handleBlockConnected *)
Definition handleBlockConnected (block : BlockEpoch)
    (b : LightWalletNotifier) : option error * LightWalletNotifier :=
  match GetBlock env (Hash block) with
  | Err err => (Some (Errorf "unable to get block: %v" err), b)
  | Ok rawBlock =>
      let txns := mkBtcutilTx <$> wire.Transactions rawBlock in
      let b1 := log_txNotifier
                  (callConnectTip (Hash block) (uint32 (Height block)) txns)
                  b in
      match ConnectTip env (Hash block) (uint32 (Height block)) txns with
      | Some err => (Some (Errorf "unable to connect tip: %v" err), b1)
      | None =>
          let b2 := set_bestBlock block b1 in
          let b3 := notifyBlockEpochs (Height block) (Hash block) b2 in
          (NotifyHeight env (uint32 (Height block)),
           log_txNotifier (callNotifyHeight (uint32 (Height block))) b3)
      end
  end.

(** *** The dispatcher *)

(** The goroutine that the dispatcher launches for a historical
    confirmation dispatch. An error of the look-up is logged and ends the
    task; the error that UpdateConfDetails returns is only logged. *)
Definition historicalConfTask (msg : HistoricalConfDispatch)
    (b : LightWalletNotifier) : LightWalletNotifier :=
  match historicalConfDetails (hcd_ConfRequest msg)
          (StartHeight msg) (EndHeight msg) with
  | (confDetails, Some err) => b
  | (confDetails, None) =>
      log_txNotifier
        (callUpdateConfDetails (hcd_ConfRequest msg) confDetails) b
  end.

(** Apply [f] to the registration that the pointer [id] stands for. *)
Definition with_client (id : N)
    (f : blockEpochRegistration -> blockEpochRegistration)
    (b : LightWalletNotifier) : LightWalletNotifier :=
  set_blockEpochClients (alter f id (blockEpochClients b)) b.

(** [msg.errorChan <- e]; [continue] (or the end of the case). The channel
    has room for one value and is never read in this file: a second send
    blocks. *)
Definition send_errorChan (id : N) (e : option error)
    (b : LightWalletNotifier) : outcome :=
  match blockEpochClients b !! id with
  | Some r =>
      if decide (length (errorChan r) < 1)
      then Continue (with_client id (push_error e) b)
      else Blocked b
  | None => Continue b
  end.

(** One round of the loop of notificationDispatcher on the event its
    select received. *)
Definition notificationDispatcher_step (ev : dispatcherEvent)
    (b : LightWalletNotifier) : outcome :=
  match ev with
  | recvCancel cancelMsg => Continue b
  | recvHistoricalConfDispatch msg => Continue (spawn_resolver msg b)
  | recvHistoricalSpendDispatch => Continue b
  | recvBlockEpochRegistration msg =>
      let id := epochID msg in
      let b1 := set_blockEpochClients
                  (<[id := msg]> (blockEpochClients b)) b in
      match reg_bestBlock msg with
      | None =>
          let b2 := with_client id
                      (fun r => notifyBlockEpochClient (quit b1) r
                                  (Height (bestBlock b1))
                                  (Hash (bestBlock b1)))
                      b1 in
          send_errorChan id None b2
      | Some hint =>
          let bestHeight := Height (bestBlock b1) in
          match GetClientMissedBlocks env hint bestHeight with
          | Err err => send_errorChan id (Some err) b1
          | Ok missedBlocks =>
              let b2 := foldl
                          (fun acc blk =>
                             with_client id
                               (fun r => notifyBlockEpochClient (quit acc) r
                                           (Height blk) (Hash blk))
                               acc)
                          b1 missedBlocks in
              send_errorChan id None b2
          end
      end
  | recvBlockConnected item => Continue b
  | recvBlockDisconnected => Continue b
  | recvRelevantTx => Continue b
  | recvQuit => Exit b
  end.

(** The dispatcher loop on a sequence of events: it stops at the first
    round that leaves the loop or blocks. *)
Fixpoint notificationDispatcher (evs : list dispatcherEvent)
    (b : LightWalletNotifier) : outcome :=
  match evs with
  | [] => Continue b
  | ev :: rest =>
      match notificationDispatcher_step ev b with
      | Continue b' => notificationDispatcher rest b'
      | stopped => stopped
      end
  end.

(** The state an outcome carries. *)
Definition outcome_state (o : outcome) : LightWalletNotifier :=
  match o with
  | Continue b | Exit b | Blocked b => b
  end.

(** handleBlockConnected on one block after the other, up to the first
    block for which it returns an error. *)
Fixpoint handleBlocks (blocks : list BlockEpoch) (b : LightWalletNotifier)
  : option error * LightWalletNotifier :=
  match blocks with
  | [] => (None, b)
  | block :: rest =>
      match handleBlockConnected block b with
      | (Some err, b') => (Some err, b')
      | (None, b') => handleBlocks rest b'
      end
  end.

(** *** Registration of clients *)

(** chainntnfs.ConfirmationEvent, as far as this file makes it: the number
    of confirmations asked for, and the request and id that its Cancel
    closure hands to txNotifier.CancelConf. *)
Record ConfirmationEvent : Type := mkConfirmationEvent {
  ev_numConfs : Z;
  ev_cancels : ConfRequest * N
}.

(** chainntnfs.ConfNtfn *)
Record ConfNtfn : Type := mkConfNtfn {
  ConfID : N;
  ntfn_ConfRequest : ConfRequest;
  NumConfirmations : Z;
  Event : ConfirmationEvent;
  HeightHint : Z
}.

(** The state behind the Register methods: the three uint64 counters, the
    notifications handed to txNotifier.RegisterConf so far, and the
    messages sent on notificationRegistry so far, oldest first. The
    registry channel is unbuffered: a message counts as sent when the
    dispatcher has taken it. *)
Record registrar : Type := mkRegistrar {
  confClientCounter : N;
  spendClientCounter : N;
  epochClientCounter : N;
  registeredConfs : list ConfNtfn;
  notificationRegistry : list dispatcherEvent
}.

(** chainntnfs.NewConfRequest(txid, pkScript); [txid] may be nil. *)
Variable NewConfRequest :
  option wire.Hash -> list Byte.byte -> result ConfRequest.

(** b.txNotifier.RegisterConf(ntfn): the historical dispatch to perform,
    if any, or an error. *)
Variable RegisterConf : ConfNtfn -> result (option HistoricalConfDispatch).

(** RegisterConfirmationsNtfn. [takeQuit] tells whether the final select
    takes its quit case when the quit channel is closed. *)
Definition RegisterConfirmationsNtfn (takeQuit : bool)
    (txid : option wire.Hash) (pkScript : list Byte.byte)
    (numConfs heightHint : Z) (b : LightWalletNotifier) (f : registrar)
  : (option ConfirmationEvent * option error) * registrar :=
  let confID := uint64 (confClientCounter f + 1) in
  let f1 := {| confClientCounter := confID;
               spendClientCounter := spendClientCounter f;
               epochClientCounter := epochClientCounter f;
               registeredConfs := registeredConfs f;
               notificationRegistry := notificationRegistry f |} in
  match NewConfRequest txid pkScript with
  | Err err => ((None, Some err), f1)
  | Ok confRequest =>
      let ntfn := {| ConfID := confID;
                     ntfn_ConfRequest := confRequest;
                     NumConfirmations := numConfs;
                     Event := {| ev_numConfs := numConfs;
                                 ev_cancels := (confRequest, confID) |};
                     HeightHint := heightHint |} in
      let f2 := {| confClientCounter := confID;
                   spendClientCounter := spendClientCounter f;
                   epochClientCounter := epochClientCounter f;
                   registeredConfs := registeredConfs f ++ [ntfn];
                   notificationRegistry := notificationRegistry f |} in
      match RegisterConf ntfn with
      | Err err => ((None, Some err), f2)
      | Ok None => ((Some (Event ntfn), None), f2)
      | Ok (Some dispatch) =>
          if quit b && takeQuit then
            ((None, Some ErrChainNotifierShuttingDown), f2)
          else
            ((Some (Event ntfn), None),
             {| confClientCounter := confID;
                spendClientCounter := spendClientCounter f;
                epochClientCounter := epochClientCounter f;
                registeredConfs := registeredConfs f ++ [ntfn];
                notificationRegistry :=
                  notificationRegistry f
                  ++ [recvHistoricalConfDispatch dispatch] |})
      end
  end.

(** RegisterBlockEpochNtfn. The registration made stands for the
    BlockEpochEvent returned, whose channel and Cancel closure belong to
    it. [takeQuit] is as above. *)
Definition RegisterBlockEpochNtfn (takeQuit : bool)
    (bestBlock : option BlockEpoch) (b : LightWalletNotifier)
    (f : registrar)
  : (option blockEpochRegistration * option error) * registrar :=
  let reg := {| epochID := uint64 (epochClientCounter f + 1);
                epochQueue := [];
                reg_bestBlock := bestBlock;
                errorChan := [];
                cancelChan := false |} in
  if quit b && takeQuit then
    ((None,
      Some (OtherError
        ("chainntnfs: system interrupt while "
         +:+ "attempting to register for block epoch notification."))),
     {| confClientCounter := confClientCounter f;
        spendClientCounter := spendClientCounter f;
        epochClientCounter := epochID reg;
        registeredConfs := registeredConfs f;
        notificationRegistry := notificationRegistry f |})
  else
    ((Some reg, None),
     {| confClientCounter := confClientCounter f;
        spendClientCounter := spendClientCounter f;
        epochClientCounter := epochID reg;
        registeredConfs := registeredConfs f;
        notificationRegistry :=
          notificationRegistry f ++ [recvBlockEpochRegistration reg] |}).

(** *** Start and Stop *)

(** The fields of [LightWalletNotifier] that Start and Stop touch, around
    the notifier itself: the two int32 guards, the height at which the
    transaction notifier was made, the hash from which the rescan was
    started, whether the dispatcher goroutine is running, whether the
    chain connection was stopped and the transaction notifier torn down,
    and the ids of the subscribers whose epoch channel has been closed. *)
Record notifierProcess : Type := mkNotifierProcess {
  started : Z;
  stopped : Z;
  notifier : LightWalletNotifier;
  txNotifierHeight : option Z;
  rescanFrom : option wire.Hash;
  dispatcherRunning : bool;
  connStopped : bool;
  tornDown : bool;
  closedEpochChans : gset N
}.

(** Start. [connStart] is what chainConn.Start() answers during this call
    and [best] what chainConn.GetBestBlock() answers. *)
Definition Start (connStart : option error)
    (best : result (wire.Hash * Z)) (p : notifierProcess)
  : option error * notifierProcess :=
  let started' := int32 (started p + 1) in
  let p1 := {| started := started'; stopped := stopped p;
               notifier := notifier p;
               txNotifierHeight := txNotifierHeight p;
               rescanFrom := rescanFrom p;
               dispatcherRunning := dispatcherRunning p;
               connStopped := connStopped p; tornDown := tornDown p;
               closedEpochChans := closedEpochChans p |} in
  if negb (started' =? 1)%Z then (None, p1)
  else
    match connStart with
    | Some err => (Some err, p1)
    | None =>
        match best with
        | Err err => (Some err, p1)
        | Ok (currentHash, currentHeight) =>
            (None,
             {| started := started'; stopped := stopped p;
                notifier :=
                  set_bestBlock {| Height := currentHeight;
                                   Hash := currentHash |} (notifier p);
                txNotifierHeight := Some (uint32 currentHeight);
                rescanFrom := Some currentHash;
                dispatcherRunning := true;
                connStopped := connStopped p; tornDown := tornDown p;
                closedEpochChans := closedEpochChans p |})
        end
    end.

Definition close_cancelChan (r : blockEpochRegistration)
  : blockEpochRegistration :=
  {| epochID := epochID r; epochQueue := epochQueue r;
     reg_bestBlock := reg_bestBlock r; errorChan := errorChan r;
     cancelChan := true |}.

(** How a call of Stop ends: it returns an error value, or it panics. *)
Inductive stopOutcome : Type :=
  | Returned (e : option error) (p : notifierProcess)
  | Panicked (p : notifierProcess).

(** A process in which only the guard of Stop has moved. (A term of the
    properties below, not of the source.) *)
Definition with_stopped (s : Z) (p : notifierProcess) : notifierProcess :=
  {| started := started p; stopped := s;
     notifier := notifier p;
     txNotifierHeight := txNotifierHeight p;
     rescanFrom := rescanFrom p;
     dispatcherRunning := dispatcherRunning p;
     connStopped := connStopped p; tornDown := tornDown p;
     closedEpochChans := closedEpochChans p |}.

(** Stop: stops the chain connection, closes quit and waits for the
    dispatcher to leave its loop, closes the cancel channel and the epoch
    channel of every subscriber in the map, tears the transaction notifier
    down and stops the rescan. The field b.txNotifier is nil until a Start
    has made the transaction notifier ([txNotifierHeight] is [None]): the
    call of TearDown on it then panics, after the channels have been
    closed and before the rescan is stopped. *)
Definition Stop (p : notifierProcess) : stopOutcome :=
  let stopped' := int32 (stopped p + 1) in
  if negb (stopped' =? 1)%Z then Returned None (with_stopped stopped' p)
  else
    let b := notifier p in
    let closed :=
      {| blockEpochClients := close_cancelChan <$> blockEpochClients b;
         bestBlock := bestBlock b;
         txNotifier := txNotifier b;
         resolverTasks := resolverTasks b;
         quit := true |} in
    match txNotifierHeight p with
    | None =>
        Panicked
          {| started := started p; stopped := stopped';
             notifier := closed;
             txNotifierHeight := None;
             rescanFrom := rescanFrom p;
             dispatcherRunning := false;
             connStopped := true; tornDown := false;
             closedEpochChans := dom (blockEpochClients b) |}
    | Some height =>
        Returned None
          {| started := started p; stopped := stopped';
             notifier := closed;
             txNotifierHeight := Some height;
             rescanFrom := None;
             dispatcherRunning := false;
             connStopped := true; tornDown := true;
             closedEpochChans := dom (blockEpochClients b) |}
    end.

(** The events of a sequence that the dispatcher loop gets to: all of them
    up to and with the first one whose round leaves the loop or blocks. (A
    term of the properties below, not of the source.) *)
Fixpoint handledEvents (evs : list dispatcherEvent)
    (b : LightWalletNotifier) : list dispatcherEvent :=
  match evs with
  | [] => []
  | ev :: rest =>
      match notificationDispatcher_step ev b with
      | Continue b' => ev :: handledEvents rest b'
      | _ => [ev]
      end
  end.

End WithCollaborators.

(** An event is quiet for a client when it is neither a connected block nor
    a registration under the id of that client. (A term of the properties
    below, not of the source.) *)
Definition quiet_for (id : N) (ev : dispatcherEvent) : Prop :=
  match ev with
  | recvBlockConnected _ => False
  | recvBlockEpochRegistration msg => epochID msg <> id
  | _ => True
  end.

(** An event registers the id of a client when it is a block-epoch
    registration under that id. (A term of the properties below, not of
    the source.) *)
Definition registers (id : N) (ev : dispatcherEvent) : Prop :=
  match ev with
  | recvBlockEpochRegistration msg => epochID msg = id
  | _ => False
  end.

(** The historical confirmation dispatches among a sequence of events, in
    order. (A term of the properties below, not of the source.) *)
Fixpoint dispatchesOf (evs : list dispatcherEvent)
  : list HistoricalConfDispatch :=
  match evs with
  | [] => []
  | recvHistoricalConfDispatch msg :: rest => msg :: dispatchesOf rest
  | _ :: rest => dispatchesOf rest
  end.

(** The calls on the transaction notifier that apply a sequence of blocks:
    ConnectTip and then NotifyHeight for each block, in order. (A term of
    the properties below, not of the source.) *)
Fixpoint callsForBlocks (GetBlock : wire.Hash -> result MsgBlock)
    (blocks : list BlockEpoch) : list txNotifierCall :=
  match blocks with
  | [] => []
  | block :: rest =>
      match GetBlock (Hash block) with
      | Ok rawBlock =>
          [callConnectTip (Hash block) (uint32 (Height block))
             (mkBtcutilTx <$> wire.Transactions rawBlock);
           callNotifyHeight (uint32 (Height block))]
      | Err _ => []
      end ++ callsForBlocks GetBlock rest
  end.

End lightwalletnotify.

(** * Concrete inputs

    Small closed inputs on which the definitions above are run. *)
Module examples.
Import wire.

Definition txA : wire.Hash := 7%N.
Definition opA : OutPoint := mkOutPoint txA 0.
Definition scriptA : list Byte.byte := [Byte.x51].

(** A transaction whose only input spends [(txA, 0)]. *)
Definition spendA : btcutilTx :=
  mkBtcutilTx (mkMsgTx 2 [mkTxIn opA 4294967295]
                       [mkTxOut 1000 [Byte.x52]] 0).

(** A transaction without inputs. *)
Definition tx0 : MsgTx := mkMsgTx 2 [] [mkTxOut 1000 [Byte.x52]] 0.

Definition header105 : BlockHeader := mkBlockHeader 11 12 0.

(** A stand-in for header.BlockHash(). *)
Definition headerHash (h : BlockHeader) : wire.Hash := (PrevBlock h + 1)%N.

(** A view that watches [(txA, 0)], and one that watches nothing. *)
Definition watchingA : chainview.LWFilteredChainView :=
  chainview.mkView {[ opA := scriptA ]} [] false.
Definition watchingNothing : chainview.LWFilteredChainView :=
  chainview.mkView ∅ [] false.

Definition edgeA : chainview.EdgePoint := chainview.mkEdgePoint scriptA opA.

Import lightwalletnotify.

(** A backend in which every block has the single transaction [tx0], no
    transaction ever matches a request, and a compact filter, where there
    is one, matches every script. The compact filters, the answer of the
    transaction index and the verbose listing of a block are left open. *)
Definition backend (cfilter : wire.Hash -> result (option unit))
    (getRaw : wire.Hash -> result TxRawResult) (listing : list string)
  : Collaborators :=
  {| CFilter := unit;
     GetBlockHash := fun h => Ok (Z.to_N h);
     GetCFilter := cfilter;
     GetFilterBlock := fun _ => Ok [tx0];
     GetBlock := fun _ => Ok (mkMsgBlock header105 [tx0]);
     GetRawTransactionVerbose := getRaw;
     GetBlockVerbose := fun _ => Ok (mkGetBlockVerboseResult listing 60);
     DeriveKey := fun h => h;
     Match := fun _ _ _ => Ok true;
     MatchesTx := fun _ _ => false;
     ErrRPCNoTxInfo := (-5)%Z;
     NewHashFromStr := fun _ => Ok 99%N;
     Hash_String := fun h => if (h =? 7)%N then "07" else "00";
     hex_DecodeString := fun _ => Ok [];
     Deserialize := fun _ => Ok tx0;
     GetClientMissedBlocks := fun _ _ => Ok [];
     ConnectTip := fun _ _ _ => None;
     NotifyHeight := fun _ => None |}.

Definition noIndex (txid : wire.Hash) : result TxRawResult :=
  Err (OtherError "no transaction index").

(** Every block has a compact filter (which matches). *)
Definition allFilters : Collaborators :=
  backend (fun _ => Ok (Some tt)) noIndex [].

(** No block has a compact filter. *)
Definition noFilters : Collaborators :=
  backend (fun _ => Ok None) noIndex [].

(** The four answers of the transaction index. *)
Definition indexMissing : Collaborators :=
  backend (fun _ => Ok None)
    (fun _ => Err (RPCError (-5)
       "No such mempool or blockchain transaction. Use gettransaction"))
    [].
Definition indexMempool : Collaborators :=
  backend (fun _ => Ok None)
          (fun _ => Ok (mkTxRawResult "0200" EmptyString)) [].
Definition indexConfirmed : Collaborators :=
  backend (fun _ => Ok None) (fun _ => Ok (mkTxRawResult "0200" "b1"))
          ["aa"; "07"].
Definition indexUnlisted : Collaborators :=
  backend (fun _ => Ok None) (fun _ => Ok (mkTxRawResult "0200" "b1"))
          ["aa"].

Definition reqA : ConfRequest := mkConfRequest txA [Byte.x52].

Definition neverQuit (h : Z) : bool := false.
Definition quitAt2 (h : Z) : bool := (h =? 2)%Z.
Definition takeSend (id : N) (h : Z) : bool := false.
Definition quitFirst (h : Z) : bool := true.

Definition tip500 : BlockEpoch := mkBlockEpoch 500 77.

(** A fresh registration without a best-known block. *)
Definition fresh1 : blockEpochRegistration :=
  mkBlockEpochRegistration 1 [] None [] false.

Definition idle : LightWalletNotifier := mkNotifier ∅ tip500 [] [] false.

(** A notifier with the one subscriber [fresh1]. *)
Definition oneClient : LightWalletNotifier :=
  mkNotifier {[ 1%N := fresh1 ]} tip500 [] [] false.

(** A transaction with one input, and a block call for each kind. *)
Definition tx1 : MsgTx :=
  mkMsgTx 2 [mkTxIn opA 4294967295] [mkTxOut 500 [Byte.x52]] 0.

Definition opB : OutPoint := mkOutPoint 8 1.

(** A transaction whose only input spends [(8, 1)]. *)
Definition spendB : btcutilTx :=
  mkBtcutilTx (mkMsgTx 2 [mkTxIn opB 4294967295]
                       [mkTxOut 700 [Byte.x52]] 0).

Definition heightOf105 (h : wire.Hash) : result Z := Ok 105%Z.

Definition boom : error := OtherError "backend unavailable".

(** A backend in which the call numbered [stage] fails with [boom] and
    every other call succeeds: every block holds [tx0] and then [tx1],
    every compact filter matches, a request matches the transactions that
    have an input, and the transaction index knows the transaction as
    confirmed in block 99 at index 1. *)
Definition world (stage : nat) : Collaborators :=
  {| CFilter := unit;
     GetBlockHash := fun h =>
       if Nat.eqb stage 0 then Err boom else Ok (Z.to_N h);
     GetCFilter := fun _ =>
       if Nat.eqb stage 1 then Err boom else Ok (Some tt);
     GetFilterBlock := fun _ =>
       if Nat.eqb stage 3 then Err boom else Ok [tx0; tx1];
     GetBlock := fun _ =>
       if Nat.eqb stage 4 then Err boom
       else Ok (mkMsgBlock header105 [tx0; tx1]);
     GetRawTransactionVerbose := fun _ =>
       if Nat.eqb stage 7 then Err boom
       else Ok (mkTxRawResult "0200" "b1");
     GetBlockVerbose := fun _ =>
       if Nat.eqb stage 9 then Err boom
       else Ok (mkGetBlockVerboseResult ["aa"; "07"] 60);
     DeriveKey := fun h => h;
     Match := fun _ _ _ =>
       if Nat.eqb stage 2 then Err boom else Ok true;
     MatchesTx := fun _ tx =>
       match TxIn_ tx with [] => false | _ :: _ => true end;
     ErrRPCNoTxInfo := (-5)%Z;
     NewHashFromStr := fun _ =>
       if Nat.eqb stage 8 then Err boom else Ok 99%N;
     Hash_String := fun h => if (h =? 7)%N then "07" else "00";
     hex_DecodeString := fun _ =>
       if Nat.eqb stage 10 then Err boom else Ok [];
     Deserialize := fun _ =>
       if Nat.eqb stage 11 then Err boom else Ok tx1;
     GetClientMissedBlocks := fun _ _ =>
       if Nat.eqb stage 12 then Err boom
       else Ok [mkBlockEpoch 499 76; mkBlockEpoch 500 77];
     ConnectTip := fun _ _ _ =>
       if Nat.eqb stage 5 then Some boom else None;
     NotifyHeight := fun _ =>
       if Nat.eqb stage 6 then Some boom else None |}.

(** The backend in which every call succeeds. *)
Definition allGood : Collaborators := world 99.

(** A subscriber that gave the best-known block (498, 75). *)
Definition behind2 : blockEpochRegistration :=
  mkBlockEpochRegistration 2 [] (Some (mkBlockEpoch 498 75)) [] false.

Definition dispatchA : HistoricalConfDispatch :=
  mkHistoricalConfDispatch reqA 1 3.

Definition noRegistrations : registrar := mkRegistrar 0 0 1 [] [].

Definition goodConfRequest (txid : option wire.Hash)
    (pkScript : list Byte.byte) : result ConfRequest :=
  Ok reqA.
Definition badConfRequest (txid : option wire.Hash)
    (pkScript : list Byte.byte) : result ConfRequest :=
  Err boom.
Definition wantsDispatch (ntfn : ConfNtfn)
  : result (option HistoricalConfDispatch) :=
  Ok (Some dispatchA).
Definition wantsNothing (ntfn : ConfNtfn)
  : result (option HistoricalConfDispatch) :=
  Ok None.
Definition refusesConf (ntfn : ConfNtfn)
  : result (option HistoricalConfDispatch) :=
  Err boom.

Definition stopped1 : LightWalletNotifier :=
  mkNotifier {[ 1%N := fresh1 ]} tip500 [] [] true.

Definition freshProcess : notifierProcess :=
  mkNotifierProcess 0 0 oneClient None None false false false ∅.

(** A process after a Start that succeeded at the tip (500, 77). *)
Definition startedProcess : notifierProcess :=
  mkNotifierProcess 1 0 oneClient (Some 500%Z) (Some 77%N) true false false
    ∅.

(** The select takes a closed channel whenever there is one. *)
Definition takeClosed (id : N) (h : Z) : bool := true.

(** A notifier without subscribers whose quit channel is closed. *)
Definition shuttingDown : LightWalletNotifier :=
  mkNotifier ∅ tip500 [] [] true.

End examples.

(** * Properties of the filtered chain view *)

Module chainview_facts.
Import wire chainview.

Lemma deleteSpent_lookup (ins : list TxIn)
    (f : gmap OutPoint (list Byte.byte)) (op : OutPoint) :
  deleteSpent ins f !! op =
  if decide (op ∈ PreviousOutPoint <$> ins) then None else f !! op.
Proof.
  revert f. induction ins as [|txIn rest IH]; intros f.
  - cbn [deleteSpent]. case_decide; [exfalso; set_solver | done].
  - cbn [deleteSpent]. rewrite IH, fmap_cons.
    destruct (decide (op = PreviousOutPoint txIn)) as [->|Hne].
    + rewrite lookup_delete_eq.
      rewrite (decide_True (P := _ ∈ _ :: _))
        by (apply elem_of_cons; by left).
      by destruct (decide _).
    + rewrite lookup_delete_ne by done.
      destruct (decide (op ∈ PreviousOutPoint <$> rest)) as [Hin|Hin].
      * rewrite decide_True; [done | apply elem_of_cons; by right].
      * rewrite decide_False; [done |].
        intros [?|?]%elem_of_cons; done.
Qed.

Lemma connectLoop_filter (txns : list btcutilTx) :
  forall (i : nat) (mtxs : list (option wire.MsgTx))
         (f : gmap OutPoint (list Byte.byte)) (op : OutPoint),
    (connectLoop i txns mtxs f).2 !! op =
    if decide (op ∈ spentOutPoints txns) then None else f !! op.
Proof.
  induction txns as [|tx rest IH]; intros i mtxs f op.
  - cbn [connectLoop snd]. case_decide; [exfalso; set_solver | done].
  - cbn [connectLoop]. rewrite IH, deleteSpent_lookup.
    unfold spentOutPoints. rewrite bind_cons. fold (spentOutPoints rest).
    destruct (decide (op ∈ spentOutPoints rest)) as [Hin|Hin].
    + rewrite decide_True; [done | apply elem_of_app; by right].
    + destruct (decide (op ∈ PreviousOutPoint <$> TxIn_ (Tx_MsgTx tx)))
        as [Hin'|Hin'].
      * rewrite decide_True; [done | apply elem_of_app; by left].
      * rewrite decide_False; [done |].
        intros [?|?]%elem_of_app; done.
Qed.

Lemma connectLoop_slots (txns : list btcutilTx) :
  forall (i : nat) (mtxs : list (option wire.MsgTx))
         (f : gmap OutPoint (list Byte.byte)),
    length mtxs = i + length txns ->
    (connectLoop i txns mtxs f).1 = take i mtxs ++ allTransactions txns.
Proof.
  induction txns as [|tx rest IH]; intros i mtxs f Hlen; simpl in *.
  - rewrite app_nil_r, firstn_all2 by lia. done.
  - rewrite IH by (rewrite length_insert; lia).
    assert (Hi : i < length mtxs) by lia.
    destruct (lookup_lt_is_Some_2 mtxs i Hi) as [x Hx].
    rewrite (take_S_r (<[i:=Some (Tx_MsgTx tx)]> mtxs) i (Some (Tx_MsgTx tx))).
    + rewrite take_insert_ge by lia. by rewrite <- app_assoc.
    + by apply list_lookup_insert_eq.
Qed.


Lemma UpdateFilter_chainFilter (selectQuit : Z -> bool)
    (ops : list EdgePoint) (h : Z) (c : LWFilteredChainView) :
  chainFilter (UpdateFilter selectQuit ops h c).2 = chainFilter c.
Proof. unfold UpdateFilter. by destruct (quit c && selectQuit h). Qed.

(** Whatever the sequence of UpdateFilter calls, the watched set stays what
    it was: nothing is removed, and nothing is added either. *)
Lemma UpdateFilter_seq_chainFilter (selectQuit : Z -> bool)
    (calls : list (list EdgePoint * Z)) :
  forall c : LWFilteredChainView,
    chainFilter (UpdateFilter_seq selectQuit calls c) = chainFilter c.
Proof.
  induction calls as [|[ops h] rest IH]; intros c; simpl; [done|].
  by rewrite IH, UpdateFilter_chainFilter.
Qed.

Section WithBackend.

Variable BlockHash : BlockHeader -> wire.Hash.
Variable GetBlockHeight : wire.Hash -> result Z.

(** C4. Processing a connected block removes from the watched-output filter
    exactly the entries whose outpoint is the previous-outpoint of some
    input of some transaction of the block, and leaves every other entry as
    it was; it appends to the block queue one connected event whose
    FilteredBlock carries the hash of the header, the height, and all the
    transactions of the block in order. In particular, when the filter
    holds the outpoint (txA, 0) and the block at height 105 has a
    transaction with an input that spends (txA, 0), the filter afterwards
    has no entry for (txA, 0) and the queued FilteredBlock has height 105
    and lists that transaction. *)
Theorem onFilteredBlockConnected_spec (height : Z) (header : BlockHeader)
    (txns : list btcutilTx) (c : LWFilteredChainView) :
  let c' := onFilteredBlockConnected BlockHash height header txns c in
  let fb := {| Hash := BlockHash header;
               Height := uint32 height;
               Transactions := allTransactions txns |} in
  (forall op : OutPoint,
     chainFilter c' !! op =
     if decide (op ∈ spentOutPoints txns) then None
     else chainFilter c !! op)
  /\ blockQueue c' =
     blockQueue c ++ [{| eventType := connected; block := fb |}]
  /\ (forall (txA : wire.Hash) (script : list Byte.byte) (tx : btcutilTx)
             (txIn : TxIn),
        chainFilter c !! mkOutPoint txA 0 = Some script ->
        height = 105%Z ->
        tx ∈ txns ->
        txIn ∈ TxIn_ (Tx_MsgTx tx) ->
        PreviousOutPoint txIn = mkOutPoint txA 0 ->
        chainFilter c' !! mkOutPoint txA 0 = None
        /\ last (blockQueue c') =
           Some {| eventType := connected; block := fb |}
        /\ Height fb = 105%Z
        /\ Some (Tx_MsgTx tx) ∈ Transactions fb).
Proof.
  intros c' fb.
  assert (Hfilter : forall op : OutPoint,
             chainFilter c' !! op =
             if decide (op ∈ spentOutPoints txns) then None
             else chainFilter c !! op).
  { intros op. subst c'. unfold onFilteredBlockConnected.
    pose proof (connectLoop_filter txns 0
                  (replicate (length txns) None) (chainFilter c) op) as Hl.
    destruct (connectLoop 0 txns _ _) as [mtxs f]. exact Hl. }
  assert (Hqueue : blockQueue c' =
                   blockQueue c ++ [{| eventType := connected; block := fb |}]).
  { subst c' fb. unfold onFilteredBlockConnected.
    pose proof (connectLoop_slots txns 0
                  (replicate (length txns) None) (chainFilter c)) as Hl.
    destruct (connectLoop 0 txns _ _) as [mtxs f]. simpl in *.
    rewrite Hl by (by rewrite length_replicate). done. }
  split; [exact Hfilter|]. split; [exact Hqueue|].
  intros txA script tx txIn Hwatched Hheight Htx HtxIn Hprev.
  split; [|split; [|split]].
  - rewrite Hfilter, decide_True; [done|].
    unfold spentOutPoints. apply list_elem_of_bind. exists tx.
    split; [|done]. rewrite <- Hprev. by apply list_elem_of_fmap_2.
  - rewrite Hqueue. apply last_snoc.
  - subst fb. simpl. by rewrite Hheight.
  - subst fb. simpl. unfold allTransactions.
    by apply (list_elem_of_fmap_2 (fun tx => Some (Tx_MsgTx tx))).
Qed.

(** C9. Processing a disconnected block appends to the block queue one
    disconnected event whose FilteredBlock carries the hash of the header
    and the height and has no transactions, and it leaves the
    watched-output filter exactly as it was. *)
Theorem onFilteredBlockDisconnected_spec (height : Z) (header : BlockHeader)
    (c : LWFilteredChainView) :
  let c' := onFilteredBlockDisconnected BlockHash height header c in
  blockQueue c' =
    blockQueue c ++ [{| eventType := disconnected;
                        block := {| Hash := BlockHash header;
                                    Height := uint32 height;
                                    Transactions := [] |} |}]
  /\ chainFilter c' = chainFilter c.
Proof. by split. Qed.

(** C10. Whenever the height lookup of the backend succeeds, FilterBlock
    returns, without error, a FilteredBlock with the given hash, the height
    found and an empty transaction list, whether or not the filter is
    empty; and FilterBlock never changes the view, so never the filter,
    also when the lookup fails. *)
Theorem FilterBlock_no_transactions (blockHash : wire.Hash)
    (c : LWFilteredChainView) (blockHeight : Z) :
  (FilterBlock GetBlockHeight blockHash c).2 = c
  /\ (GetBlockHeight blockHash = Ok blockHeight ->
      FilterBlock GetBlockHeight blockHash c =
        ((Some {| Hash := blockHash;
                  Height := uint32 blockHeight;
                  Transactions := [] |}, None), c)).
Proof.
  unfold FilterBlock. split.
  - destruct (GetBlockHeight blockHash); [|done]. by case_decide.
  - intros ->. by case_decide.
Qed.

End WithBackend.

(** ** The view over a sequence of calls *)

Section Lifetime.

Variable BlockHash : BlockHeader -> wire.Hash.
Variable GetBlockHeight : wire.Hash -> result Z.
Variable selectQuit : Z -> bool.

Lemma onFilteredBlockConnected_lookup (height : Z) (header : BlockHeader)
    (txns : list btcutilTx) (c : LWFilteredChainView) (op : OutPoint) :
  chainFilter (onFilteredBlockConnected BlockHash height header txns c) !! op
  = if decide (op ∈ spentOutPoints txns) then None else chainFilter c !! op.
Proof.
  unfold onFilteredBlockConnected.
  pose proof (connectLoop_filter txns 0
                (replicate (length txns) None) (chainFilter c) op) as Hl.
  destruct (connectLoop 0 txns _ _) as [mtxs f]. exact Hl.
Qed.

Lemma onFilteredBlockConnected_queue (height : Z) (header : BlockHeader)
    (txns : list btcutilTx) (c : LWFilteredChainView) :
  blockQueue (onFilteredBlockConnected BlockHash height header txns c)
  = blockQueue c
    ++ [{| eventType := connected;
           block := {| Hash := BlockHash header;
                       Height := uint32 height;
                       Transactions := allTransactions txns |} |}].
Proof.
  unfold onFilteredBlockConnected.
  pose proof (connectLoop_slots txns 0
                (replicate (length txns) None) (chainFilter c)) as Hl.
  destruct (connectLoop 0 txns _ _) as [mtxs f]. simpl in *.
  rewrite Hl by (by rewrite length_replicate). done.
Qed.

Lemma FilterBlock_view (blockHash : wire.Hash) (c : LWFilteredChainView) :
  (FilterBlock GetBlockHeight blockHash c).2 = c.
Proof.
  unfold FilterBlock. destruct (GetBlockHeight blockHash); [|done].
  by case_decide.
Qed.

Lemma UpdateFilter_view (ops : list EdgePoint) (h : Z)
    (c : LWFilteredChainView) :
  (UpdateFilter selectQuit ops h c).2 = c.
Proof. unfold UpdateFilter. by destruct (quit c && selectQuit h). Qed.

Lemma runCalls_lookup (calls : list viewCall) :
  forall (c : LWFilteredChainView) (op : OutPoint),
    chainFilter (runCalls BlockHash GetBlockHeight selectQuit calls c) !! op
    = if decide (op ∈ spentByCalls calls) then None
      else chainFilter c !! op.
Proof.
  induction calls as [|call rest IH]; intros c op.
  - cbn [runCalls spentByCalls]. case_decide; [exfalso; set_solver | done].
  - cbn [runCalls]. rewrite IH.
    destruct call as [height header txns|height header|ops h|blockHash];
      cbn [runCall spentByCalls];
      rewrite ?UpdateFilter_view, ?FilterBlock_view; try done.
    rewrite onFilteredBlockConnected_lookup.
    destruct (decide (op ∈ spentByCalls rest)) as [Hin|Hin].
    + rewrite decide_True; [done | apply elem_of_app; by right].
    + destruct (decide (op ∈ spentOutPoints txns)) as [Hin'|Hin'].
      * rewrite decide_True; [done | apply elem_of_app; by left].
      * rewrite decide_False; [done |].
        intros [?|?]%elem_of_app; done.
Qed.

(** X1. After any sequence of calls on the view (connected blocks,
    disconnected blocks, filter updates, FilterBlock requests, in any
    order), the watched-output filter is the filter before the sequence
    without the outpoints spent by the connected blocks of the sequence:
    every other entry keeps its script, and no call adds an entry. *)
Theorem runCalls_chainFilter (calls : list viewCall)
    (c : LWFilteredChainView) :
  let c' := runCalls BlockHash GetBlockHeight selectQuit calls c in
  (forall op : OutPoint,
     chainFilter c' !! op
     = if decide (op ∈ spentByCalls calls) then None
       else chainFilter c !! op)
  /\ chainFilter c' ⊆ chainFilter c
  /\ size (chainFilter c') <= size (chainFilter c).
Proof.
  intros c'.
  assert (Hsub : chainFilter c' ⊆ chainFilter c).
  { apply map_subseteq_spec. intros op script. subst c'.
    rewrite runCalls_lookup. by case_decide. }
  split; [intros op; apply runCalls_lookup|].
  split; [exact Hsub|]. by apply map_subseteq_size.
Qed.

(** X2. The block queue after any sequence of calls is the queue before it
    followed by one event per connected or disconnected block of the
    sequence, in call order: a connected event with the header hash, the
    height and all transactions, a disconnected event with the header hash,
    the height and no transactions. Filter updates and FilterBlock requests
    queue nothing, and no call closes the quit channel. *)
Theorem runCalls_blockQueue (calls : list viewCall) :
  forall c : LWFilteredChainView,
    let c' := runCalls BlockHash GetBlockHeight selectQuit calls c in
    blockQueue c' = blockQueue c ++ eventsOfCalls BlockHash calls
    /\ quit c' = quit c.
Proof.
  induction calls as [|call rest IH]; intros c.
  - cbn. by rewrite app_nil_r.
  - cbn [runCalls]. destruct (IH (runCall BlockHash GetBlockHeight
                                    selectQuit call c)) as [Hq Hquit].
    cbn zeta. rewrite Hq, Hquit.
    destruct call as [height header txns|height header|ops h|blockHash];
      cbn [runCall eventsOfCalls];
      rewrite ?UpdateFilter_view, ?FilterBlock_view; try done.
    + rewrite onFilteredBlockConnected_queue, <- app_assoc. split; [done|].
      unfold onFilteredBlockConnected.
      by destruct (connectLoop _ _ _ _).
    + split; [|done]. cbn. by rewrite <- app_assoc.
Qed.

(** X3. A connected block none of whose inputs spends a watched outpoint
    leaves the watched-output filter exactly as it was. *)
Theorem onFilteredBlockConnected_unwatched (height : Z)
    (header : BlockHeader) (txns : list btcutilTx)
    (c : LWFilteredChainView) :
  (forall op : OutPoint,
     op ∈ spentOutPoints txns -> chainFilter c !! op = None) ->
  chainFilter (onFilteredBlockConnected BlockHash height header txns c)
  = chainFilter c.
Proof.
  intros Hunwatched. apply map_eq. intros op.
  rewrite onFilteredBlockConnected_lookup.
  case_decide; [|done]. symmetry. by apply Hunwatched.
Qed.

(** X4. Once a connected block has spent an outpoint, the outpoint is
    never watched again, whatever calls follow: disconnecting that block
    does not put the entry back, and neither does an UpdateFilter call
    that names the outpoint. *)
Theorem spent_outpoint_stays_unwatched (height : Z) (header : BlockHeader)
    (txns : list btcutilTx) (later : list viewCall)
    (c : LWFilteredChainView) (op : OutPoint) :
  op ∈ spentOutPoints txns ->
  chainFilter
    (runCalls BlockHash GetBlockHeight selectQuit
       (callBlockConnected height header txns :: later) c) !! op
  = None.
Proof.
  intros Hspent. rewrite runCalls_lookup, decide_True; [done|].
  cbn [spentByCalls]. apply elem_of_app. by left.
Qed.

(** X5. A view made by NewLWfFilteredChainView watches nothing, and it
    still watches nothing after any sequence of calls on it, filter updates
    included. *)
Theorem new_view_never_watches (calls : list viewCall) :
  chainFilter (view NewLWfFilteredChainView) = ∅
  /\ chainFilter
       (runCalls BlockHash GetBlockHeight selectQuit calls
          (view NewLWfFilteredChainView))
     = ∅.
Proof.
  split; [done|]. apply map_empty. intros op.
  rewrite runCalls_lookup. by case_decide.
Qed.

End Lifetime.

(** ** Start and Stop of the view *)

Lemma int32_succ (a : Z) : int32 (int32 a + 1) = int32 (a + 1).
Proof.
  unfold int32.
  replace ((a + 2 ^ 31) mod 2 ^ 32 - 2 ^ 31 + 1 + 2 ^ 31)%Z
    with ((a + 2 ^ 31) mod 2 ^ 32 + 1)%Z by lia.
  rewrite Zplus_mod_idemp_l. do 2 f_equal. lia.
Qed.

Lemma int32_not_1 (y : Z) : (2 <= y <= 2 ^ 32)%Z -> int32 y <> 1%Z.
Proof.
  unfold int32. intros Hy Heq.
  change (2 ^ 31)%Z with 2147483648%Z in *.
  change (2 ^ 32)%Z with 4294967296%Z in *.
  rewrite Z.mod_eq in Heq by lia.
  set (q := ((y + 2147483648) / 4294967296)%Z) in *. lia.
Qed.

Section StartStop.

Lemma Start_seq_spent
    (answers : list (option error * result (wire.Hash * Z))) :
  forall (k : Z) (p : viewProcess),
    (0 <= k)%Z ->
    (k + Z.of_nat (length answers) < 2 ^ 32 - 1)%Z ->
    started p = int32 (1 + k) ->
    Start_seq answers p
    = (replicate (length answers) None,
       with_started (int32 (1 + k + Z.of_nat (length answers))) p).
Proof.
  induction answers as [|[clientStart bestBlock] rest IH];
    intros k p Hk Hlen Hstarted.
  - cbn. rewrite Z.add_0_r, <- Hstarted. by destruct p.
  - cbn [Start_seq length replicate]. unfold Start.
    rewrite Hstarted, int32_succ.
    destruct (Z.eqb_spec (int32 (1 + k + 1)) 1) as [Heq|_].
    { exfalso. revert Heq. apply int32_not_1. cbn [length] in Hlen. lia. }
    cbn [negb]. cbn [length] in Hlen.
    rewrite (IH (k + 1)%Z) by (cbn; (lia || (f_equal; lia))).
    cbn. f_equal. unfold with_started. cbn. do 2 f_equal. lia.
Qed.

(** X6. Start of the view works once. After the first Start on a fresh
    process, whether it succeeded or failed, every later Start (fewer than
    2^32 - 1 of them) returns nil and changes nothing but its guard: the
    chain client is not started again, and a first Start that failed is
    never made good, the block queue and chainFilterer staying as they
    were before it. *)
Theorem Start_is_one_shot (clientStart : option error)
    (bestBlock : result (wire.Hash * Z))
    (answers : list (option error * result (wire.Hash * Z)))
    (p : viewProcess) :
  started p = 0%Z ->
  (Z.of_nat (length answers) < 2 ^ 32 - 1)%Z ->
  let first := Start clientStart bestBlock p in
  let later := Start_seq answers first.2 in
  later.1 = replicate (length answers) None
  /\ later.2
     = with_started (int32 (1 + Z.of_nat (length answers))) first.2
  /\ (is_Some first.1 ->
      filtererRunning later.2 = filtererRunning p
      /\ queueStarted later.2 = queueStarted p).
Proof.
  intros Hfresh Hlen first later.
  assert (Hfirst : started first.2 = int32 (1 + 0)).
  { subst first. unfold Start. rewrite Hfresh. cbn.
    destruct clientStart; [done|]. by destruct bestBlock as [[]|]. }
  assert (Hlater : later
                   = (replicate (length answers) None,
                      with_started
                        (int32 (1 + 0 + Z.of_nat (length answers))) first.2)).
  { subst later. apply Start_seq_spent; [lia | lia | done]. }
  rewrite Hlater. cbn [fst snd]. split; [done|]. split; [done|].
  intros Hfailed. subst first. unfold Start in *. rewrite Hfresh in *.
  cbn in *. destruct clientStart; [done|].
  destruct bestBlock as [[]|]; [|done]. cbn in Hfailed.
  by destruct Hfailed.
Qed.


End StartStop.

End chainview_facts.

(** * Properties of the notifier *)

Module notifier_facts.
Import wire lightwalletnotify.

Section WithCollaborators.

Variable env : Collaborators.
Variable quitClosedAt : Z -> bool.
Variable selectClosed : N -> Z -> bool.

(** ** The two scans over a range of heights *)

Lemma firstMatch_None (confRequest : ConfRequest)
    (transactions : list MsgTx) :
  forall i : nat,
    (forall tx, tx ∈ transactions -> MatchesTx env confRequest tx = false) ->
    firstMatch env confRequest i transactions = None.
Proof.
  induction transactions as [|tx rest IH]; intros i Hno; simpl; [done|].
  rewrite Hno by (apply elem_of_cons; by left).
  apply IH. intros tx' Hin. apply Hno, elem_of_cons. by right.
Qed.

Lemma historicalConfDetails_loop_below (confRequest : ConfRequest)
    (startHeight : Z) (n : nat) :
  (Z.of_nat n < startHeight)%Z ->
  historicalConfDetails_loop env quitClosedAt confRequest startHeight n
  = (None, None).
Proof.
  intros Hlt. destruct n as [|n']; [done|].
  cbn [historicalConfDetails_loop].
  destruct (Z.geb_spec (Z.of_nat (S n')) startHeight); [lia | done].
Qed.

Lemma confDetailsManually_loop_below (confRequest : ConfRequest)
    (heightHint : Z) (n : nat) :
  (Z.of_nat n < heightHint)%Z ->
  confDetailsManually_loop env quitClosedAt confRequest heightHint n
  = (None, TxNotFoundManually, None).
Proof.
  intros Hlt. destruct n as [|n']; [done|].
  cbn [confDetailsManually_loop].
  destruct (Z.geb_spec (Z.of_nat (S n')) heightHint); [lia | done].
Qed.

(** A scan that steps over every height above [m] is, from there on, the
    scan that starts at [m]. *)
Lemma historicalConfDetails_loop_skip (confRequest : ConfRequest)
    (startHeight : Z) (m : nat) :
  forall n : nat,
    m <= n ->
    (forall k : nat, m < k <= n ->
       historicalConfDetails_body env quitClosedAt confRequest (Z.of_nat k)
       = Next) ->
    historicalConfDetails_loop env quitClosedAt confRequest startHeight n
    = historicalConfDetails_loop env quitClosedAt confRequest startHeight m.
Proof.
  induction n as [|n' IH]; intros Hle Hnext.
  - by replace m with 0 by lia.
  - destruct (decide (m = S n')) as [->|Hne]; [done|].
    cbn [historicalConfDetails_loop].
    destruct (Z.geb_spec (Z.of_nat (S n')) startHeight) as [Hge|Hlt].
    + rewrite Hnext by lia. apply IH; [lia|]. intros k Hk. apply Hnext. lia.
    + symmetry. apply historicalConfDetails_loop_below. lia.
Qed.

Lemma confDetailsManually_loop_skip (confRequest : ConfRequest)
    (heightHint : Z) (m : nat) :
  forall n : nat,
    m <= n ->
    (forall k : nat, m < k <= n ->
       confDetailsManually_body env quitClosedAt confRequest (Z.of_nat k)
       = Next) ->
    confDetailsManually_loop env quitClosedAt confRequest heightHint n
    = confDetailsManually_loop env quitClosedAt confRequest heightHint m.
Proof.
  induction n as [|n' IH]; intros Hle Hnext.
  - by replace m with 0 by lia.
  - destruct (decide (m = S n')) as [->|Hne]; [done|].
    cbn [confDetailsManually_loop].
    destruct (Z.geb_spec (Z.of_nat (S n')) heightHint) as [Hge|Hlt].
    + rewrite Hnext by lia. apply IH; [lia|]. intros k Hk. apply Hnext. lia.
    + symmetry. apply confDetailsManually_loop_below. lia.
Qed.

(** C3, as the code has it. When the scan reaches a height whose compact
    filter matches the script of the request, but no transaction of that
    block matches the request, it reports no error for that height: the
    loop body goes on to the next round, so the look-up returns what the
    look-up over the heights below returns, and when that height is the
    last of the range (it is the start height, or height 1) the look-up
    returns a nil result and a nil error. *)
Theorem historicalConfDetails_unmatched_block_continues
    (confRequest : ConfRequest) (startHeight endHeight h : Z)
    (blockHash : wire.Hash) (filter : CFilter env)
    (transactions : list MsgTx) :
  (0 < h)%Z ->
  (startHeight <= h <= endHeight)%Z ->
  (forall h' : Z, (h < h' <= endHeight)%Z ->
     historicalConfDetails_body env quitClosedAt confRequest h' = Next) ->
  quitClosedAt h = false ->
  GetBlockHash env h = Ok blockHash ->
  GetCFilter env blockHash = Ok (Some filter) ->
  Match env filter (DeriveKey env blockHash) (PkScript_Script confRequest)
    = Ok true ->
  GetFilterBlock env blockHash = Ok transactions ->
  (forall tx, tx ∈ transactions -> MatchesTx env confRequest tx = false) ->
  historicalConfDetails_body env quitClosedAt confRequest h = Next
  /\ historicalConfDetails env quitClosedAt confRequest startHeight endHeight
     = historicalConfDetails env quitClosedAt confRequest startHeight (h - 1)
  /\ (h = startHeight \/ h = 1%Z ->
      historicalConfDetails env quitClosedAt confRequest startHeight
        endHeight
      = (None, None)).
Proof.
  intros Hpos Hrange Hreach Hquit Hhash Hfilter Hmatch Hblock Hno.
  assert (Hbody : historicalConfDetails_body env quitClosedAt confRequest h
                  = Next).
  { unfold historicalConfDetails_body.
    rewrite Hquit, Hhash, Hfilter, Hmatch, Hblock.
    by rewrite firstMatch_None. }
  assert (Hstep :
    historicalConfDetails env quitClosedAt confRequest startHeight endHeight
    = historicalConfDetails env quitClosedAt confRequest startHeight (h - 1)).
  { unfold historicalConfDetails.
    apply historicalConfDetails_loop_skip; [lia|].
    intros k Hk. destruct (decide (Z.of_nat k = h)) as [->|Hne]; [done|].
    apply Hreach. lia. }
  split; [exact Hbody|]. split; [exact Hstep|].
  intros Hlast. rewrite Hstep. unfold historicalConfDetails.
  destruct Hlast as [->| ->].
  - apply historicalConfDetails_loop_below. lia.
  - done.
Qed.

(** C8. Each of the two scans checks the shutdown signal at the start of
    every round of its loop over the heights: when the scan reaches a
    height of its range (every higher height of the range having been
    stepped over) and the signal is set there, the filter-match scan
    returns a nil result with ErrChainNotifierShuttingDown, and the manual
    scan returns a nil result, TxNotFoundManually and
    ErrChainNotifierShuttingDown. *)
Theorem scans_return_shutting_down (confRequest : ConfRequest)
    (startHeight endHeight h : Z) :
  (0 < h)%Z ->
  (startHeight <= h <= endHeight)%Z ->
  quitClosedAt h = true ->
  ((forall h' : Z, (h < h' <= endHeight)%Z ->
      historicalConfDetails_body env quitClosedAt confRequest h' = Next) ->
   historicalConfDetails env quitClosedAt confRequest startHeight endHeight
   = (None, Some ErrChainNotifierShuttingDown))
  /\ ((forall h' : Z, (h < h' <= endHeight)%Z ->
         confDetailsManually_body env quitClosedAt confRequest h' = Next) ->
      confDetailsManually env quitClosedAt confRequest startHeight endHeight
      = (None, TxNotFoundManually, Some ErrChainNotifierShuttingDown)).
Proof.
  intros Hpos Hrange Hquit.
  destruct (Z.to_nat h) as [|m'] eqn:Hm; [lia|].
  assert (Hh : h = Z.of_nat (S m')) by lia.
  split; intros Hreach.
  - unfold historicalConfDetails.
    rewrite (historicalConfDetails_loop_skip confRequest startHeight (S m'))
      by (try lia; intros k Hk; apply Hreach; lia).
    cbn [historicalConfDetails_loop]. rewrite <- Hh.
    destruct (Z.geb_spec h startHeight); [|lia].
    unfold historicalConfDetails_body. by rewrite Hquit.
  - unfold confDetailsManually.
    rewrite (confDetailsManually_loop_skip confRequest startHeight (S m'))
      by (try lia; intros k Hk; apply Hreach; lia).
    cbn [confDetailsManually_loop]. rewrite <- Hh.
    destruct (Z.geb_spec h startHeight); [|lia].
    unfold confDetailsManually_body. by rewrite Hquit.
Qed.

(** ** The transaction-index look-up *)

Lemma confDetailsFromTxIndex_loop_absent (rawTxRes : TxRawResult)
    (blockHash : wire.Hash) (block : GetBlockVerboseResult)
    (txidStr : string) (txs : list string) :
  forall txIndex : nat,
    txidStr ∉ txs ->
    confDetailsFromTxIndex_loop env rawTxRes blockHash block txidStr
                                txIndex txs = Next.
Proof.
  induction txs as [|txHash rest IH]; intros txIndex Hnot; simpl; [done|].
  apply not_elem_of_cons in Hnot as [Hne Hrest].
  destruct (String.eqb_spec txHash txidStr) as [->|_]; [done|].
  by apply IH.
Qed.

Lemma confDetailsFromTxIndex_loop_found (rawTxRes : TxRawResult)
    (blockHash : wire.Hash) (block : GetBlockVerboseResult)
    (txidStr : string) (rawTx : list Byte.byte) (tx : MsgTx)
    (txs : list string) :
  hex_DecodeString env (Hex rawTxRes) = Ok rawTx ->
  Deserialize env rawTx = Ok tx ->
  forall txIndex i : nat,
    txs !! i = Some txidStr ->
    (forall j : nat, j < i -> txs !! j <> Some txidStr) ->
    confDetailsFromTxIndex_loop env rawTxRes blockHash block txidStr
                                txIndex txs
    = Return (Some {| Tx := tx;
                      BlockHash := blockHash;
                      BlockHeight := uint32 (vb_Height block);
                      TxIndex := uint32 (Z.of_nat (txIndex + i)) |},
              TxFoundIndex, None).
Proof.
  intros Hhex Hdes.
  induction txs as [|txHash rest IH]; intros txIndex i Hi Hfirst; [done|].
  cbn [confDetailsFromTxIndex_loop].
  destruct i as [|i'].
  - simpl in Hi. injection Hi as ->. rewrite String.eqb_refl. simpl.
    rewrite Hhex, Hdes. by rewrite Nat.add_0_r.
  - destruct (String.eqb_spec txHash txidStr) as [->|_].
    + exfalso. by apply (Hfirst 0); [lia|].
    + simpl. rewrite (IH (S txIndex) i').
      * by replace (S txIndex + i') with (txIndex + S i') by lia.
      * exact Hi.
      * intros j Hj. apply (Hfirst (S j)). lia.
Qed.

Lemma confDetailsFromTxIndex_loop_status (rawTxRes : TxRawResult)
    (blockHash : wire.Hash) (block : GetBlockVerboseResult)
    (txidStr : string) (txs : list string) :
  forall (txIndex : nat) r,
    confDetailsFromTxIndex_loop env rawTxRes blockHash block txidStr
                                txIndex txs = Return r ->
    r.1.2 = TxFoundIndex.
Proof.
  induction txs as [|txHash rest IH]; intros txIndex r; [done|].
  cbn [confDetailsFromTxIndex_loop].
  destruct (negb _); [apply IH|].
  destruct (hex_DecodeString env _); [|by intros [= <-]].
  destruct (Deserialize env _); by intros [= <-].
Qed.

(** C6. The transaction-index look-up answers with one of the three
    statuses TxNotFoundIndex, TxFoundMempool and TxFoundIndex, which are
    pairwise distinct. When the backend reports the transaction missing
    (an RPC error with the no-transaction-info code whose message holds the
    not-found text) it returns TxNotFoundIndex with no details and no
    error. When the backend returns the transaction without a block hash
    it returns TxFoundMempool with no details and no error. When the
    transaction comes with a block hash, the block is fetched and lists the
    transaction, and its raw bytes decode, it returns TxFoundIndex with the
    block hash, the block height, the first index of the transaction in
    the block and the decoded transaction. When the block does not list
    the transaction it returns an error. *)
Theorem confDetailsFromTxIndex_spec (txid : wire.Hash) :
  let r := confDetailsFromTxIndex env txid in
  (r.1.2 = TxNotFoundIndex \/ r.1.2 = TxFoundMempool \/ r.1.2 = TxFoundIndex)
  /\ NoDup [TxNotFoundIndex; TxFoundMempool; TxFoundIndex]
  /\ (forall message : string,
        GetRawTransactionVerbose env txid
          = Err (RPCError (ErrRPCNoTxInfo env) message) ->
        strings_Contains message txNotFoundErr = true ->
        r = (None, TxNotFoundIndex, None))
  /\ (forall rawTxRes : TxRawResult,
        GetRawTransactionVerbose env txid = Ok rawTxRes ->
        raw_BlockHash rawTxRes = EmptyString ->
        r = (None, TxFoundMempool, None))
  /\ (forall (rawTxRes : TxRawResult) (blockHash : wire.Hash)
             (block : GetBlockVerboseResult),
        GetRawTransactionVerbose env txid = Ok rawTxRes ->
        raw_BlockHash rawTxRes <> EmptyString ->
        NewHashFromStr env (raw_BlockHash rawTxRes) = Ok blockHash ->
        GetBlockVerbose env blockHash = Ok block ->
        (forall (i : nat) (rawTx : list Byte.byte) (tx : MsgTx),
           vb_Tx block !! i = Some (Hash_String env txid) ->
           (forall j : nat,
              j < i -> vb_Tx block !! j <> Some (Hash_String env txid)) ->
           hex_DecodeString env (Hex rawTxRes) = Ok rawTx ->
           Deserialize env rawTx = Ok tx ->
           r = (Some {| Tx := tx;
                        BlockHash := blockHash;
                        BlockHeight := uint32 (vb_Height block);
                        TxIndex := uint32 (Z.of_nat i) |},
                TxFoundIndex, None))
        /\ (Hash_String env txid ∉ vb_Tx block ->
            exists err : error, r = (None, TxNotFoundIndex, Some err))).
Proof.
  intros r. subst r. unfold confDetailsFromTxIndex.
  split; [|split; [|split; [|split; [|]]]].
  - destruct (GetRawTransactionVerbose env txid) as [rawTxRes|err].
    + destruct (String.eqb _ EmptyString); [by right; left|].
      destruct (NewHashFromStr env _) as [blockHash|]; [|by left].
      destruct (GetBlockVerbose env blockHash) as [block|]; [|by left].
      destruct (confDetailsFromTxIndex_loop _ _ _ _ _ _ _) as [r|] eqn:Hloop;
        [|by left].
      right; right. by eapply confDetailsFromTxIndex_loop_status.
    + destruct err; try by left.
      destruct (_ && _); by left.
  - repeat constructor; intros Hin;
      repeat (apply elem_of_cons in Hin as [Hin|Hin]; [discriminate|]);
      by apply elem_of_nil in Hin.
  - intros message -> Hcontains.
    by rewrite Z.eqb_refl, Hcontains.
  - intros rawTxRes -> ->. done.
  - intros rawTxRes blockHash block -> Hconfirmed -> ->.
    destruct (String.eqb_spec (raw_BlockHash rawTxRes) EmptyString)
      as [|_]; [done|].
    split.
    + intros i rawTx tx Hi Hfirst Hhex Hdes.
      by rewrite (confDetailsFromTxIndex_loop_found _ _ _ _ rawTx tx _
                    Hhex Hdes 0 i Hi Hfirst).
    + intros Hnot. rewrite confDetailsFromTxIndex_loop_absent by done.
      by eexists.
Qed.

(** ** The dispatcher *)

(** C5. The dispatcher answers a historical confirmation dispatch by
    launching the resolver task for it; and whenever the look-up of that
    task ends without an error, the task calls UpdateConfDetails on the
    transaction notifier with the request and the result of the look-up,
    whatever that result is: also when it is nil because no confirmation
    was found. *)
Theorem historical_dispatch_reports_result (msg : HistoricalConfDispatch)
    (b : LightWalletNotifier) (confDetails : option TxConfirmation) :
  historicalConfDetails env quitClosedAt (hcd_ConfRequest msg)
    (StartHeight msg) (EndHeight msg) = (confDetails, None) ->
  notificationDispatcher_step env selectClosed
    (recvHistoricalConfDispatch msg) b
  = Continue (spawn_resolver msg b)
  /\ msg ∈ resolverTasks (spawn_resolver msg b)
  /\ txNotifier (historicalConfTask env quitClosedAt msg b)
     = txNotifier b
       ++ [callUpdateConfDetails (hcd_ConfRequest msg) confDetails].
Proof.
  intros Hscan. split; [done|]. split.
  - simpl. apply elem_of_app. right. apply elem_of_cons. by left.
  - unfold historicalConfTask. by rewrite Hscan.
Qed.

Lemma with_client_lookup_ne (id id' : N)
    (f : blockEpochRegistration -> blockEpochRegistration)
    (b : LightWalletNotifier) :
  id' <> id ->
  blockEpochClients (with_client id' f b) !! id = blockEpochClients b !! id.
Proof. intros Hne. simpl. by apply lookup_alter_ne. Qed.

Lemma send_errorChan_lookup_ne (id id' : N) (e : option error)
    (b : LightWalletNotifier) :
  id' <> id ->
  blockEpochClients (outcome_state (send_errorChan id' e b)) !! id
  = blockEpochClients b !! id.
Proof.
  intros Hne. unfold send_errorChan.
  destruct (blockEpochClients b !! id') as [r|]; [|done].
  case_decide; [|done]. by apply with_client_lookup_ne.
Qed.

Lemma missed_blocks_lookup_ne (id id' : N) (missedBlocks : list BlockEpoch) :
  id' <> id ->
  forall b : LightWalletNotifier,
    blockEpochClients
      (foldl (fun acc blk =>
                with_client id'
                  (fun r => notifyBlockEpochClient selectClosed (quit acc) r
                              (Height blk) (Hash blk))
                  acc)
             b missedBlocks) !! id
    = blockEpochClients b !! id.
Proof.
  intros Hne. induction missedBlocks as [|blk rest IH]; intros b; [done|].
  cbn [foldl]. rewrite IH. by apply with_client_lookup_ne.
Qed.

(** A round on an event that is quiet for a client leaves the registration
    of that client as it was. *)
Lemma step_quiet_preserves (id : N) (ev : dispatcherEvent)
    (b : LightWalletNotifier) :
  quiet_for id ev ->
  blockEpochClients
    (outcome_state (notificationDispatcher_step env selectClosed ev b)) !! id
  = blockEpochClients b !! id.
Proof.
  intros Hquiet. destruct ev as [| | |msg| | | |]; try done.
  simpl in Hquiet. cbn [notificationDispatcher_step].
  destruct (reg_bestBlock msg) as [hint|].
  - destruct (GetClientMissedBlocks env hint _) as [missedBlocks|err].
    + rewrite send_errorChan_lookup_ne, missed_blocks_lookup_ne by done.
      simpl. by apply lookup_insert_ne.
    + rewrite send_errorChan_lookup_ne by done.
      simpl. by apply lookup_insert_ne.
  - rewrite send_errorChan_lookup_ne, with_client_lookup_ne by done.
    simpl. by apply lookup_insert_ne.
Qed.

Lemma notificationDispatcher_quiet (id : N) (evs : list dispatcherEvent) :
  Forall (quiet_for id) evs ->
  forall b : LightWalletNotifier,
    blockEpochClients
      (outcome_state (notificationDispatcher env selectClosed evs b)) !! id
    = blockEpochClients b !! id.
Proof.
  induction 1 as [|ev rest Hquiet _ IH]; intros b; [done|].
  cbn [notificationDispatcher].
  pose proof (step_quiet_preserves id ev b Hquiet) as Hstep.
  destruct (notificationDispatcher_step env selectClosed ev b) as [b'|b'|b'];
    simpl in *; [|done|done].
  by rewrite IH.
Qed.

Lemma notifyBlockEpochClient_open (r : blockEpochRegistration)
    (height : Z) (sha : wire.Hash) :
  cancelChan r = false ->
  notifyBlockEpochClient selectClosed false r height sha
  = push_epoch {| Height := height; Hash := sha |} r.
Proof. intros Hopen. unfold notifyBlockEpochClient. by rewrite Hopen. Qed.

(** C7, as the code has it. When the dispatcher receives a block-epoch
    registration that carries no best-known block, while the quit channel
    is open (and the registration is as RegisterBlockEpochNtfn makes it:
    its cancel channel open and nothing yet sent on its error channel), it
    stores the registration in the subscriber map, puts exactly one epoch
    on the queue of that subscriber, equal to the current best tip (height
    and hash), and sends nil on the error channel of the registration.
    After that, whatever events the dispatcher handles, as long as none of
    them is a connected block (or a new registration under the same id),
    the registration keeps that queue: no further epoch is delivered to
    it. *)
Theorem registration_without_hint_notifies_tip
    (msg : blockEpochRegistration) (b : LightWalletNotifier) :
  reg_bestBlock msg = None ->
  quit b = false ->
  cancelChan msg = false ->
  errorChan msg = [] ->
  let msg' := {| epochID := epochID msg;
                 epochQueue := epochQueue msg ++ [bestBlock b];
                 reg_bestBlock := None;
                 errorChan := [None];
                 cancelChan := false |} in
  let b' := set_blockEpochClients
              (<[epochID msg := msg']> (blockEpochClients b)) b in
  notificationDispatcher_step env selectClosed
    (recvBlockEpochRegistration msg) b = Continue b'
  /\ (forall evs : list dispatcherEvent,
        Forall (quiet_for (epochID msg)) evs ->
        blockEpochClients
          (outcome_state (notificationDispatcher env selectClosed evs b'))
          !! epochID msg
        = Some msg').
Proof.
  intros Hhint Hquit Hcancel Herr msg' b'. split.
  - cbn [notificationDispatcher_step]. rewrite Hhint.
    cbn [quit set_blockEpochClients bestBlock]. rewrite Hquit.
    unfold with_client. cbn [blockEpochClients set_blockEpochClients].
    rewrite alter_insert_eq, notifyBlockEpochClient_open by done.
    unfold send_errorChan. cbn [blockEpochClients set_blockEpochClients].
    rewrite lookup_insert_eq. cbn [push_epoch errorChan]. rewrite Herr.
    rewrite decide_True by (simpl; lia).
    unfold with_client. cbn [blockEpochClients set_blockEpochClients].
    rewrite alter_insert_eq.
    subst b' msg'. unfold set_blockEpochClients, push_error.
    cbn. rewrite Herr, Hhint, Hcancel, Hquit.
    by destruct (bestBlock b).
  - intros evs Hquiet. rewrite notificationDispatcher_quiet by done.
    subst b'. simpl. by apply lookup_insert_eq.
Qed.

(** The dispatcher does nothing on a connected block. *)
Lemma dispatcher_ignores_block_connected (item : BlockConnected)
    (b : LightWalletNotifier) :
  notificationDispatcher_step env selectClosed (recvBlockConnected item) b
  = Continue b.
Proof. reflexivity. Qed.

(** handleBlockConnected is the method that applies a connected block:
    when the block is fetched and ConnectTip accepts it, it sets the best
    tip to the block, notifies every registered client, and calls
    NotifyHeight after ConnectTip. *)
Lemma handleBlockConnected_applies_block (block : BlockEpoch)
    (rawBlock : MsgBlock) (b : LightWalletNotifier) :
  GetBlock env (Hash block) = Ok rawBlock ->
  ConnectTip env (Hash block) (uint32 (Height block))
    (mkBtcutilTx <$> wire.Transactions rawBlock) = None ->
  let r := handleBlockConnected env selectClosed block b in
  r.1 = NotifyHeight env (uint32 (Height block))
  /\ bestBlock r.2 = block
  /\ blockEpochClients r.2
     = (fun client =>
          notifyBlockEpochClient selectClosed (quit b) client
            (Height block) (Hash block)) <$> blockEpochClients b
  /\ txNotifier r.2
     = txNotifier b
       ++ [callConnectTip (Hash block) (uint32 (Height block))
             (mkBtcutilTx <$> wire.Transactions rawBlock);
           callNotifyHeight (uint32 (Height block))].
Proof.
  intros Hblock Htip r. subst r. unfold handleBlockConnected.
  rewrite Hblock, Htip. cbn. by rewrite <- app_assoc.
Qed.

(** ** More on the filter-match scan *)

Lemma firstMatch_Some (confRequest : ConfRequest)
    (transactions : list MsgTx) :
  forall (k i : nat) (tx : MsgTx),
    firstMatch env confRequest k transactions = Some (i, tx) ->
    exists j : nat,
      i = k + j
      /\ transactions !! j = Some tx
      /\ MatchesTx env confRequest tx = true
      /\ (forall (j' : nat) (tx' : MsgTx),
            j' < j -> transactions !! j' = Some tx' ->
            MatchesTx env confRequest tx' = false).
Proof.
  induction transactions as [|tx0 rest IH]; intros k i tx Hfirst; [done|].
  cbn [firstMatch] in Hfirst.
  destruct (MatchesTx env confRequest tx0) eqn:Hm.
  - injection Hfirst as <- <-. exists 0.
    repeat split; [lia | done | intros; lia].
  - destruct (IH (S k) i tx Hfirst) as (j & -> & Hj & Hmatch & Hbefore).
    exists (S j). repeat split; [lia | done | done |].
    intros [|j'] tx' Hlt Hlook.
    + by injection Hlook as <-.
    + apply (Hbefore j' tx'); [lia | done].
Qed.

Lemma firstMatch_found (confRequest : ConfRequest)
    (transactions : list MsgTx) :
  forall (k j : nat) (tx : MsgTx),
    transactions !! j = Some tx ->
    MatchesTx env confRequest tx = true ->
    (forall (j' : nat) (tx' : MsgTx),
       j' < j -> transactions !! j' = Some tx' ->
       MatchesTx env confRequest tx' = false) ->
    firstMatch env confRequest k transactions = Some (k + j, tx).
Proof.
  induction transactions as [|tx0 rest IH]; intros k j tx Hj Hm Hbefore;
    [done|].
  cbn [firstMatch]. destruct j as [|j'].
  - injection Hj as ->. rewrite Hm. by rewrite Nat.add_0_r.
  - rewrite (Hbefore 0 tx0) by (done || lia).
    rewrite (IH (S k) j' tx Hj Hm).
    + by replace (S k + j') with (k + S j') by lia.
    + intros j'' tx' Hlt Hlook. apply (Hbefore (S j'') tx'); [lia | done].
Qed.

Lemma firstMatchManually_firstMatch (confRequest : ConfRequest)
    (transactions : list MsgTx) :
  forall k : nat,
    firstMatchManually env confRequest k transactions
    = firstMatch env confRequest k transactions.
Proof.
  induction transactions as [|tx rest IH]; intros k; [done|].
  cbn. by rewrite IH.
Qed.

(** The look-up returns [(nil, nil)] from the end of its loop, or it
    returns what the body returned at the first height, from the top, at
    which the body did return. *)
Lemma historicalConfDetails_loop_inv (confRequest : ConfRequest)
    (startHeight : Z) :
  forall n : nat,
    historicalConfDetails_loop env quitClosedAt confRequest startHeight n
    = (None, None)
    \/ exists m : nat,
         0 < m <= n
         /\ (startHeight <= Z.of_nat m)%Z
         /\ historicalConfDetails_body env quitClosedAt confRequest
              (Z.of_nat m)
            = Return (historicalConfDetails_loop env quitClosedAt
                        confRequest startHeight n)
         /\ (forall k : nat, m < k <= n ->
               historicalConfDetails_body env quitClosedAt confRequest
                 (Z.of_nat k) = Next).
Proof.
  induction n as [|n' IH]; [by left|].
  cbn [historicalConfDetails_loop].
  destruct (Z.geb_spec (Z.of_nat (S n')) startHeight) as [Hge|Hlt];
    [|by left].
  destruct (historicalConfDetails_body env quitClosedAt confRequest
              (Z.of_nat (S n'))) as [r|] eqn:Hbody.
  - right. exists (S n').
    split; [lia|]. split; [lia|]. split; [done|]. intros k Hk. lia.
  - destruct IH as [Hnone|(m & Hm & Hstart & Hret & Hnext)]; [by left|].
    right. exists m. split; [lia|]. split; [lia|]. split; [done|].
    intros k Hk. destruct (decide (k = S n')) as [->|Hne]; [done|].
    apply Hnext. lia.
Qed.

Lemma historicalConfDetails_body_details (confRequest : ConfRequest)
    (h : Z) (d : TxConfirmation) (e : option error) :
  historicalConfDetails_body env quitClosedAt confRequest h
  = Return (Some d, e) ->
  e = None
  /\ quitClosedAt h = false
  /\ BlockHeight d = h
  /\ GetBlockHash env h = Ok (BlockHash d)
  /\ exists (filter : CFilter env) (transactions : list MsgTx) (i : nat),
       GetCFilter env (BlockHash d) = Ok (Some filter)
       /\ Match env filter (DeriveKey env (BlockHash d))
            (PkScript_Script confRequest) = Ok true
       /\ GetFilterBlock env (BlockHash d) = Ok transactions
       /\ firstMatch env confRequest 0 transactions = Some (i, Tx d)
       /\ TxIndex d = uint32 (Z.of_nat i).
Proof.
  unfold historicalConfDetails_body.
  destruct (quitClosedAt h); [done|].
  destruct (GetBlockHash env h) as [blockHash|]; [|done].
  destruct (GetCFilter env blockHash) as [[filter|]|] eqn:Hf; [|done|done].
  destruct (Match env filter _ _) as [[|]|] eqn:Hm; [|done|done].
  destruct (GetFilterBlock env blockHash) as [transactions|] eqn:Hb; [|done].
  destruct (firstMatch env confRequest 0 transactions) as [[i tx]|] eqn:Hfm;
    [|done].
  intros [= <- <-]. cbn. repeat split. by exists filter, transactions, i.
Qed.

(** X8. Whatever the filter-match scan returns as confirmation details is
    backed by the backend: the error is nil, the block height lies in the
    scanned range and is positive, the block hash is the hash of the
    backend at that height, the compact filter of that block matched, and
    the transaction is the first one of the block that matches the
    request, at the index reported. *)
Theorem historicalConfDetails_sound (confRequest : ConfRequest)
    (startHeight endHeight : Z) (d : TxConfirmation) :
  (historicalConfDetails env quitClosedAt confRequest startHeight
     endHeight).1 = Some d ->
  (historicalConfDetails env quitClosedAt confRequest startHeight
     endHeight).2 = None
  /\ (startHeight <= BlockHeight d <= endHeight)%Z
  /\ (0 < BlockHeight d)%Z
  /\ GetBlockHash env (BlockHeight d) = Ok (BlockHash d)
  /\ MatchesTx env confRequest (Tx d) = true
  /\ exists (filter : CFilter env) (transactions : list MsgTx) (i : nat),
       GetCFilter env (BlockHash d) = Ok (Some filter)
       /\ Match env filter (DeriveKey env (BlockHash d))
            (PkScript_Script confRequest) = Ok true
       /\ GetFilterBlock env (BlockHash d) = Ok transactions
       /\ transactions !! i = Some (Tx d)
       /\ TxIndex d = uint32 (Z.of_nat i)
       /\ (forall (j : nat) (tx : MsgTx),
             j < i -> transactions !! j = Some tx ->
             MatchesTx env confRequest tx = false).
Proof.
  unfold historicalConfDetails. intros Hd.
  destruct (historicalConfDetails_loop_inv confRequest startHeight
              (Z.to_nat endHeight))
    as [Hnone|(m & Hm & Hstart & Hret & _)];
    [by rewrite Hnone in Hd|].
  destruct (historicalConfDetails_loop _ _ _ _ _) as [details e].
  cbn in Hd. subst details.
  destruct (historicalConfDetails_body_details _ _ _ _ Hret)
    as (-> & _ & Hheight & Hhash & filter & transactions & i
        & Hf & Hmatch & Hblock & Hfirst & Hindex).
  destruct (firstMatch_Some _ _ _ _ _ Hfirst)
    as (j & -> & Hj & Htx & Hbefore).
  repeat split; try lia; [by rewrite Hheight | done |].
  by exists filter, transactions, j.
Qed.

(** X9. When the scan reaches a height (every higher height of the range
    having been stepped over) at which the quit channel is open, the
    compact filter matches, and the block holds a transaction that matches
    the request, it returns the first such transaction of the block with
    the block hash, that height and the index of the transaction, and a
    nil error; lower heights play no part. *)
Theorem historicalConfDetails_finds (confRequest : ConfRequest)
    (startHeight endHeight h : Z) (blockHash : wire.Hash)
    (filter : CFilter env) (transactions : list MsgTx) (i : nat)
    (tx : MsgTx) :
  (0 < h)%Z ->
  (startHeight <= h <= endHeight)%Z ->
  (forall h' : Z, (h < h' <= endHeight)%Z ->
     historicalConfDetails_body env quitClosedAt confRequest h' = Next) ->
  quitClosedAt h = false ->
  GetBlockHash env h = Ok blockHash ->
  GetCFilter env blockHash = Ok (Some filter) ->
  Match env filter (DeriveKey env blockHash) (PkScript_Script confRequest)
    = Ok true ->
  GetFilterBlock env blockHash = Ok transactions ->
  transactions !! i = Some tx ->
  MatchesTx env confRequest tx = true ->
  (forall (j : nat) (tx' : MsgTx),
     j < i -> transactions !! j = Some tx' ->
     MatchesTx env confRequest tx' = false) ->
  historicalConfDetails env quitClosedAt confRequest startHeight endHeight
  = (Some {| Tx := tx; BlockHash := blockHash; BlockHeight := h;
             TxIndex := uint32 (Z.of_nat i) |}, None).
Proof.
  intros Hpos Hrange Hreach Hquit Hhash Hf Hmatch Hblock Hi Htx Hbefore.
  unfold historicalConfDetails.
  destruct (Z.to_nat h) as [|m'] eqn:Hm; [lia|].
  rewrite (historicalConfDetails_loop_skip confRequest startHeight (S m'))
    by (try lia; intros k Hk; apply Hreach; lia).
  cbn [historicalConfDetails_loop].
  replace (Z.of_nat (S m')) with h by lia.
  destruct (Z.geb_spec h startHeight); [|lia].
  unfold historicalConfDetails_body.
  rewrite Hquit, Hhash, Hf, Hmatch, Hblock.
  by rewrite (firstMatch_found confRequest transactions 0 i tx).
Qed.

(** X10. The edges of the range of the filter-match scan. An empty range
    (the end height below the start height) and an end height of zero give
    a nil result and a nil error whatever the backend holds. Height zero
    is never looked at: a scan from start height 0 is the scan from start
    height 1. *)
Theorem historicalConfDetails_range_edges (confRequest : ConfRequest)
    (startHeight endHeight : Z) :
  ((endHeight < startHeight)%Z \/ (endHeight <= 0)%Z ->
   historicalConfDetails env quitClosedAt confRequest startHeight endHeight
   = (None, None))
  /\ historicalConfDetails env quitClosedAt confRequest 0 endHeight
     = historicalConfDetails env quitClosedAt confRequest 1 endHeight.
Proof.
  unfold historicalConfDetails. split.
  - intros [Hlt|Hle].
    + destruct (Z.to_nat endHeight) as [|n'] eqn:Hn; [done|].
      apply historicalConfDetails_loop_below. lia.
    + by replace (Z.to_nat endHeight) with 0 by lia.
  - induction (Z.to_nat endHeight) as [|n' IH]; [done|].
    cbn [historicalConfDetails_loop].
    destruct (Z.geb_spec (Z.of_nat (S n')) 0); [|lia].
    destruct (Z.geb_spec (Z.of_nat (S n')) 1); [|lia].
    by rewrite IH.
Qed.

(** X11. A failure of the backend at the height that the scan has reached
    ends the scan: the result is nil and the error wraps the error of the
    backend, be it the failure of the hash look-up, of the filter fetch, of
    the filter query or of the block fetch. *)
Theorem historicalConfDetails_backend_failure (confRequest : ConfRequest)
    (startHeight endHeight h : Z) (cause : error) :
  (0 < h)%Z ->
  (startHeight <= h <= endHeight)%Z ->
  (forall h' : Z, (h < h' <= endHeight)%Z ->
     historicalConfDetails_body env quitClosedAt confRequest h' = Next) ->
  quitClosedAt h = false ->
  let r := historicalConfDetails env quitClosedAt confRequest startHeight
             endHeight in
  (GetBlockHash env h = Err cause ->
   r = (None, Some (Errorf "unable to get header for height=%v: %v" cause)))
  /\ (forall blockHash : wire.Hash,
        GetBlockHash env h = Ok blockHash ->
        (GetCFilter env blockHash = Err cause ->
         r = (None,
              Some (Errorf
                "unable to retrieve regular filter for height=%v: %v"
                cause)))
        /\ (forall filter : CFilter env,
              GetCFilter env blockHash = Ok (Some filter) ->
              (Match env filter (DeriveKey env blockHash)
                 (PkScript_Script confRequest) = Err cause ->
               r = (None, Some (Errorf "unable to query filter: %v" cause)))
              /\ (Match env filter (DeriveKey env blockHash)
                    (PkScript_Script confRequest) = Ok true ->
                  GetFilterBlock env blockHash = Err cause ->
                  r = (None,
                       Some (Errorf "unable to get block from network: %v"
                               cause))))).
Proof.
  intros Hpos Hrange Hreach Hquit r. subst r.
  unfold historicalConfDetails.
  destruct (Z.to_nat h) as [|m'] eqn:Hm; [lia|].
  rewrite (historicalConfDetails_loop_skip confRequest startHeight (S m'))
    by (try lia; intros k Hk; apply Hreach; lia).
  cbn [historicalConfDetails_loop].
  replace (Z.of_nat (S m')) with h by lia.
  destruct (Z.geb_spec h startHeight); [|lia].
  unfold historicalConfDetails_body. rewrite Hquit.
  split; [by intros ->|].
  intros blockHash ->. split; [by intros ->|].
  intros filter ->. split; [by intros ->|].
  by intros -> ->.
Qed.

(** X12. When every height of the range is scanned with the quit channel
    open and its block hash found, and each block has either no compact
    filter or one that does not match the script of the request, the scan
    returns a nil result and a nil error. *)
Theorem historicalConfDetails_no_filter_match (confRequest : ConfRequest)
    (startHeight endHeight : Z) :
  (forall h : Z,
     (0 < h)%Z -> (startHeight <= h <= endHeight)%Z ->
     quitClosedAt h = false
     /\ exists blockHash : wire.Hash,
          GetBlockHash env h = Ok blockHash
          /\ (GetCFilter env blockHash = Ok None
              \/ exists filter : CFilter env,
                   GetCFilter env blockHash = Ok (Some filter)
                   /\ Match env filter (DeriveKey env blockHash)
                        (PkScript_Script confRequest) = Ok false)) ->
  historicalConfDetails env quitClosedAt confRequest startHeight endHeight
  = (None, None).
Proof.
  intros Hall. unfold historicalConfDetails.
  remember (Z.to_nat endHeight) as n eqn:Hn0.
  assert (Hn : (Z.of_nat n <= endHeight)%Z \/ n = 0) by lia. clear Hn0.
  induction n as [|n' IH]; [done|].
  cbn [historicalConfDetails_loop].
  destruct (Z.geb_spec (Z.of_nat (S n')) startHeight) as [Hge|]; [|done].
  destruct (Hall (Z.of_nat (S n'))) as (Hquit & blockHash & Hhash & Hfilter);
    [lia | lia |].
  unfold historicalConfDetails_body at 1. rewrite Hquit, Hhash.
  destruct Hfilter as [->|(filter & -> & ->)]; apply IH; lia.
Qed.

(** ** More on the manual scan *)

Lemma confDetailsManually_loop_inv (confRequest : ConfRequest)
    (heightHint : Z) :
  forall n : nat,
    confDetailsManually_loop env quitClosedAt confRequest heightHint n
    = (None, TxNotFoundManually, None)
    \/ exists m : nat,
         0 < m <= n
         /\ (heightHint <= Z.of_nat m)%Z
         /\ confDetailsManually_body env quitClosedAt confRequest
              (Z.of_nat m)
            = Return (confDetailsManually_loop env quitClosedAt
                        confRequest heightHint n)
         /\ (forall k : nat, m < k <= n ->
               confDetailsManually_body env quitClosedAt confRequest
                 (Z.of_nat k) = Next).
Proof.
  induction n as [|n' IH]; [by left|].
  cbn [confDetailsManually_loop].
  destruct (Z.geb_spec (Z.of_nat (S n')) heightHint) as [Hge|Hlt];
    [|by left].
  destruct (confDetailsManually_body env quitClosedAt confRequest
              (Z.of_nat (S n'))) as [r|] eqn:Hbody.
  - right. exists (S n').
    split; [lia|]. split; [lia|]. split; [done|]. intros k Hk. lia.
  - destruct IH as [Hnone|(m & Hm & Hstart & Hret & Hnext)]; [by left|].
    right. exists m. split; [lia|]. split; [lia|]. split; [done|].
    intros k Hk. destruct (decide (k = S n')) as [->|Hne]; [done|].
    apply Hnext. lia.
Qed.

(** What the body of the manual scan can return: an error with nothing
    found, or a transaction found in the block at that height. *)
Lemma confDetailsManually_body_cases (confRequest : ConfRequest) (h : Z)
    (details : option TxConfirmation) (status : TxConfStatus)
    (e : option error) :
  confDetailsManually_body env quitClosedAt confRequest h
  = Return (details, status, e) ->
  (details = None /\ status = TxNotFoundManually /\ is_Some e)
  \/ exists (d : TxConfirmation) (block : MsgBlock) (i : nat),
       details = Some d /\ status = TxFoundManually /\ e = None
       /\ quitClosedAt h = false
       /\ BlockHeight d = h
       /\ GetBlockHash env h = Ok (BlockHash d)
       /\ GetBlock env (BlockHash d) = Ok block
       /\ firstMatch env confRequest 0 (wire.Transactions block)
          = Some (i, Tx d)
       /\ TxIndex d = uint32 (Z.of_nat i).
Proof.
  unfold confDetailsManually_body.
  destruct (quitClosedAt h); [intros [= <- <- <-]; by left|].
  destruct (GetBlockHash env h) as [blockHash|];
    [|intros [= <- <- <-]; by left].
  destruct (GetBlock env blockHash) as [block|] eqn:Hb;
    [|intros [= <- <- <-]; by left].
  rewrite firstMatchManually_firstMatch.
  destruct (firstMatch env confRequest 0 (wire.Transactions block))
    as [[i tx]|] eqn:Hfm; [|done].
  intros [= <- <- <-]. right. eexists _, block, i. by cbn.
Qed.

(** X13. The three values that the manual scan returns fit together. The
    status is TxFoundManually exactly when details are returned, and
    TxNotFoundManually otherwise; details never come with an error; and
    the details returned are backed by the backend: the height lies in the
    scanned range and is positive, the block hash is that of the backend at
    this height, and the transaction is the first one of that block that
    matches the request, at the index reported. *)
Theorem confDetailsManually_sound (confRequest : ConfRequest)
    (heightHint currentHeight : Z) :
  let r := confDetailsManually env quitClosedAt confRequest heightHint
             currentHeight in
  (r.1.2 = TxFoundManually \/ r.1.2 = TxNotFoundManually)
  /\ (r.1.2 = TxFoundManually <-> is_Some r.1.1)
  /\ (is_Some r.1.1 -> r.2 = None)
  /\ (forall d : TxConfirmation,
        r.1.1 = Some d ->
        (heightHint <= BlockHeight d <= currentHeight)%Z
        /\ (0 < BlockHeight d)%Z
        /\ GetBlockHash env (BlockHeight d) = Ok (BlockHash d)
        /\ MatchesTx env confRequest (Tx d) = true
        /\ exists (block : MsgBlock) (i : nat),
             GetBlock env (BlockHash d) = Ok block
             /\ wire.Transactions block !! i = Some (Tx d)
             /\ TxIndex d = uint32 (Z.of_nat i)
             /\ (forall (j : nat) (tx : MsgTx),
                   j < i -> wire.Transactions block !! j = Some tx ->
                   MatchesTx env confRequest tx = false)).
Proof.
  intros r. subst r. unfold confDetailsManually.
  destruct (confDetailsManually_loop_inv confRequest heightHint
              (Z.to_nat currentHeight))
    as [->|(m & Hm & Hstart & Hret & _)].
  { cbn. split; [by right|]. split; [|split; [by intros []|done]].
    split; [done | by intros []]. }
  destruct (confDetailsManually_loop _ _ _ _ _) as [[details status] e].
  cbn [fst snd].
  destruct (confDetailsManually_body_cases _ _ _ _ _ Hret)
    as [(-> & -> & He)
       |(d & block & i & -> & -> & -> & _ & Hheight & Hhash & Hblock
         & Hfirst & Hindex)].
  - split; [by right|]. split; [|split; [by intros []|done]].
    split; [done | by intros []].
  - split; [by left|]. split; [done|]. split; [done|].
    intros d' [= <-].
    destruct (firstMatch_Some _ _ _ _ _ Hfirst)
      as (j & -> & Hj & Htx & Hbefore).
    split; [lia|]. split; [lia|]. split; [by rewrite Hheight|].
    split; [done|]. by exists block, j.
Qed.

(** X14. When the manual scan looks at every height of its range with the
    quit channel open, finds the hash and the block of each, and no
    transaction of any of these blocks matches the request, it returns a
    nil result, TxNotFoundManually and a nil error. *)
Theorem confDetailsManually_not_found (confRequest : ConfRequest)
    (heightHint currentHeight : Z) :
  (forall h : Z,
     (0 < h)%Z -> (heightHint <= h <= currentHeight)%Z ->
     quitClosedAt h = false
     /\ exists (blockHash : wire.Hash) (block : MsgBlock),
          GetBlockHash env h = Ok blockHash
          /\ GetBlock env blockHash = Ok block
          /\ (forall tx : MsgTx,
                tx ∈ wire.Transactions block ->
                MatchesTx env confRequest tx = false)) ->
  confDetailsManually env quitClosedAt confRequest heightHint currentHeight
  = (None, TxNotFoundManually, None).
Proof.
  intros Hall. unfold confDetailsManually.
  remember (Z.to_nat currentHeight) as n eqn:Hn0.
  assert (Hn : (Z.of_nat n <= currentHeight)%Z \/ n = 0) by lia. clear Hn0.
  induction n as [|n' IH]; [done|].
  cbn [confDetailsManually_loop].
  destruct (Z.geb_spec (Z.of_nat (S n')) heightHint) as [Hge|]; [|done].
  destruct (Hall (Z.of_nat (S n')))
    as (Hquit & blockHash & block & Hhash & Hblock & Hno); [lia | lia |].
  unfold confDetailsManually_body at 1. rewrite Hquit, Hhash, Hblock.
  rewrite firstMatchManually_firstMatch, firstMatch_None by done.
  apply IH. lia.
Qed.

(** X15. The two scans agree on a backend that answers every height of
    the range, keeps the quit channel open, serves the same transactions
    through GetFilterBlock as through GetBlock, and whose compact filters
    have no false negative (a block whose filter is absent or does not
    match holds no matching transaction): the manual scan returns the
    details that the filter-match scan returns, with TxFoundManually when
    there are details and TxNotFoundManually when there are none, and
    neither scan returns an error. *)
Theorem scans_agree (confRequest : ConfRequest)
    (startHeight endHeight : Z) :
  (forall h : Z,
     (0 < h)%Z -> (startHeight <= h <= endHeight)%Z ->
     quitClosedAt h = false
     /\ exists (blockHash : wire.Hash) (block : MsgBlock),
          GetBlockHash env h = Ok blockHash
          /\ GetBlock env blockHash = Ok block
          /\ ((exists filter : CFilter env,
                 GetCFilter env blockHash = Ok (Some filter)
                 /\ Match env filter (DeriveKey env blockHash)
                      (PkScript_Script confRequest) = Ok true
                 /\ GetFilterBlock env blockHash
                    = Ok (wire.Transactions block))
              \/ ((GetCFilter env blockHash = Ok None
                   \/ exists filter : CFilter env,
                        GetCFilter env blockHash = Ok (Some filter)
                        /\ Match env filter (DeriveKey env blockHash)
                             (PkScript_Script confRequest) = Ok false)
                  /\ forall tx : MsgTx,
                       tx ∈ wire.Transactions block ->
                       MatchesTx env confRequest tx = false))) ->
  let found := historicalConfDetails env quitClosedAt confRequest
                 startHeight endHeight in
  found.2 = None
  /\ confDetailsManually env quitClosedAt confRequest startHeight endHeight
     = (found.1,
        match found.1 with
        | Some _ => TxFoundManually
        | None => TxNotFoundManually
        end,
        None).
Proof.
  intros Hall found. subst found.
  unfold historicalConfDetails, confDetailsManually.
  remember (Z.to_nat endHeight) as n eqn:Hn0.
  assert (Hn : (Z.of_nat n <= endHeight)%Z \/ n = 0) by lia. clear Hn0.
  induction n as [|n' IH]; [done|].
  cbn [historicalConfDetails_loop confDetailsManually_loop].
  destruct (Z.geb_spec (Z.of_nat (S n')) startHeight) as [Hge|]; [|done].
  destruct (Hall (Z.of_nat (S n')))
    as (Hquit & blockHash & block & Hhash & Hblock & Hfilter);
    [lia | lia |].
  unfold historicalConfDetails_body, confDetailsManually_body.
  rewrite Hquit, Hhash, Hblock, firstMatchManually_firstMatch.
  destruct Hfilter as [(filter & -> & -> & ->)|[Hnomatch Hno]].
  - destruct (firstMatch env confRequest 0 (wire.Transactions block))
      as [[i tx]|]; [split; reflexivity|]. apply IH. lia.
  - rewrite firstMatch_None by done.
    destruct Hnomatch as [->|(filter & -> & ->)]; apply IH; lia.
Qed.

(** ** More on the transaction-index look-up *)

Lemma confDetailsFromTxIndex_loop_inv (rawTxRes : TxRawResult)
    (blockHash : wire.Hash) (block : GetBlockVerboseResult)
    (txidStr : string) (txs : list string) :
  forall (txIndex : nat) (d : TxConfirmation) (status : TxConfStatus)
         (e : option error),
    confDetailsFromTxIndex_loop env rawTxRes blockHash block txidStr
                                txIndex txs
    = Return (Some d, status, e) ->
    status = TxFoundIndex /\ e = None
    /\ BlockHash d = blockHash
    /\ BlockHeight d = uint32 (vb_Height block)
    /\ exists (i : nat) (rawTx : list Byte.byte),
         txs !! i = Some txidStr
         /\ (forall j : nat, j < i -> txs !! j <> Some txidStr)
         /\ TxIndex d = uint32 (Z.of_nat (txIndex + i))
         /\ hex_DecodeString env (Hex rawTxRes) = Ok rawTx
         /\ Deserialize env rawTx = Ok (Tx d).
Proof.
  induction txs as [|txHash rest IH]; intros txIndex d status e; [done|].
  cbn [confDetailsFromTxIndex_loop].
  destruct (String.eqb_spec txHash txidStr) as [->|Hne]; cbn [negb].
  - destruct (hex_DecodeString env _) as [rawTx|] eqn:Hhex; [|done].
    destruct (Deserialize env rawTx) as [tx|] eqn:Hdes; [|done].
    intros [= <- <- <-]. cbn. repeat split.
    exists 0, rawTx. rewrite Nat.add_0_r.
    repeat split; [intros; lia | done].
  - intros Hloop.
    destruct (IH _ _ _ _ Hloop)
      as (-> & -> & Hbh & Hheight & i & rawTx & Hi & Hfirst & Hindex
          & Hhex & Hdes).
    repeat split; [done | done |]. exists (S i), rawTx.
    split; [done|]. split.
    + intros [|j] Hj; cbn; [congruence | apply Hfirst; lia].
    + split; [|done]. rewrite Hindex. do 2 f_equal. lia.
Qed.

(** X16. The three values that the transaction-index look-up returns fit
    together. Details are returned only with the status TxFoundIndex and a
    nil error; the status TxFoundMempool comes with no details and no
    error; and details returned are backed by the backend: the transaction
    came with the hash of a block whose listing holds the id of the
    transaction, first at the index reported, the height is that of the
    block, and the transaction is the decoding of the raw bytes that came
    with it. *)
Theorem confDetailsFromTxIndex_sound (txid : wire.Hash) :
  let r := confDetailsFromTxIndex env txid in
  (is_Some r.1.1 -> r.1.2 = TxFoundIndex /\ r.2 = None)
  /\ (r.1.2 = TxFoundMempool -> r.1.1 = None /\ r.2 = None)
  /\ (forall d : TxConfirmation,
        r.1.1 = Some d ->
        exists (rawTxRes : TxRawResult) (block : GetBlockVerboseResult)
               (i : nat) (rawTx : list Byte.byte),
          GetRawTransactionVerbose env txid = Ok rawTxRes
          /\ raw_BlockHash rawTxRes <> EmptyString
          /\ NewHashFromStr env (raw_BlockHash rawTxRes) = Ok (BlockHash d)
          /\ GetBlockVerbose env (BlockHash d) = Ok block
          /\ vb_Tx block !! i = Some (Hash_String env txid)
          /\ (forall j : nat,
                j < i -> vb_Tx block !! j <> Some (Hash_String env txid))
          /\ TxIndex d = uint32 (Z.of_nat i)
          /\ BlockHeight d = uint32 (vb_Height block)
          /\ hex_DecodeString env (Hex rawTxRes) = Ok rawTx
          /\ Deserialize env rawTx = Ok (Tx d)).
Proof.
  intros r. subst r. unfold confDetailsFromTxIndex.
  destruct (GetRawTransactionVerbose env txid) as [rawTxRes|err].
  2:{ destruct err; try destruct (_ && _);
        (cbn; split; [by intros []|]; split; [done | done]). }
  destruct (String.eqb_spec (raw_BlockHash rawTxRes) EmptyString)
    as [Hempty|Hconfirmed].
  { cbn. split; [by intros []|]. split; [done | done]. }
  destruct (NewHashFromStr env _) as [blockHash|] eqn:Hhash.
  2:{ cbn. split; [by intros []|]. split; [done | done]. }
  destruct (GetBlockVerbose env blockHash) as [block|] eqn:Hblock.
  2:{ cbn. split; [by intros []|]. split; [done | done]. }
  destruct (confDetailsFromTxIndex_loop _ _ _ _ _ _ _)
    as [[[details status] e]|] eqn:Hloop.
  2:{ cbn. split; [by intros []|]. split; [done | done]. }
  pose proof (confDetailsFromTxIndex_loop_status _ _ _ _ _ _ _ Hloop)
    as Hstatus. cbn in Hstatus. subst status. cbn [fst snd].
  destruct details as [d|].
  - destruct (confDetailsFromTxIndex_loop_inv _ _ _ _ _ _ _ _ _ Hloop)
      as (_ & -> & Hbh & Hheight & i & rawTx & Hi & Hfirst & Hindex
          & Hhex & Hdes).
    split; [done|]. split; [done|]. intros d' [= <-]. subst blockHash.
    by exists rawTxRes, block, i, rawTx.
  - split; [by intros []|]. split; [done | done].
Qed.

(** X17. The failures of the transaction-index look-up. An error of the
    backend other than the RPC error that reports the transaction missing
    comes back wrapped, with TxNotFoundIndex; so does a block hash that
    does not parse and a block that cannot be fetched. When the block
    lists the transaction but its raw bytes do not decode, the status is
    TxFoundIndex and the error wraps the failure of the decoder. No
    failure returns details. *)
Theorem confDetailsFromTxIndex_failures (txid : wire.Hash) (cause : error) :
  let r := confDetailsFromTxIndex env txid in
  (GetRawTransactionVerbose env txid = Err cause ->
   (forall message : string,
      cause = RPCError (ErrRPCNoTxInfo env) message ->
      strings_Contains message txNotFoundErr = false) ->
   r = (None, TxNotFoundIndex,
        Some (Errorf "unable to query for txid %v: %v" cause)))
  /\ (forall rawTxRes : TxRawResult,
        GetRawTransactionVerbose env txid = Ok rawTxRes ->
        raw_BlockHash rawTxRes <> EmptyString ->
        (NewHashFromStr env (raw_BlockHash rawTxRes) = Err cause ->
         r = (None, TxNotFoundIndex,
              Some (Errorf
                "unable to get block hash %v for historical dispatch: %v"
                cause)))
        /\ (forall blockHash : wire.Hash,
              NewHashFromStr env (raw_BlockHash rawTxRes) = Ok blockHash ->
              (GetBlockVerbose env blockHash = Err cause ->
               r = (None, TxNotFoundIndex,
                    Some (Errorf
                      ("unable to get block with hash %v for "
                       +:+ "historical dispatch: %v")
                      cause)))
              /\ (forall block : GetBlockVerboseResult,
                    GetBlockVerbose env blockHash = Ok block ->
                    Hash_String env txid ∈ vb_Tx block ->
                    (hex_DecodeString env (Hex rawTxRes) = Err cause ->
                     r = (None, TxFoundIndex,
                          Some (Errorf "unable to deserialize tx %v: %v"
                                  cause)))
                    /\ (forall rawTx : list Byte.byte,
                          hex_DecodeString env (Hex rawTxRes) = Ok rawTx ->
                          Deserialize env rawTx = Err cause ->
                          r = (None, TxFoundIndex,
                               Some (Errorf
                                 "unable to deserialize tx %v: %v"
                                 cause)))))).
Proof.
  intros r. subst r. unfold confDetailsFromTxIndex. split.
  - intros -> Hother. destruct cause as [|code message| |]; try done.
    destruct (Z.eqb_spec code (ErrRPCNoTxInfo env)) as [->|]; [|done].
    by rewrite (Hother message eq_refl).
  - intros rawTxRes -> Hconfirmed.
    destruct (String.eqb_spec (raw_BlockHash rawTxRes) EmptyString)
      as [|_]; [done|].
    split; [by intros ->|]. intros blockHash ->.
    split; [by intros ->|]. intros block -> Hlisted.
    assert (Hloop :
      forall (decoded : loopStep
                (option TxConfirmation * TxConfStatus * option error)),
        (forall k : nat,
           confDetailsFromTxIndex_loop env rawTxRes blockHash block
             (Hash_String env txid) k [Hash_String env txid] = decoded) ->
        forall k : nat,
          confDetailsFromTxIndex_loop env rawTxRes blockHash block
            (Hash_String env txid) k (vb_Tx block) = decoded).
    { intros decoded Hhead.
      induction (vb_Tx block) as [|txHash rest IH]; intros k;
        [by apply elem_of_nil in Hlisted|].
      cbn [confDetailsFromTxIndex_loop].
      destruct (String.eqb_spec txHash (Hash_String env txid)) as [->|Hne];
        cbn [negb].
      - specialize (Hhead k). cbn [confDetailsFromTxIndex_loop] in Hhead.
        by rewrite String.eqb_refl in Hhead.
      - apply IH. apply elem_of_cons in Hlisted as [|]; [congruence | done]. }
    split.
    + intros Hhex. rewrite (Hloop (Return (None, TxFoundIndex,
        Some (Errorf "unable to deserialize tx %v: %v" cause)))); [done|].
      intros k. cbn. by rewrite String.eqb_refl, Hhex.
    + intros rawTx Hhex Hdes. rewrite (Hloop (Return (None, TxFoundIndex,
        Some (Errorf "unable to deserialize tx %v: %v" cause)))); [done|].
      intros k. cbn. by rewrite String.eqb_refl, Hhex, Hdes.
Qed.

(** ** More on connected blocks *)

(** X18. The failures of handleBlockConnected. When the block cannot be
    fetched, the error comes back wrapped and the notifier is untouched.
    When ConnectTip refuses the block, the error comes back wrapped, the
    best tip stays and no subscriber is notified. When NotifyHeight fails,
    its error comes back as it is, after the best tip has moved to the
    block and the subscribers have been notified. *)
Theorem handleBlockConnected_failures (block : BlockEpoch)
    (b : LightWalletNotifier) (cause : error) :
  let r := handleBlockConnected env selectClosed block b in
  (GetBlock env (Hash block) = Err cause ->
   r = (Some (Errorf "unable to get block: %v" cause), b))
  /\ (forall rawBlock : MsgBlock,
        GetBlock env (Hash block) = Ok rawBlock ->
        let txns := mkBtcutilTx <$> wire.Transactions rawBlock in
        (ConnectTip env (Hash block) (uint32 (Height block)) txns
         = Some cause ->
         r.1 = Some (Errorf "unable to connect tip: %v" cause)
         /\ bestBlock r.2 = bestBlock b
         /\ blockEpochClients r.2 = blockEpochClients b
         /\ txNotifier r.2
            = txNotifier b
              ++ [callConnectTip (Hash block) (uint32 (Height block))
                    txns])
        /\ (ConnectTip env (Hash block) (uint32 (Height block)) txns
            = None ->
            NotifyHeight env (uint32 (Height block)) = Some cause ->
            r.1 = Some cause
            /\ bestBlock r.2 = block
            /\ blockEpochClients r.2
               = (fun client =>
                    notifyBlockEpochClient selectClosed (quit b) client
                      (Height block) (Hash block))
                 <$> blockEpochClients b)).
Proof.
  intros r. subst r. unfold handleBlockConnected. split.
  - by intros ->.
  - intros rawBlock ->. cbn zeta. split.
    + by intros ->.
    + by intros -> ->.
Qed.

Lemma notifyBlockEpochs_open (height : Z) (sha : wire.Hash)
    (b : LightWalletNotifier) (id : N) (r : blockEpochRegistration) :
  quit b = false ->
  blockEpochClients b !! id = Some r ->
  cancelChan r = false ->
  blockEpochClients (notifyBlockEpochs selectClosed height sha b) !! id
  = Some (push_epoch {| Height := height; Hash := sha |} r).
Proof.
  intros Hquit Hr Hopen. unfold notifyBlockEpochs. cbn.
  rewrite lookup_fmap, Hr, Hquit. cbn.
  by rewrite notifyBlockEpochClient_open.
Qed.

Lemma handleBlocks_open (blocks : list BlockEpoch) :
  (forall block : BlockEpoch,
     block ∈ blocks ->
     (exists rawBlock : MsgBlock,
        GetBlock env (Hash block) = Ok rawBlock
        /\ ConnectTip env (Hash block) (uint32 (Height block))
             (mkBtcutilTx <$> wire.Transactions rawBlock) = None)
     /\ NotifyHeight env (uint32 (Height block)) = None) ->
  forall b : LightWalletNotifier,
    quit b = false ->
    let r := handleBlocks env selectClosed blocks b in
    r.1 = None
    /\ quit r.2 = false
    /\ bestBlock r.2 = default (bestBlock b) (last blocks)
    /\ txNotifier r.2
       = txNotifier b ++ callsForBlocks (GetBlock env) blocks
    /\ (forall (id : N) (client : blockEpochRegistration),
          blockEpochClients b !! id = Some client ->
          cancelChan client = false ->
          blockEpochClients r.2 !! id
          = Some {| epochID := epochID client;
                    epochQueue := epochQueue client ++ blocks;
                    reg_bestBlock := reg_bestBlock client;
                    errorChan := errorChan client;
                    cancelChan := false |}).
Proof.
  induction blocks as [|block rest IH]; intros Hok b Hquit.
  - cbn. split; [done|]. split; [done|]. split; [done|].
    split; [by rewrite app_nil_r|].
    intros id [] Hid Hopen. cbn in *. subst. by rewrite app_nil_r.
  - destruct (Hok block) as [(rawBlock & Hblock & Htip) Hnotify];
      [apply elem_of_cons; by left|].
    cbn [handleBlocks callsForBlocks]. unfold handleBlockConnected.
    rewrite Hblock, Htip, Hnotify.
    match goal with
    | |- context [handleBlocks env selectClosed rest ?b1] =>
        destruct (IH (fun blk Hin =>
                        Hok blk (proj2 (elem_of_cons _ _ _) (or_intror Hin)))
                     b1 Hquit)
          as (Herr & Hquit' & Hbest & Hlog & Hclients)
    end.
    split; [exact Herr|]. split; [exact Hquit'|]. split.
    + rewrite Hbest. destruct rest as [|block2 rest']; [reflexivity|].
      change (last (block :: block2 :: rest')) with (last (block2 :: rest')).
      destruct (last (block2 :: rest')) eqn:Hlast; [done|].
      by apply last_None in Hlast.
    + split.
      * rewrite Hlog. cbn. by rewrite <- !app_assoc.
      * intros id client Hid Hopen.
        rewrite (Hclients id
                   (push_epoch {| Height := Height block;
                                  Hash := Hash block |} client)).
        -- cbn. rewrite <- app_assoc. by destruct block.
        -- cbn. rewrite lookup_fmap, Hid, Hquit. cbn.
           by rewrite notifyBlockEpochClient_open.
        -- done.
Qed.

(** X19. When handleBlockConnected is run on a list of blocks one after
    the other, with the quit channel open and every block fetched,
    accepted by ConnectTip and by NotifyHeight, no error is returned, the
    best tip ends at the last block, the transaction notifier has been
    called with ConnectTip and then NotifyHeight for each block in order,
    and every subscriber whose cancel channel is open has received exactly
    these blocks, in the same order, after what was in its queue. *)
Theorem handleBlocks_in_order (blocks : list BlockEpoch)
    (b : LightWalletNotifier) :
  quit b = false ->
  (forall block : BlockEpoch,
     block ∈ blocks ->
     (exists rawBlock : MsgBlock,
        GetBlock env (Hash block) = Ok rawBlock
        /\ ConnectTip env (Hash block) (uint32 (Height block))
             (mkBtcutilTx <$> wire.Transactions rawBlock) = None)
     /\ NotifyHeight env (uint32 (Height block)) = None) ->
  let r := handleBlocks env selectClosed blocks b in
  r.1 = None
  /\ bestBlock r.2 = default (bestBlock b) (last blocks)
  /\ txNotifier r.2 = txNotifier b ++ callsForBlocks (GetBlock env) blocks
  /\ (forall (id : N) (client : blockEpochRegistration),
        blockEpochClients b !! id = Some client ->
        cancelChan client = false ->
        exists client' : blockEpochRegistration,
          blockEpochClients r.2 !! id = Some client'
          /\ epochQueue client' = epochQueue client ++ blocks
          /\ errorChan client' = errorChan client
          /\ cancelChan client' = false).
Proof.
  intros Hquit Hok r.
  destruct (handleBlocks_open blocks Hok b Hquit)
    as (Herr & _ & Hbest & Hlog & Hclients).
  split; [exact Herr|]. split; [exact Hbest|]. split; [exact Hlog|].
  intros id client Hid Hopen. eexists. split; [by apply Hclients|]. done.
Qed.

(** ** More on the dispatcher *)

Lemma missed_blocks_open (id : N) (missedBlocks : list BlockEpoch) :
  forall (b : LightWalletNotifier) (r : blockEpochRegistration),
    quit b = false ->
    blockEpochClients b !! id = Some r ->
    cancelChan r = false ->
    foldl (fun acc blk =>
             with_client id
               (fun r => notifyBlockEpochClient selectClosed (quit acc) r
                           (Height blk) (Hash blk))
               acc)
          b missedBlocks
    = set_blockEpochClients
        (<[id := {| epochID := epochID r;
                    epochQueue := epochQueue r ++ missedBlocks;
                    reg_bestBlock := reg_bestBlock r;
                    errorChan := errorChan r;
                    cancelChan := cancelChan r |}]> (blockEpochClients b))
        b.
Proof.
  induction missedBlocks as [|blk rest IH]; intros b r Hquit Hr Hopen.
  - cbn. rewrite app_nil_r. destruct b, r. cbn in *.
    unfold set_blockEpochClients. cbn. f_equal.
    symmetry. by apply insert_id.
  - cbn [foldl].
    rewrite (IH _ (push_epoch {| Height := Height blk; Hash := Hash blk |} r)).
    + unfold with_client, set_blockEpochClients. cbn.
      rewrite <- app_assoc. cbn. destruct blk. cbn.
      by rewrite insert_alter_eq.
    + done.
    + cbn. rewrite lookup_alter_eq, Hr, Hquit. cbn.
      by rewrite notifyBlockEpochClient_open.
    + done.
Qed.

(** X20. A block-epoch registration that carries a best-known block, on a
    running dispatcher (quit channel and cancel channel open, nothing yet
    on the error channel). When the missed blocks are found, the
    registration is stored and receives exactly the missed blocks, in the
    order given, and then nil on its error channel. When the look-up of
    the missed blocks fails, the registration is stored all the same, it
    receives no block, and the error of the look-up is sent on its error
    channel. *)
Theorem registration_with_hint (msg : blockEpochRegistration)
    (hint : BlockEpoch) (b : LightWalletNotifier) :
  reg_bestBlock msg = Some hint ->
  quit b = false ->
  cancelChan msg = false ->
  errorChan msg = [] ->
  let stored queue answer :=
    set_blockEpochClients
      (<[epochID msg := {| epochID := epochID msg;
                           epochQueue := queue;
                           reg_bestBlock := Some hint;
                           errorChan := [answer];
                           cancelChan := false |}]> (blockEpochClients b))
      b in
  (forall missedBlocks : list BlockEpoch,
     GetClientMissedBlocks env hint (Height (bestBlock b))
     = Ok missedBlocks ->
     notificationDispatcher_step env selectClosed
       (recvBlockEpochRegistration msg) b
     = Continue (stored (epochQueue msg ++ missedBlocks) None))
  /\ (forall err : error,
        GetClientMissedBlocks env hint (Height (bestBlock b)) = Err err ->
        notificationDispatcher_step env selectClosed
          (recvBlockEpochRegistration msg) b
        = Continue (stored (epochQueue msg) (Some err))).
Proof.
  intros Hhint Hquit Hopen Herr stored. subst stored.
  cbn [notificationDispatcher_step]. rewrite Hhint.
  cbn [bestBlock set_blockEpochClients]. split.
  - intros missedBlocks ->.
    rewrite (missed_blocks_open (epochID msg) missedBlocks _ msg)
      by (done || apply lookup_insert_eq).
    unfold send_errorChan. cbn [blockEpochClients set_blockEpochClients].
    rewrite insert_insert_eq, lookup_insert_eq. cbn [errorChan].
    rewrite Herr. rewrite decide_True by (cbn; lia).
    unfold with_client, set_blockEpochClients. cbn.
    rewrite alter_insert_eq. unfold push_error. cbn.
    by rewrite ?Hhint, ?Herr, ?Hopen.
  - intros err ->.
    unfold send_errorChan. cbn [blockEpochClients set_blockEpochClients].
    rewrite lookup_insert_eq, Herr. rewrite decide_True by (cbn; lia).
    unfold with_client, set_blockEpochClients. cbn.
    rewrite alter_insert_eq. unfold push_error. cbn.
    by rewrite ?Hhint, ?Herr, ?Hopen.
Qed.

Lemma send_errorChan_frame (id : N) (e : option error)
    (b : LightWalletNotifier) :
  let b' := outcome_state (send_errorChan id e b) in
  bestBlock b' = bestBlock b /\ txNotifier b' = txNotifier b
  /\ resolverTasks b' = resolverTasks b /\ quit b' = quit b
  /\ dom (blockEpochClients b') = dom (blockEpochClients b).
Proof.
  unfold send_errorChan.
  destruct (blockEpochClients b !! id) as [r|]; [|done].
  case_decide; [|done]. cbn. repeat split. apply dom_alter_L.
Qed.

Lemma missed_blocks_frame (id : N) (missedBlocks : list BlockEpoch) :
  forall b : LightWalletNotifier,
    let b' := foldl
                (fun acc blk =>
                   with_client id
                     (fun r => notifyBlockEpochClient selectClosed
                                 (quit acc) r (Height blk) (Hash blk))
                     acc)
                b missedBlocks in
    bestBlock b' = bestBlock b /\ txNotifier b' = txNotifier b
    /\ resolverTasks b' = resolverTasks b /\ quit b' = quit b
    /\ dom (blockEpochClients b') = dom (blockEpochClients b).
Proof.
  induction missedBlocks as [|blk rest IH]; intros b; [done|].
  cbn [foldl]. cbn zeta.
  match goal with
  | |- context [foldl _ ?b1 rest] =>
      destruct (IH b1) as (-> & -> & -> & -> & ->)
  end.
  cbn. repeat split. apply dom_alter_L.
Qed.

Lemma step_frame (ev : dispatcherEvent) (b : LightWalletNotifier) :
  let b' := outcome_state
              (notificationDispatcher_step env selectClosed ev b) in
  bestBlock b' = bestBlock b
  /\ txNotifier b' = txNotifier b
  /\ quit b' = quit b
  /\ dom (blockEpochClients b) ⊆ dom (blockEpochClients b')
  /\ resolverTasks b' = resolverTasks b ++ dispatchesOf [ev].
Proof.
  destruct ev as [cancelMsg|msg| |msg|item| | |]; cbn zeta;
    try (cbn; by rewrite ?app_nil_r).
  cbn [notificationDispatcher_step dispatchesOf]. rewrite app_nil_r.
  destruct (reg_bestBlock msg) as [hint|].
  - destruct (GetClientMissedBlocks env hint _) as [missedBlocks|err].
    + match goal with
      | |- context [send_errorChan ?i ?e ?b1] =>
          destruct (send_errorChan_frame i e b1) as (-> & -> & -> & -> & ->)
      end.
      match goal with
      | |- context [foldl ?f ?b1 missedBlocks] =>
          destruct (missed_blocks_frame (epochID msg) missedBlocks b1)
            as (-> & -> & -> & -> & ->)
      end.
      cbn. repeat split. rewrite dom_insert_L. set_solver.
    + match goal with
      | |- context [send_errorChan ?i ?e ?b1] =>
          destruct (send_errorChan_frame i e b1) as (-> & -> & -> & -> & ->)
      end.
      cbn. repeat split. rewrite dom_insert_L. set_solver.
  - match goal with
    | |- context [send_errorChan ?i ?e ?b1] =>
        destruct (send_errorChan_frame i e b1) as (-> & -> & -> & -> & ->)
    end.
    cbn. repeat split. rewrite dom_alter_L, dom_insert_L. set_solver.
Qed.

(** X21. What the dispatcher loop never does. Over any sequence of events,
    up to the point where the loop ends or blocks, it leaves the best tip
    as it was, makes no call on the transaction notifier, does not close
    the quit channel and removes no subscriber from its map; and the
    resolver tasks afterwards are the tasks before, followed by exactly
    the historical confirmation dispatches among the events that the loop
    got to, in their order: one task per dispatch, and nothing else. The
    events that the loop got to are a prefix of the sequence, and all of
    it when the loop neither ended nor blocked. *)
Theorem notificationDispatcher_frame (evs : list dispatcherEvent) :
  forall b : LightWalletNotifier,
    let b' := outcome_state
                (notificationDispatcher env selectClosed evs b) in
    let handled := handledEvents env selectClosed evs b in
    bestBlock b' = bestBlock b
    /\ txNotifier b' = txNotifier b
    /\ quit b' = quit b
    /\ dom (blockEpochClients b) ⊆ dom (blockEpochClients b')
    /\ resolverTasks b' = resolverTasks b ++ dispatchesOf handled
    /\ handled `prefix_of` evs
    /\ (notificationDispatcher env selectClosed evs b = Continue b' ->
        handled = evs
        /\ resolverTasks b' = resolverTasks b ++ dispatchesOf evs).
Proof.
  induction evs as [|ev rest IH]; intros b.
  - cbn. rewrite app_nil_r. by repeat split.
  - cbn [notificationDispatcher handledEvents]. cbn zeta.
    destruct (step_frame ev b) as (Hbest & Hlog & Hquit & Hdom & Htasks).
    destruct (notificationDispatcher_step env selectClosed ev b)
      as [b1|b1|b1]; cbn [outcome_state] in *.
    + destruct (IH b1) as (-> & -> & -> & Hdom' & Hspawned & Hpre & Hall).
      assert (Hcons : forall l : list dispatcherEvent,
                resolverTasks b1 ++ dispatchesOf l
                = resolverTasks b ++ dispatchesOf (ev :: l)).
      { intros l. rewrite Htasks, <- app_assoc. f_equal.
        by destruct ev. }
      split; [done|]. split; [done|]. split; [done|].
      split; [by etrans|]. split; [by rewrite Hspawned, Hcons|].
      split; [by apply prefix_cons|].
      intros Hrun. destruct (Hall Hrun) as [Heq Htasks'].
      split; [by rewrite Heq|]. by rewrite Htasks', Hcons.
    + split; [done|]. split; [done|]. split; [done|]. split; [done|].
      split; [done|]. split; [by exists rest | done].
    + split; [done|]. split; [done|]. split; [done|]. split; [done|].
      split; [done|]. split; [by exists rest | done].
Qed.

Lemma step_unregistered_preserves (id : N) (ev : dispatcherEvent)
    (b : LightWalletNotifier) :
  ~ registers id ev ->
  blockEpochClients
    (outcome_state (notificationDispatcher_step env selectClosed ev b)) !! id
  = blockEpochClients b !! id.
Proof.
  intros Hnot. destruct ev as [| | |msg|item| | |]; try done.
  apply step_quiet_preserves. cbn in *. done.
Qed.

(** X22. A cancel message does not unregister a subscriber. Over any
    sequence of events that holds no new registration under the id of a
    subscriber (cancel messages for that id and connected blocks
    included), the entry of the subscriber in the map stays exactly as it
    was: it is still registered, its cancel channel is as it was, and its
    queue has received nothing. *)
Theorem cancel_does_not_unregister (id : N) (evs : list dispatcherEvent) :
  Forall (fun ev => ~ registers id ev) evs ->
  forall b : LightWalletNotifier,
    blockEpochClients
      (outcome_state (notificationDispatcher env selectClosed evs b)) !! id
    = blockEpochClients b !! id.
Proof.
  induction 1 as [|ev rest Hnot _ IH]; intros b; [done|].
  cbn [notificationDispatcher].
  pose proof (step_unregistered_preserves id ev b Hnot) as Hstep.
  destruct (notificationDispatcher_step env selectClosed ev b) as [b'|b'|b'];
    cbn in *; [|done|done].
  by rewrite IH.
Qed.

Lemma step_registration_without_hint (msg : blockEpochRegistration)
    (b : LightWalletNotifier) :
  reg_bestBlock msg = None ->
  quit b = false ->
  cancelChan msg = false ->
  errorChan msg = [] ->
  notificationDispatcher_step env selectClosed
    (recvBlockEpochRegistration msg) b
  = Continue
      (set_blockEpochClients
         (<[epochID msg := {| epochID := epochID msg;
                              epochQueue := epochQueue msg ++ [bestBlock b];
                              reg_bestBlock := None;
                              errorChan := [None];
                              cancelChan := false |}]>
            (blockEpochClients b))
         b).
Proof.
  intros Hhint Hquit Hcancel Herr.
  cbn [notificationDispatcher_step]. rewrite Hhint.
  cbn [quit set_blockEpochClients bestBlock]. rewrite Hquit.
  unfold with_client. cbn [blockEpochClients set_blockEpochClients].
  rewrite alter_insert_eq, notifyBlockEpochClient_open by done.
  unfold send_errorChan. cbn [blockEpochClients set_blockEpochClients].
  rewrite lookup_insert_eq. cbn [push_epoch errorChan]. rewrite Herr.
  rewrite decide_True by (simpl; lia).
  unfold with_client. cbn [blockEpochClients set_blockEpochClients].
  rewrite alter_insert_eq.
  unfold set_blockEpochClients, push_error.
  cbn. rewrite ?Herr, ?Hhint, ?Hcancel, ?Hquit.
  by destruct (bestBlock b).
Qed.

End WithCollaborators.

(** ** Registration, Start and Stop *)

Section Registration.

Variable env : Collaborators.
Variable quitClosedAt : Z -> bool.
Variable selectClosed : N -> Z -> bool.
Variable NewConfRequest :
  option wire.Hash -> list Byte.byte -> result ConfRequest.
Variable RegisterConf : ConfNtfn -> result (option HistoricalConfDispatch).

(** X23. A confirmation registration from end to end. When the request is
    well formed, the transaction notifier asks for a historical dispatch,
    and the quit channel is open, RegisterConfirmationsNtfn returns the
    event and no error and sends the dispatch to the dispatcher; the
    dispatcher launches the resolver task for it; and when the look-up of
    that task ends without an error, the task reports its result for the
    request of the dispatch to the transaction notifier through
    UpdateConfDetails, as the one call made on it. *)
Theorem confirmation_registration_end_to_end (takeQuit : bool)
    (txid : option wire.Hash) (pkScript : list Byte.byte)
    (numConfs heightHint : Z) (b : LightWalletNotifier) (f : registrar)
    (confRequest : ConfRequest) (dispatch : HistoricalConfDispatch)
    (confDetails : option TxConfirmation) :
  let confID := uint64 (confClientCounter f + 1) in
  let event := {| ev_numConfs := numConfs;
                  ev_cancels := (confRequest, confID) |} in
  let ntfn := {| ConfID := confID; ntfn_ConfRequest := confRequest;
                 NumConfirmations := numConfs; Event := event;
                 HeightHint := heightHint |} in
  NewConfRequest txid pkScript = Ok confRequest ->
  RegisterConf ntfn = Ok (Some dispatch) ->
  quit b = false ->
  historicalConfDetails env quitClosedAt (hcd_ConfRequest dispatch)
    (StartHeight dispatch) (EndHeight dispatch) = (confDetails, None) ->
  let r := RegisterConfirmationsNtfn NewConfRequest RegisterConf takeQuit
             txid pkScript numConfs heightHint b f in
  r.1 = (Some event, None)
  /\ registeredConfs r.2 = registeredConfs f ++ [ntfn]
  /\ notificationRegistry r.2
     = notificationRegistry f ++ [recvHistoricalConfDispatch dispatch]
  /\ exists b1 : LightWalletNotifier,
       notificationDispatcher_step env selectClosed
         (recvHistoricalConfDispatch dispatch) b = Continue b1
       /\ resolverTasks b1 = resolverTasks b ++ [dispatch]
       /\ txNotifier (historicalConfTask env quitClosedAt dispatch b1)
          = txNotifier b
            ++ [callUpdateConfDetails (hcd_ConfRequest dispatch)
                  confDetails].
Proof.
  intros confID event ntfn Hreq Hreg Hquit Hscan r. subst r.
  unfold RegisterConfirmationsNtfn. rewrite Hreq.
  fold confID. fold event. fold ntfn. rewrite Hreg, Hquit. cbn.
  repeat split. eexists. split; [reflexivity|]. split; [done|].
  unfold historicalConfTask. by rewrite Hscan.
Qed.

(** X24. What RegisterConfirmationsNtfn does when no dispatch is sent.
    Every call uses up one id, the counter moving on by one modulo 2^64,
    also when the call fails. A request that is not well formed is
    refused before the transaction notifier hears of it. An error of
    RegisterConf comes back as it is. When RegisterConf asks for no
    dispatch, the event is returned and nothing is sent to the dispatcher.
    When the quit channel is closed and the select takes it, the caller
    gets ErrChainNotifierShuttingDown and nothing is sent to the
    dispatcher, although the notification has been registered with the
    transaction notifier. *)
Theorem confirmation_registration_without_dispatch (takeQuit : bool)
    (txid : option wire.Hash) (pkScript : list Byte.byte)
    (numConfs heightHint : Z) (b : LightWalletNotifier) (f : registrar) :
  let r := RegisterConfirmationsNtfn NewConfRequest RegisterConf takeQuit
             txid pkScript numConfs heightHint b f in
  let confID := uint64 (confClientCounter f + 1) in
  confClientCounter r.2 = confID
  /\ (forall err : error,
        NewConfRequest txid pkScript = Err err ->
        r.1 = (None, Some err)
        /\ registeredConfs r.2 = registeredConfs f
        /\ notificationRegistry r.2 = notificationRegistry f)
  /\ (forall confRequest : ConfRequest,
        NewConfRequest txid pkScript = Ok confRequest ->
        let event := {| ev_numConfs := numConfs;
                        ev_cancels := (confRequest, confID) |} in
        let ntfn := {| ConfID := confID; ntfn_ConfRequest := confRequest;
                       NumConfirmations := numConfs; Event := event;
                       HeightHint := heightHint |} in
        registeredConfs r.2 = registeredConfs f ++ [ntfn]
        /\ (forall err : error,
              RegisterConf ntfn = Err err ->
              r.1 = (None, Some err)
              /\ notificationRegistry r.2 = notificationRegistry f)
        /\ (RegisterConf ntfn = Ok None ->
            r.1 = (Some event, None)
            /\ notificationRegistry r.2 = notificationRegistry f)
        /\ (forall dispatch : HistoricalConfDispatch,
              RegisterConf ntfn = Ok (Some dispatch) ->
              quit b = true -> takeQuit = true ->
              r.1 = (None, Some ErrChainNotifierShuttingDown)
              /\ notificationRegistry r.2 = notificationRegistry f)).
Proof.
  intros r confID. subst r. unfold RegisterConfirmationsNtfn.
  fold confID. split.
  - destruct (NewConfRequest txid pkScript) as [confRequest|]; [|done].
    destruct (RegisterConf _) as [[dispatch|]|]; try done.
    by destruct (quit b && takeQuit).
  - split.
    + by intros err ->.
    + intros confRequest ->. cbn zeta. split.
      * destruct (RegisterConf _) as [[dispatch|]|]; try done.
        by destruct (quit b && takeQuit).
      * split; [by intros err ->|]. split; [by intros ->|].
        by intros dispatch -> -> ->.
Qed.

(** X25. A block-epoch registration from end to end, and the freshness of
    its id. On a notifier whose quit channel is open and whose subscribers
    all have ids up to the counter, with the counter below 2^64 - 1,
    RegisterBlockEpochNtfn without a best-known block makes a registration
    whose id is the counter plus one, an id that no subscriber has, and
    sends it to the dispatcher; the dispatcher stores it with the current
    best tip as the one epoch in its queue and nil on its error channel,
    leaves every other subscriber as it was, and all ids are again up to
    the counter. *)
Theorem block_epoch_registration_end_to_end (takeQuit : bool)
    (b : LightWalletNotifier) (f : registrar) :
  quit b = false ->
  (forall id : N,
     id ∈ dom (blockEpochClients b) -> (id <= epochClientCounter f)%N) ->
  (epochClientCounter f + 1 < 2 ^ 64)%N ->
  let r := RegisterBlockEpochNtfn takeQuit None b f in
  exists (reg : blockEpochRegistration) (b' : LightWalletNotifier),
    r.1 = (Some reg, None)
    /\ epochID reg = (epochClientCounter f + 1)%N
    /\ epochClientCounter r.2 = epochID reg
    /\ (epochID reg ∉ dom (blockEpochClients b))
    /\ notificationRegistry r.2
       = notificationRegistry f ++ [recvBlockEpochRegistration reg]
    /\ notificationDispatcher_step env selectClosed
         (recvBlockEpochRegistration reg) b = Continue b'
    /\ blockEpochClients b' !! epochID reg
       = Some {| epochID := epochID reg;
                 epochQueue := [bestBlock b];
                 reg_bestBlock := None;
                 errorChan := [None];
                 cancelChan := false |}
    /\ (forall id : N,
          id <> epochID reg ->
          blockEpochClients b' !! id = blockEpochClients b !! id)
    /\ (forall id : N,
          id ∈ dom (blockEpochClients b') ->
          (id <= epochClientCounter r.2)%N).
Proof.
  intros Hquit Hbound Hroom r. subst r.
  unfold RegisterBlockEpochNtfn. rewrite Hquit. cbn [andb fst snd].
  assert (Hid : uint64 (epochClientCounter f + 1)
                = (epochClientCounter f + 1)%N).
  { unfold uint64. by apply N.mod_small. }
  eexists _, _. split; [reflexivity|]. cbn [epochID epochClientCounter].
  rewrite Hid. split; [done|]. split; [done|]. split.
  { intros Hin. apply Hbound in Hin. lia. }
  split; [done|]. split.
  { rewrite step_registration_without_hint by done. cbn. reflexivity. }
  cbn. split; [by rewrite lookup_insert_eq|]. split.
  - intros id Hne. by rewrite lookup_insert_ne.
  - intros id. rewrite dom_insert_L.
    intros [->%elem_of_singleton|Hin]%elem_of_union; [lia|].
    apply Hbound in Hin. lia.
Qed.


(** X27. The first Stop of a notifier whose transaction notifier has been
    made (a Start has succeeded) returns nil, closes the quit channel,
    ends the dispatcher, stops the chain connection and the rescan, tears
    the transaction notifier down, and closes the cancel channel and the
    epoch channel of every subscriber in the map, keeping every
    subscriber, its queue and its error channel as they were; a second
    Stop then returns nil and changes nothing but its guard. On a notifier
    whose transaction notifier was never made, the first Stop panics in
    TearDown: by then the quit channel and the channels of the
    subscribers have been closed, and the rescan is not stopped. *)
Theorem Stop_closes_subscribers (p : notifierProcess) :
  stopped p = 0%Z ->
  let closed := close_cancelChan <$> blockEpochClients (notifier p) in
  (forall height : Z,
     txNotifierHeight p = Some height ->
     exists p' : notifierProcess,
       Stop p = Returned None p'
       /\ quit (notifier p') = true
       /\ dispatcherRunning p' = false
       /\ connStopped p' = true
       /\ tornDown p' = true
       /\ rescanFrom p' = None
       /\ closedEpochChans p' = dom (blockEpochClients (notifier p))
       /\ blockEpochClients (notifier p') = closed
       /\ bestBlock (notifier p') = bestBlock (notifier p)
       /\ txNotifier (notifier p') = txNotifier (notifier p)
       /\ dom closed = dom (blockEpochClients (notifier p))
       /\ (forall (id : N) (client : blockEpochRegistration),
             blockEpochClients (notifier p) !! id = Some client ->
             exists client' : blockEpochRegistration,
               closed !! id = Some client'
               /\ cancelChan client' = true
               /\ epochID client' = epochID client
               /\ epochQueue client' = epochQueue client
               /\ errorChan client' = errorChan client)
       /\ Stop p' = Returned None (with_stopped 2 p'))
  /\ (txNotifierHeight p = None ->
      exists p' : notifierProcess,
        Stop p = Panicked p'
        /\ quit (notifier p') = true
        /\ blockEpochClients (notifier p') = closed
        /\ closedEpochChans p' = dom (blockEpochClients (notifier p))
        /\ connStopped p' = true
        /\ tornDown p' = false
        /\ rescanFrom p' = rescanFrom p).
Proof.
  intros Hfresh closed. subst closed. unfold Stop. rewrite Hfresh.
  change (int32 (0 + 1)) with 1%Z. cbn [Z.eqb Pos.eqb negb]. split.
  - intros height ->. eexists. split; [reflexivity|].
    cbn -[fmap dom lookup]. change (int32 (1 + 1)) with 2%Z.
    cbn -[fmap dom lookup]. repeat split.
    + apply dom_fmap_L.
    + intros id client Hid. exists (close_cancelChan client).
      by rewrite lookup_fmap, Hid.
  - intros ->. eexists. split; [reflexivity|]. by cbn -[fmap dom lookup].
Qed.

End Registration.

End notifier_facts.

(** * The definitions on concrete inputs *)

Module on_examples.
Import wire examples.

(** C2. An UpdateFilter call for the outpoint (txA, 0) on a running view
    that watches nothing returns nil, and the watched set is still empty
    afterwards: the outpoint was not inserted. *)
Theorem UpdateFilter_does_not_insert :
  let r := chainview.UpdateFilter quitFirst [edgeA] 100 watchingNothing in
  r.1 = None
  /\ chainview.chainFilter r.2 !! opA = None
  /\ chainview.chainFilter r.2 = ∅.
Proof. by vm_compute. Qed.

Lemma onFilteredBlockConnected_spec_witness :
  let c' := chainview.onFilteredBlockConnected headerHash 105 header105
              [spendA] watchingA in
  let fb := chainview.mkFilteredBlock 12 105 [Some (Tx_MsgTx spendA)] in
  chainview.chainFilter c' !! opA = None
  /\ last (chainview.blockQueue c')
     = Some (chainview.mkBlockEvent chainview.connected fb)
  /\ chainview.Height fb = 105%Z
  /\ Some (Tx_MsgTx spendA) ∈ chainview.Transactions fb.
Proof.
  apply (proj2 (proj2 (chainview_facts.onFilteredBlockConnected_spec
                         headerHash 105 header105 [spendA] watchingA))
           txA scriptA spendA (mkTxIn opA 4294967295)).
  - vm_compute. reflexivity.
  - reflexivity.
  - apply elem_of_cons. left. reflexivity.
  - apply elem_of_cons. left. reflexivity.
  - reflexivity.
Defined.

Lemma FilterBlock_no_transactions_witness :
  chainview.FilterBlock (fun _ => Ok 105%Z) 12%N watchingA
  = ((Some (chainview.mkFilteredBlock 12 105 []), None), watchingA).
Proof.
  apply (proj2 (chainview_facts.FilterBlock_no_transactions
                  (fun _ => Ok 105%Z) 12%N watchingA 105)).
  reflexivity.
Defined.

Import lightwalletnotify.

(** C1. A notifier whose best tip is (500, 77) and which has one
    subscriber receives the connected block (501, 78). The round ends with
    the notifier exactly as it was: the best tip is still (500, 77), the
    queue of the subscriber is still empty, and no call was made on the
    transaction notifier. *)
Theorem dispatcher_drops_connected_block :
  let o := notificationDispatcher_step noFilters takeSend
             (recvBlockConnected (mkBlockConnected 78 501)) oneClient in
  o = Continue oneClient
  /\ bestBlock (outcome_state o) = mkBlockEpoch 500 77
  /\ epochQueue <$> (blockEpochClients (outcome_state o) !! 1%N) = Some []
  /\ txNotifier (outcome_state o) = [].
Proof. by vm_compute. Qed.

(** C3. In a backend where the compact filter of height 1 matches the
    script of the request and the block at height 1 holds one transaction,
    which does not match the request, the look-up over the range 1..1
    returns a nil result and a nil error: no error is reported. *)
Lemma historicalConfDetails_unmatched_block_no_error :
  GetCFilter allFilters 1%N = Ok (Some tt)
  /\ Match allFilters tt (DeriveKey allFilters 1%N) (PkScript_Script reqA)
     = Ok true
  /\ GetFilterBlock allFilters 1%N = Ok [tx0]
  /\ MatchesTx allFilters reqA tx0 = false
  /\ historicalConfDetails allFilters neverQuit reqA 1 1 = (None, None).
Proof. repeat split. Qed.

Lemma historicalConfDetails_unmatched_block_continues_witness :
  historicalConfDetails_body allFilters neverQuit reqA 2 = Next
  /\ historicalConfDetails allFilters neverQuit reqA 2 3
     = historicalConfDetails allFilters neverQuit reqA 2 (2 - 1)
  /\ (2 = 2 \/ 2 = 1 ->
      historicalConfDetails allFilters neverQuit reqA 2 3 = (None, None))%Z.
Proof.
  apply (notifier_facts.historicalConfDetails_unmatched_block_continues
           allFilters neverQuit reqA 2 3 2 2%N tt [tx0]).
  - lia.
  - lia.
  - intros h' Hh'. replace h' with 3%Z by lia. reflexivity.
  - reflexivity.
  - reflexivity.
  - reflexivity.
  - reflexivity.
  - reflexivity.
  - intros tx _. reflexivity.
Defined.

Lemma scans_return_shutting_down_witness :
  historicalConfDetails noFilters quitAt2 reqA 1 3
  = (None, Some ErrChainNotifierShuttingDown)
  /\ confDetailsManually noFilters quitAt2 reqA 1 3
     = (None, TxNotFoundManually, Some ErrChainNotifierShuttingDown).
Proof.
  destruct (notifier_facts.scans_return_shutting_down
              noFilters quitAt2 reqA 1 3 2
              ltac:(lia) ltac:(lia) eq_refl) as [Hfilter Hmanual].
  split.
  - apply Hfilter. intros h' Hh'. replace h' with 3%Z by lia. reflexivity.
  - apply Hmanual. intros h' Hh'. replace h' with 3%Z by lia. reflexivity.
Defined.

Lemma confDetailsFromTxIndex_spec_witness :
  confDetailsFromTxIndex indexMissing txA = (None, TxNotFoundIndex, None)
  /\ confDetailsFromTxIndex indexMempool txA = (None, TxFoundMempool, None)
  /\ confDetailsFromTxIndex indexConfirmed txA
     = (Some (mkTxConfirmation 99 60 1 tx0), TxFoundIndex, None)
  /\ exists err : error,
       confDetailsFromTxIndex indexUnlisted txA
       = (None, TxNotFoundIndex, Some err).
Proof.
  split; [|split; [|split]].
  - apply (proj1 (proj2 (proj2
             (notifier_facts.confDetailsFromTxIndex_spec indexMissing txA)))
             "No such mempool or blockchain transaction. Use gettransaction");
      reflexivity.
  - apply (proj1 (proj2 (proj2 (proj2
             (notifier_facts.confDetailsFromTxIndex_spec indexMempool txA))))
             (mkTxRawResult "0200" EmptyString));
      reflexivity.
  - apply (proj1 (proj2 (proj2 (proj2 (proj2
             (notifier_facts.confDetailsFromTxIndex_spec indexConfirmed txA))))
             (mkTxRawResult "0200" "b1") 99%N
             (mkGetBlockVerboseResult ["aa"; "07"] 60)
             eq_refl ltac:(discriminate) eq_refl eq_refl)
             1 [] tx0);
      try reflexivity.
    intros j Hj. replace j with 0 by lia. discriminate.
  - apply (proj2 (proj2 (proj2 (proj2 (proj2
             (notifier_facts.confDetailsFromTxIndex_spec indexUnlisted txA))))
             (mkTxRawResult "0200" "b1") 99%N
             (mkGetBlockVerboseResult ["aa"] 60)
             eq_refl ltac:(discriminate) eq_refl eq_refl)).
    intros Hin. apply elem_of_cons in Hin as [Hin|Hin]; [discriminate|].
    by apply elem_of_nil in Hin.
Defined.

Lemma historical_dispatch_reports_result_witness :
  notificationDispatcher_step noFilters takeSend
    (recvHistoricalConfDispatch (mkHistoricalConfDispatch reqA 1 3)) idle
  = Continue (spawn_resolver (mkHistoricalConfDispatch reqA 1 3) idle)
  /\ mkHistoricalConfDispatch reqA 1 3
     ∈ resolverTasks
         (spawn_resolver (mkHistoricalConfDispatch reqA 1 3) idle)
  /\ txNotifier
       (historicalConfTask noFilters neverQuit
          (mkHistoricalConfDispatch reqA 1 3) idle)
     = [] ++ [callUpdateConfDetails reqA None].
Proof.
  apply (notifier_facts.historical_dispatch_reports_result
           noFilters neverQuit takeSend
           (mkHistoricalConfDispatch reqA 1 3) idle None).
  reflexivity.
Defined.

Lemma registration_without_hint_notifies_tip_witness :
  let msg' := mkBlockEpochRegistration 1 [tip500] None [None] false in
  let b' := mkNotifier {[ 1%N := msg' ]} tip500 [] [] false in
  notificationDispatcher_step noFilters takeSend
    (recvBlockEpochRegistration fresh1) idle
  = Continue (set_blockEpochClients
                (<[1%N := msg']> (blockEpochClients idle)) idle)
  /\ (forall evs : list dispatcherEvent,
        Forall (quiet_for 1) evs ->
        blockEpochClients
          (outcome_state
             (notificationDispatcher noFilters takeSend evs
                (set_blockEpochClients
                   (<[1%N := msg']> (blockEpochClients idle)) idle)))
          !! 1%N
        = Some msg').
Proof.
  apply (notifier_facts.registration_without_hint_notifies_tip
           noFilters takeSend fresh1 idle);
    reflexivity.
Defined.

(** ** The further properties on concrete inputs *)

Lemma onFilteredBlockConnected_unwatched_witness :
  chainview.chainFilter
    (chainview.onFilteredBlockConnected headerHash 105 header105
       [spendB] watchingA)
  = chainview.chainFilter watchingA.
Proof.
  apply (chainview_facts.onFilteredBlockConnected_unwatched
           headerHash 105 header105 [spendB] watchingA).
  intros op Hin. change (chainview.spentOutPoints [spendB]) with [opB] in Hin.
  apply list_elem_of_singleton in Hin. subst op. vm_compute. reflexivity.
Defined.

Lemma spent_outpoint_stays_unwatched_witness :
  chainview.chainFilter
    (chainview.runCalls headerHash heightOf105 quitFirst
       [chainview.callBlockConnected 105 header105 [spendA];
        chainview.callBlockDisconnected 105 header105;
        chainview.callUpdateFilter [edgeA] 106]
       watchingA) !! opA
  = None.
Proof.
  apply (chainview_facts.spent_outpoint_stays_unwatched
           headerHash heightOf105 quitFirst 105 header105 [spendA]
           [chainview.callBlockDisconnected 105 header105;
            chainview.callUpdateFilter [edgeA] 106]
           watchingA opA).
  change (chainview.spentOutPoints [spendA]) with [opA].
  apply elem_of_cons. left. reflexivity.
Defined.

Lemma Start_is_one_shot_witness :
  let failed := chainview.Start (Some boom) (Ok (12%N, 105%Z))
                  chainview.NewLWfFilteredChainView in
  let later := chainview.Start_seq
                 [(None, Ok (12%N, 105%Z)); (None, Ok (12%N, 105%Z))]
                 failed.2 in
  later.1 = [None; None]
  /\ chainview.filtererRunning later.2 = false
  /\ chainview.queueStarted later.2 = false.
Proof.
  destruct (chainview_facts.Start_is_one_shot (Some boom)
              (Ok (12%N, 105%Z))
              [(None, Ok (12%N, 105%Z)); (None, Ok (12%N, 105%Z))]
              chainview.NewLWfFilteredChainView
              eq_refl ltac:(cbn; lia))
    as (Hnil & _ & Hfailed).
  split; [exact Hnil|]. apply Hfailed. eexists. reflexivity.
Defined.


Lemma historicalConfDetails_sound_witness :
  (historicalConfDetails allGood neverQuit reqA 1 3).2 = None
  /\ GetBlockHash allGood 3 = Ok 3%N
  /\ MatchesTx allGood reqA tx1 = true.
Proof.
  destruct (notifier_facts.historicalConfDetails_sound
              allGood neverQuit reqA 1 3 (mkTxConfirmation 3 3 1 tx1)
              eq_refl)
    as (Herr & _ & _ & Hhash & Hmatch & _).
  split; [exact Herr|]. split; [exact Hhash | exact Hmatch].
Defined.

Lemma historicalConfDetails_finds_witness :
  historicalConfDetails allGood neverQuit reqA 1 3
  = (Some (mkTxConfirmation 3 3 (uint32 1) tx1), None).
Proof.
  apply (notifier_facts.historicalConfDetails_finds
           allGood neverQuit reqA 1 3 3 3%N tt [tx0; tx1] 1 tx1);
    try reflexivity; try lia.
  intros j tx' Hj Hlook. replace j with 0 in Hlook by lia.
  injection Hlook as <-. reflexivity.
Defined.

Lemma historicalConfDetails_range_edges_witness :
  historicalConfDetails allGood neverQuit reqA 5 3 = (None, None)
  /\ historicalConfDetails allGood neverQuit reqA 1 0 = (None, None).
Proof.
  split.
  - apply (proj1 (notifier_facts.historicalConfDetails_range_edges
                    allGood neverQuit reqA 5 3)).
    left. lia.
  - apply (proj1 (notifier_facts.historicalConfDetails_range_edges
                    allGood neverQuit reqA 1 0)).
    right. lia.
Defined.

Lemma historicalConfDetails_backend_failure_witness :
  historicalConfDetails (world 0) neverQuit reqA 1 3
  = (None, Some (Errorf "unable to get header for height=%v: %v" boom))
  /\ historicalConfDetails (world 1) neverQuit reqA 1 3
     = (None,
        Some (Errorf "unable to retrieve regular filter for height=%v: %v"
                boom))
  /\ historicalConfDetails (world 2) neverQuit reqA 1 3
     = (None, Some (Errorf "unable to query filter: %v" boom))
  /\ historicalConfDetails (world 3) neverQuit reqA 1 3
     = (None, Some (Errorf "unable to get block from network: %v" boom)).
Proof.
  assert (Hreach : forall (w : Collaborators) (h' : Z),
            (3 < h' <= 3)%Z ->
            historicalConfDetails_body w neverQuit reqA h' = Next)
    by (intros; lia).
  split; [|split; [|split]].
  - apply (proj1 (notifier_facts.historicalConfDetails_backend_failure
                    (world 0) neverQuit reqA 1 3 3 boom
                    ltac:(lia) ltac:(lia) (Hreach (world 0)) eq_refl)).
    reflexivity.
  - apply (proj1 (proj2 (notifier_facts.historicalConfDetails_backend_failure
                    (world 1) neverQuit reqA 1 3 3 boom
                    ltac:(lia) ltac:(lia) (Hreach (world 1)) eq_refl)
                  3%N eq_refl)).
    reflexivity.
  - apply (proj1 (proj2 (proj2
             (notifier_facts.historicalConfDetails_backend_failure
                (world 2) neverQuit reqA 1 3 3 boom
                ltac:(lia) ltac:(lia) (Hreach (world 2)) eq_refl)
             3%N eq_refl) tt eq_refl)).
    reflexivity.
  - apply (proj2 (proj2 (proj2
             (notifier_facts.historicalConfDetails_backend_failure
                (world 3) neverQuit reqA 1 3 3 boom
                ltac:(lia) ltac:(lia) (Hreach (world 3)) eq_refl)
             3%N eq_refl) tt eq_refl));
      reflexivity.
Defined.

Lemma historicalConfDetails_no_filter_match_witness :
  historicalConfDetails noFilters neverQuit reqA 1 3 = (None, None).
Proof.
  apply (notifier_facts.historicalConfDetails_no_filter_match
           noFilters neverQuit reqA 1 3).
  intros h Hpos Hrange. split; [reflexivity|].
  exists (Z.to_N h). split; [reflexivity|]. left. reflexivity.
Defined.

Lemma confDetailsManually_sound_witness :
  GetBlockHash allGood 3 = Ok 3%N
  /\ MatchesTx allGood reqA tx1 = true
  /\ (confDetailsManually allGood neverQuit reqA 1 3).2 = None.
Proof.
  destruct (notifier_facts.confDetailsManually_sound
              allGood neverQuit reqA 1 3)
    as (_ & _ & Herr & Hdetails).
  destruct (Hdetails (mkTxConfirmation 3 3 1 tx1) eq_refl)
    as (_ & _ & Hhash & Hmatch & _).
  split; [exact Hhash|]. split; [exact Hmatch|].
  apply Herr. eexists. reflexivity.
Defined.

Lemma confDetailsManually_not_found_witness :
  confDetailsManually noFilters neverQuit reqA 1 3
  = (None, TxNotFoundManually, None).
Proof.
  apply (notifier_facts.confDetailsManually_not_found
           noFilters neverQuit reqA 1 3).
  intros h Hpos Hrange. split; [reflexivity|].
  exists (Z.to_N h), (mkMsgBlock header105 [tx0]).
  split; [reflexivity|]. split; [reflexivity|].
  intros tx _. reflexivity.
Defined.

Lemma scans_agree_witness :
  (historicalConfDetails allGood neverQuit reqA 1 3).2 = None
  /\ confDetailsManually allGood neverQuit reqA 1 3
     = (Some (mkTxConfirmation 3 3 1 tx1), TxFoundManually, None).
Proof.
  apply (notifier_facts.scans_agree allGood neverQuit reqA 1 3).
  intros h Hpos Hrange. split; [reflexivity|].
  exists (Z.to_N h), (mkMsgBlock header105 [tx0; tx1]).
  split; [reflexivity|]. split; [reflexivity|].
  left. exists tt. repeat split.
Defined.

Lemma confDetailsFromTxIndex_sound_witness :
  (confDetailsFromTxIndex allGood txA).1.2 = TxFoundIndex
  /\ (confDetailsFromTxIndex allGood txA).2 = None
  /\ exists block : GetBlockVerboseResult,
       GetBlockVerbose allGood 99%N = Ok block
       /\ vb_Tx block !! 1 = Some (Hash_String allGood txA).
Proof.
  destruct (notifier_facts.confDetailsFromTxIndex_sound allGood txA)
    as (Hfound & _ & Hdetails).
  destruct (Hfound ltac:(eexists; reflexivity)) as [Hstatus Herr].
  split; [exact Hstatus|]. split; [exact Herr|].
  destruct (Hdetails (mkTxConfirmation 99 60 1 tx1) eq_refl)
    as (rawTxRes & block & i & rawTx & _ & _ & _ & Hblock & Hi & _
        & Hindex & _).
  exists block. split; [exact Hblock|].
  injection Hblock as <-. destruct i as [|[|i]]; [discriminate | exact Hi |].
  destruct i; discriminate.
Defined.

Lemma confDetailsFromTxIndex_failures_witness :
  confDetailsFromTxIndex (world 7) txA
  = (None, TxNotFoundIndex,
     Some (Errorf "unable to query for txid %v: %v" boom))
  /\ confDetailsFromTxIndex (world 8) txA
     = (None, TxNotFoundIndex,
        Some (Errorf
          "unable to get block hash %v for historical dispatch: %v" boom))
  /\ confDetailsFromTxIndex (world 9) txA
     = (None, TxNotFoundIndex,
        Some (Errorf
          ("unable to get block with hash %v for "
           +:+ "historical dispatch: %v") boom))
  /\ confDetailsFromTxIndex (world 10) txA
     = (None, TxFoundIndex,
        Some (Errorf "unable to deserialize tx %v: %v" boom))
  /\ confDetailsFromTxIndex (world 11) txA
     = (None, TxFoundIndex,
        Some (Errorf "unable to deserialize tx %v: %v" boom)).
Proof.
  assert (Hlisted : "07" ∈ ["aa"; "07"])
    by (apply elem_of_cons; right; apply elem_of_cons; left; reflexivity).
  split; [|split; [|split; [|split]]].
  - apply (proj1 (notifier_facts.confDetailsFromTxIndex_failures
                    (world 7) txA boom));
      [reflexivity | discriminate].
  - apply (proj1 (proj2 (notifier_facts.confDetailsFromTxIndex_failures
                           (world 8) txA boom)
                    (mkTxRawResult "0200" "b1") eq_refl
                    ltac:(discriminate))).
    reflexivity.
  - apply (proj1 (proj2 (proj2
             (notifier_facts.confDetailsFromTxIndex_failures
                (world 9) txA boom)
             (mkTxRawResult "0200" "b1") eq_refl ltac:(discriminate))
             99%N eq_refl)).
    reflexivity.
  - apply (proj1 (proj2 (proj2 (proj2
             (notifier_facts.confDetailsFromTxIndex_failures
                (world 10) txA boom)
             (mkTxRawResult "0200" "b1") eq_refl ltac:(discriminate))
             99%N eq_refl)
             (mkGetBlockVerboseResult ["aa"; "07"] 60) eq_refl Hlisted)).
    reflexivity.
  - apply (proj2 (proj2 (proj2 (proj2
             (notifier_facts.confDetailsFromTxIndex_failures
                (world 11) txA boom)
             (mkTxRawResult "0200" "b1") eq_refl ltac:(discriminate))
             99%N eq_refl)
             (mkGetBlockVerboseResult ["aa"; "07"] 60) eq_refl Hlisted)
             [] eq_refl).
    reflexivity.
Defined.

Lemma handleBlockConnected_failures_witness :
  handleBlockConnected (world 4) takeSend (mkBlockEpoch 501 78) oneClient
  = (Some (Errorf "unable to get block: %v" boom), oneClient)
  /\ bestBlock
       (handleBlockConnected (world 5) takeSend (mkBlockEpoch 501 78)
          oneClient).2
     = tip500
  /\ (handleBlockConnected (world 6) takeSend (mkBlockEpoch 501 78)
        oneClient).1
     = Some boom
  /\ bestBlock
       (handleBlockConnected (world 6) takeSend (mkBlockEpoch 501 78)
          oneClient).2
     = mkBlockEpoch 501 78.
Proof.
  split; [|split].
  - apply (proj1 (notifier_facts.handleBlockConnected_failures
                    (world 4) takeSend (mkBlockEpoch 501 78) oneClient
                    boom)).
    reflexivity.
  - destruct (proj1 (proj2 (notifier_facts.handleBlockConnected_failures
                              (world 5) takeSend (mkBlockEpoch 501 78)
                              oneClient boom)
                       (mkMsgBlock header105 [tx0; tx1]) eq_refl)
                eq_refl)
      as (_ & Hbest & _).
    exact Hbest.
  - destruct (proj2 (proj2 (notifier_facts.handleBlockConnected_failures
                              (world 6) takeSend (mkBlockEpoch 501 78)
                              oneClient boom)
                       (mkMsgBlock header105 [tx0; tx1]) eq_refl)
                eq_refl eq_refl)
      as (Herr & Hbest & _).
    split; [exact Herr | exact Hbest].
Defined.

Lemma handleBlocks_in_order_witness :
  let r := handleBlocks allGood takeSend
             [mkBlockEpoch 501 78; mkBlockEpoch 502 79] oneClient in
  r.1 = None
  /\ bestBlock r.2 = mkBlockEpoch 502 79
  /\ exists client' : blockEpochRegistration,
       blockEpochClients r.2 !! 1%N = Some client'
       /\ epochQueue client' = [mkBlockEpoch 501 78; mkBlockEpoch 502 79].
Proof.
  destruct (notifier_facts.handleBlocks_in_order allGood takeSend
              [mkBlockEpoch 501 78; mkBlockEpoch 502 79] oneClient
              eq_refl)
    as (Herr & Hbest & _ & Hclients).
  { intros block _. split; [|reflexivity].
    exists (mkMsgBlock header105 [tx0; tx1]). split; reflexivity. }
  split; [exact Herr|]. split; [exact Hbest|].
  destruct (Hclients 1%N fresh1) as (client' & Hlook & Hqueue & _);
    [vm_compute; reflexivity | reflexivity |].
  exists client'. split; [exact Hlook | exact Hqueue].
Defined.

Lemma registration_with_hint_witness :
  notificationDispatcher_step allGood takeSend
    (recvBlockEpochRegistration behind2) idle
  = Continue
      (set_blockEpochClients
         (<[2%N := mkBlockEpochRegistration 2
                     [mkBlockEpoch 499 76; mkBlockEpoch 500 77]
                     (Some (mkBlockEpoch 498 75)) [None] false]>
            (blockEpochClients idle))
         idle)
  /\ notificationDispatcher_step (world 12) takeSend
       (recvBlockEpochRegistration behind2) idle
     = Continue
         (set_blockEpochClients
            (<[2%N := mkBlockEpochRegistration 2 []
                        (Some (mkBlockEpoch 498 75)) [Some boom] false]>
               (blockEpochClients idle))
            idle).
Proof.
  split.
  - apply (proj1 (notifier_facts.registration_with_hint
                    allGood takeSend behind2 (mkBlockEpoch 498 75) idle
                    eq_refl eq_refl eq_refl eq_refl)
             [mkBlockEpoch 499 76; mkBlockEpoch 500 77]).
    reflexivity.
  - apply (proj2 (notifier_facts.registration_with_hint
                    (world 12) takeSend behind2 (mkBlockEpoch 498 75) idle
                    eq_refl eq_refl eq_refl eq_refl)
             boom).
    reflexivity.
Defined.

Lemma cancel_does_not_unregister_witness :
  blockEpochClients
    (outcome_state
       (notificationDispatcher allGood takeSend
          [recvCancel 1; recvBlockConnected (mkBlockConnected 78 501);
           recvBlockEpochRegistration behind2]
          oneClient)) !! 1%N
  = Some fresh1.
Proof.
  rewrite (notifier_facts.cancel_does_not_unregister allGood takeSend 1%N
             [recvCancel 1; recvBlockConnected (mkBlockConnected 78 501);
              recvBlockEpochRegistration behind2]).
  - vm_compute. reflexivity.
  - repeat constructor; cbn; (tauto || discriminate).
Defined.

Lemma confirmation_registration_end_to_end_witness :
  let r := RegisterConfirmationsNtfn goodConfRequest wantsDispatch false
             (Some txA) [Byte.x52] 3 50 idle noRegistrations in
  notificationRegistry r.2 = [] ++ [recvHistoricalConfDispatch dispatchA]
  /\ exists b1 : LightWalletNotifier,
       notificationDispatcher_step allGood takeSend
         (recvHistoricalConfDispatch dispatchA) idle = Continue b1
       /\ txNotifier (historicalConfTask allGood neverQuit dispatchA b1)
          = [] ++ [callUpdateConfDetails reqA
                     (Some (mkTxConfirmation 3 3 1 tx1))].
Proof.
  destruct (notifier_facts.confirmation_registration_end_to_end
              allGood neverQuit takeSend goodConfRequest wantsDispatch
              false (Some txA) [Byte.x52] 3 50 idle noRegistrations
              reqA dispatchA (Some (mkTxConfirmation 3 3 1 tx1))
              eq_refl eq_refl eq_refl eq_refl)
    as (_ & _ & Hsent & b1 & Hstep & _ & Hlog).
  split; [exact Hsent|]. exists b1. split; [exact Hstep | exact Hlog].
Defined.

Lemma confirmation_registration_without_dispatch_witness :
  (RegisterConfirmationsNtfn badConfRequest wantsDispatch false
     (Some txA) [Byte.x52] 3 50 idle noRegistrations).1
  = (None, Some boom)
  /\ (RegisterConfirmationsNtfn goodConfRequest refusesConf false
        (Some txA) [Byte.x52] 3 50 idle noRegistrations).1
     = (None, Some boom)
  /\ notificationRegistry
       (RegisterConfirmationsNtfn goodConfRequest wantsNothing false
          (Some txA) [Byte.x52] 3 50 idle noRegistrations).2
     = []
  /\ (RegisterConfirmationsNtfn goodConfRequest wantsDispatch true
        (Some txA) [Byte.x52] 3 50 stopped1 noRegistrations).1
     = (None, Some ErrChainNotifierShuttingDown).
Proof.
  split; [|split; [|split]].
  - destruct (proj1 (proj2
                (notifier_facts.confirmation_registration_without_dispatch
                   badConfRequest wantsDispatch false (Some txA)
                   [Byte.x52] 3 50 idle noRegistrations))
                boom eq_refl)
      as (Hret & _).
    exact Hret.
  - destruct (proj1 (proj2 (proj2 (proj2
                (notifier_facts.confirmation_registration_without_dispatch
                   goodConfRequest refusesConf false (Some txA)
                   [Byte.x52] 3 50 idle noRegistrations))
                reqA eq_refl))
                boom eq_refl)
      as (Hret & _).
    exact Hret.
  - destruct (proj1 (proj2 (proj2 (proj2 (proj2
                (notifier_facts.confirmation_registration_without_dispatch
                   goodConfRequest wantsNothing false (Some txA)
                   [Byte.x52] 3 50 idle noRegistrations))
                reqA eq_refl)))
                eq_refl)
      as (_ & Hsent).
    exact Hsent.
  - destruct (proj2 (proj2 (proj2 (proj2 (proj2
                (notifier_facts.confirmation_registration_without_dispatch
                   goodConfRequest wantsDispatch true (Some txA)
                   [Byte.x52] 3 50 stopped1 noRegistrations))
                reqA eq_refl)))
                dispatchA eq_refl eq_refl eq_refl)
      as (Hret & _).
    exact Hret.
Defined.

Lemma block_epoch_registration_end_to_end_witness :
  exists (reg : blockEpochRegistration) (b' : LightWalletNotifier),
    epochID reg = 2%N
    /\ notificationDispatcher_step allGood takeSend
         (recvBlockEpochRegistration reg) oneClient = Continue b'
    /\ blockEpochClients b' !! 2%N
       = Some (mkBlockEpochRegistration 2 [tip500] None [None] false)
    /\ blockEpochClients b' !! 1%N = Some fresh1.
Proof.
  destruct (notifier_facts.block_epoch_registration_end_to_end
              allGood takeSend false oneClient noRegistrations eq_refl)
    as (reg & b' & _ & Hid & _ & _ & _ & Hstep & Hnew & Hold & _).
  { intros id Hin. change (dom (blockEpochClients oneClient))
      with (dom ({[ 1%N := fresh1 ]} : gmap N blockEpochRegistration)) in Hin.
    rewrite dom_singleton_L in Hin. apply elem_of_singleton in Hin.
    subst id. reflexivity. }
  { reflexivity. }
  exists reg, b'. split; [exact Hid|]. split; [exact Hstep|].
  change (epochClientCounter noRegistrations + 1)%N with 2%N in Hid.
  rewrite Hid in Hnew. split; [exact Hnew|].
  rewrite Hold by (rewrite Hid; discriminate).
  vm_compute. reflexivity.
Defined.


Lemma Stop_closes_subscribers_witness :
  (exists p' : notifierProcess,
     Stop startedProcess = Returned None p'
     /\ quit (notifier p') = true
     /\ tornDown p' = true
     /\ exists client' : blockEpochRegistration,
          (close_cancelChan <$> blockEpochClients oneClient) !! 1%N
          = Some client'
          /\ cancelChan client' = true)
  /\ exists p' : notifierProcess,
       Stop freshProcess = Panicked p' /\ tornDown p' = false.
Proof.
  destruct (notifier_facts.Stop_closes_subscribers startedProcess eq_refl)
    as (Hstarted & _).
  destruct (Hstarted 500%Z eq_refl)
    as (p' & Hret & Hquit & _ & _ & Htorn & _ & _ & _ & _ & _ & _
        & Hclients & _).
  destruct (notifier_facts.Stop_closes_subscribers freshProcess eq_refl)
    as (_ & Hfresh).
  destruct (Hfresh eq_refl) as (q' & Hpanic & _ & _ & _ & _ & Hnot & _).
  split.
  - exists p'. split; [exact Hret|]. split; [exact Hquit|].
    split; [exact Htorn|].
    destruct (Hclients 1%N fresh1) as (client' & Hlook & Hclosed & _);
      [vm_compute; reflexivity|].
    exists client'. split; [exact Hlook | exact Hclosed].
  - exists q'. split; [exact Hpanic | exact Hnot].
Defined.

(** C7. A notifier whose quit channel is closed, with the best tip
    (500, 77), receives the fresh registration 1, which carries no
    best-known block; the select of notifyBlockEpochClient takes its quit
    case. The round stores the registration and sends nil on its error
    channel, and the queue of the subscriber is empty: success is
    signalled and no epoch has been delivered. *)
Lemma registration_during_shutdown_gets_no_epoch :
  reg_bestBlock fresh1 = None
  /\ notificationDispatcher_step noFilters takeClosed
       (recvBlockEpochRegistration fresh1) shuttingDown
     = Continue
         (set_blockEpochClients
            {[ 1%N := mkBlockEpochRegistration 1 [] None [None] false ]}
            shuttingDown)
  /\ (epochQueue
        <$> blockEpochClients
              (outcome_state
                 (notificationDispatcher_step noFilters takeClosed
                    (recvBlockEpochRegistration fresh1) shuttingDown))
            !! 1%N)
     = Some [].
Proof. by vm_compute. Qed.

End on_examples.
